(** * jax-dataloader: the batching core of [nbs/core.ipynb]

    A shallow embedding of the exported cells of the notebook that make up
    the native loader: [Config], [PRNGSequence], [ArrayDataset] and
    [DataLoaderJax].  Python integers are [Z]; arrays are lists of rows
    along their first axis; a mutated [self] is passed explicitly and
    returned next to the value or the exception of the call. *)

From Stdlib Require Import String.
From Stdlib Require Import ZArith List Bool Lia Permutation.
Import ListNotations.
Local Open Scope Z_scope.

(** ** Exceptions and results *)

(** The Python exceptions the modelled cells can raise.  [StopIteration]
    is the iteration protocol's end-of-epoch signal. *)
Inductive exn : Type :=
| AssertionError (msg : string)
| IndexError
| ZeroDivisionError
| OverflowError
| StopIteration.

Inductive result (A : Type) : Type :=
| Ok (a : A)
| Raise (e : exn).
Arguments Ok {A} a.
Arguments Raise {A} e.

Definition bind {A B : Type} (r : result A) (k : A -> result B) : result B :=
  match r with
  | Ok a => k a
  | Raise e => Raise e
  end.

Notation "x <- r ;; k" := (bind r (fun x => k))
  (at level 61, r at next level, right associativity).

(** [[f(x) for x in xs]] where [f] may raise: the first exception wins. *)
Fixpoint mapM {A B : Type} (f : A -> result B) (xs : list A) : result (list B) :=
  match xs with
  | [] => Ok []
  | x :: xs' => y <- f x ;; ys <- mapM f xs' ;; Ok (y :: ys)
  end.

(** ** Python integer and sequence primitives *)

(** [a // b]: floor division, [ZeroDivisionError] on a zero divisor.
    [Z.div] rounds towards minus infinity like Python's [//]. *)
Definition floordiv (a b : Z) : result Z :=
  if b =? 0 then Raise ZeroDivisionError else Ok (a / b).

(** [jnp.arange(n)]: the indices 0, 1, ..., n-1 (empty when n <= 0). *)
Definition arange (n : Z) : list Z := map Z.of_nat (seq 0 (Z.to_nat n)).

(** A slice bound as [slice.indices] normalises it for a positive step:
    a negative bound counts from the end, and the result is clipped to
    [0, len]. *)
Definition clip (len i : Z) : Z :=
  if i <? 0 then Z.max (i + len) 0 else Z.min i len.

(** [l[start:stop]]; [None] is an omitted bound. *)
Definition slice {A : Type} (l : list A) (start stop : option Z) : list A :=
  let len := Z.of_nat (length l) in
  let lo := match start with Some i => clip len i | None => 0 end in
  let hi := match stop with Some i => clip len i | None => len end in
  firstn (Z.to_nat (hi - lo)) (skipn (Z.to_nat lo) l).

(** Whether a Python integer fits a signed 64-bit integer.  NumPy and
    JAX convert an integer argument to one, and raise [OverflowError]
    when it does not fit. *)
Definition fits_int64 (i : Z) : bool := (- 2 ^ 63 <=? i) && (i <? 2 ^ 63).

(** ** Configuration (cell 5-7) *)

Module Config.
Record t : Type := {
  rng_reserve_size : Z;
  global_seed : Z
}.

(** [Config.default()] *)
Definition default : t := {| rng_reserve_size := 1; global_seed := 42 |}.
End Config.

(** ** The [jax.random] functions the cells call

    [jax.random] is a library outside the repository.  Its three functions
    used by the loader are taken as an interface: they are pure functions
    of their arguments, as JAX's functional PRNG makes them.  [PRNGKey]
    is the key of a seed that fits a signed 64-bit integer; for any other
    seed [jax.random.PRNGKey] raises [OverflowError], which
    [PRNGSequence.new] accounts for. *)
Class JaxRandom : Type := {
  Key : Type;
  PRNGKey : Z -> Key;                      (* jax.random.PRNGKey(seed) *)
  split : Key -> Z -> list Key;            (* jax.random.split(key, num) *)
  permutation : Key -> list Z -> list Z    (* jax.random.permutation(key, x) *)
}.

(** What the loader relies on: [split(key, n)] returns [n] keys and
    [permutation(key, x)] is a rearrangement of [x]. *)
Class JaxRandomOk (J : JaxRandom) : Prop := {
  split_length : forall k n, 0 <= n -> length (split k n) = Z.to_nat n;
  permutation_perm : forall k x, Permutation x (permutation k x)
}.

(** ** PRNGSequence (cell 8) *)

Module PRNGSequence.
Section WithJax.
Context {J : JaxRandom}.

(** [_subkeys] is the deque, leftmost element first. *)
Record t : Type := {
  _key : Key;
  _subkeys : list Key
}.

(** The fields [__init__] assigns once [jax.random.PRNGKey(seed)] has
    returned. *)
Definition __init__ (seed : Z) : t :=
  {| _key := PRNGKey seed; _subkeys := [] |}.

(** The call [PRNGSequence(seed)]: [jax.random.PRNGKey], the first
    statement of [__init__], raises [OverflowError] for a seed that does
    not fit; for the other seeds the object is [__init__ seed]. *)
Definition new (seed : Z) : result t :=
  if fits_int64 seed then Ok (__init__ seed) else Raise OverflowError.

(** [reserve(num)].  [new_keys[0]] on an empty tuple would raise
    [IndexError]; [split] returns [num + 1] keys, so that branch is not
    taken under [JaxRandomOk]. *)
Definition reserve (self : t) (num : Z) : t * result unit :=
  if 0 <? num then
    match split (_key self) (num + 1) with
    | [] => (self, Raise IndexError)
    | k0 :: rest =>
        ({| _key := k0; _subkeys := _subkeys self ++ rest |}, Ok tt)
    end
  else (self, Ok tt).

(** [deque.popleft()]: [IndexError] on an empty deque. *)
Definition popleft (self : t) : t * result Key :=
  match _subkeys self with
  | [] => (self, Raise IndexError)
  | k :: rest => ({| _key := _key self; _subkeys := rest |}, Ok k)
  end.

(** [__next__]; [cfg] is what [get_config()] returns at the call. *)
Definition __next__ (cfg : Config.t) (self : t) : t * result Key :=
  match _subkeys self with
  | [] =>
      match reserve self (Config.rng_reserve_size cfg) with
      | (self', Ok _) => popleft self'
      | (self', Raise e) => (self', Raise e)
      end
  | _ :: _ => popleft self
  end.
End WithJax.
End PRNGSequence.

(** ** ArrayDataset (cell 12) *)

(** A buffer is the list of its rows along the first axis, so
    [arr.shape[0]] is its length.  Indexing follows NumPy's [ndarray]
    (the class docstring: "Dataset wrapping numpy arrays"); what the
    array libraries do differently is kept apart in
    [ndarray_getitem_with]. *)
Definition ndarray (A : Type) : Type := list A.

(** What [__getitem__] is called with: one integer, or an integer array. *)
Inductive index : Type :=
| Int (i : Z)
| Ints (idx : list Z).

(** What indexing one buffer returns: one row, or the gathered rows. *)
Inductive item (A : Type) : Type :=
| Row (a : A)
| Rows (l : list A).
Arguments Row {A} a.
Arguments Rows {A} l.

(** The rows an item holds, along a leading batch axis. *)
Definition rows {A : Type} (it : item A) : list A :=
  match it with
  | Row a => [a]
  | Rows l => l
  end.

Section NdArray.
Context {A : Type}.

Definition shape0 (arr : ndarray A) : Z := Z.of_nat (length arr).

(** [arr[i]] for an integer [i]: indices in [-n, 0) count from the end,
    anything else outside [-n, n) raises [IndexError], or
    [OverflowError] when the index does not fit a signed 64-bit
    integer. *)
Definition getrow (arr : ndarray A) (i : Z) : result A :=
  let n := shape0 arr in
  if (- n <=? i) && (i <? n) then
    match nth_error arr (Z.to_nat (if i <? 0 then i + n else i)) with
    | Some a => Ok a
    | None => Raise IndexError
    end
  else if fits_int64 i then Raise IndexError
  else Raise OverflowError.

(** [arr[index]] *)
Definition ndarray_getitem (arr : ndarray A) (ix : index) : result (item A) :=
  match ix with
  | Int i => a <- getrow arr i ;; Ok (Row a)
  | Ints idx => l <- mapM (getrow arr) idx ;; Ok (Rows l)
  end.

(** [ArrayDataset] also accepts buffers of other array libraries, and
    what [arr[i]] does depends on the library.  [index_row] stands for
    the integer indexing of the buffers' library; [getrow] is NumPy's. *)
Definition ndarray_getitem_with (index_row : ndarray A -> Z -> result A)
    (arr : ndarray A) (ix : index) : result (item A) :=
  match ix with
  | Int i => a <- index_row arr i ;; Ok (Row a)
  | Ints idx => l <- mapM (index_row arr) idx ;; Ok (Rows l)
  end.

(** What every array library agrees on: an index in [-n, n) selects the
    row at [i mod n]. *)
Definition indexes_in_range (index_row : ndarray A -> Z -> result A) : Prop :=
  forall (arr : ndarray A) (i : Z) (a : A),
    - shape0 arr <= i < shape0 arr ->
    nth_error arr (Z.to_nat (i mod shape0 arr)) = Some a ->
    index_row arr i = Ok a.

(** Integer indexing that clamps instead of raising, as [jax.numpy]
    arrays do: a negative index counts from the end, and the result is
    brought into [0, n - 1].  An empty buffer has no row to return. *)
Definition getrow_clamp (arr : ndarray A) (i : Z) : result A :=
  let n := shape0 arr in
  let j := if i <? 0 then i + n else i in
  match nth_error arr (Z.to_nat (Z.max 0 (Z.min j (n - 1)))) with
  | Some a => Ok a
  | None => Raise IndexError
  end.
End NdArray.

Module ArrayDataset.
Section WithRows.
Context {A : Type}.

Record t : Type := { arrays : list (ndarray A) }.

(** [__init__] on the tuple [arrays]: the generator inside [all] reads [arrays[0]]
    once per element, so an empty tuple passes the assertion. *)
Definition __init__ (arrays : list (ndarray A)) : result t :=
  match arrays with
  | [] => Ok {| arrays := arrays |}
  | arr0 :: _ =>
      if forallb (fun arr => shape0 arr0 =? shape0 arr) arrays
      then Ok {| arrays := arrays |}
      else Raise (AssertionError "All arrays must have the same dimension.")
  end.

(** [__len__]: [self.arrays[0].shape[0]] *)
Definition __len__ (self : t) : result Z :=
  match arrays self with
  | [] => Raise IndexError
  | arr0 :: _ => Ok (shape0 arr0)
  end.

(** [__getitem__]: [tuple(arr[index] for arr in self.arrays)], over
    NumPy buffers. *)
Definition __getitem__ (self : t) (ix : index) : result (list (item A)) :=
  mapM (fun arr => ndarray_getitem arr ix) (arrays self).

(** [__getitem__] over the buffers of any array library. *)
Definition getitem_with (index_row : ndarray A -> Z -> result A)
    (self : t) (ix : index) : result (list (item A)) :=
  mapM (fun arr => ndarray_getitem_with index_row arr ix) (arrays self).
End WithRows.
End ArrayDataset.

(** ** DataLoaderJax (cell 37) *)

Module DataLoaderJax.
Section WithJax.
Context {J : JaxRandom} {A : Type}.

(** One batch: a tuple with one item per buffer of the dataset. *)
Definition batch : Type := list (item A).

Record t : Type := {
  dataset : @ArrayDataset.t A;
  batch_size : Z;
  shuffle : bool;
  drop_last : bool;
  keys : PRNGSequence.t;
  data_len : Z;
  indices : list Z;
  pose : Z
}.

Definition set_keys (self : t) (ks : PRNGSequence.t) : t :=
  {| dataset := dataset self; batch_size := batch_size self;
     shuffle := shuffle self; drop_last := drop_last self;
     keys := ks; data_len := data_len self;
     indices := indices self; pose := pose self |}.

Definition set_indices (self : t) (ixs : list Z) : t :=
  {| dataset := dataset self; batch_size := batch_size self;
     shuffle := shuffle self; drop_last := drop_last self;
     keys := keys self; data_len := data_len self;
     indices := ixs; pose := pose self |}.

Definition set_pose (self : t) (p : Z) : t :=
  {| dataset := dataset self; batch_size := batch_size self;
     shuffle := shuffle self; drop_last := drop_last self;
     keys := keys self; data_len := data_len self;
     indices := indices self; pose := p |}.

(** [_shuffle]: [next(self.keys)] runs first; when it raises, the keys
    object keeps whatever [__next__] did to it and [indices] is left. *)
Definition _shuffle (cfg : Config.t) (self : t) : t * result unit :=
  if shuffle self then
    match PRNGSequence.__next__ cfg (keys self) with
    | (ks, Ok k) =>
        (set_indices (set_keys self ks) (permutation k (indices self)), Ok tt)
    | (ks, Raise e) => (set_keys self ks, Raise e)
    end
  else (self, Ok tt).

(** [__init__], on the branch [hk is None] (haiku not installed), where
    the repository's own [PRNGSequence] is used; with haiku installed the
    key sequence is haiku's, which refills by haiku's own reserve size
    and not by [rng_reserve_size].  The key sequence is
    built first, so a seed [jax.random.PRNGKey] rejects ends the
    constructor before the dataset is looked at.  [kwargs] are the extra
    keyword arguments the signature accepts; the body never reads them. *)
Definition __init__ (cfg : Config.t) (dataset : @ArrayDataset.t A)
    (batch_size : Z) (shuffle drop_last : bool)
    (kwargs : list (string * Z)) : result t :=
  keys <- PRNGSequence.new (Config.global_seed cfg) ;;
  n <- ArrayDataset.__len__ dataset ;;
  let self :=
    {| dataset := dataset; batch_size := batch_size; shuffle := shuffle;
       drop_last := drop_last; keys := keys; data_len := n;
       indices := arange n; pose := 0 |} in
  match _shuffle cfg self with
  | (self', Ok _) => Ok self'
  | (_, Raise e) => Raise e
  end.

(** [_stop_iteration] never returns: it raises [StopIteration], or what
    [_shuffle] raised before reaching the [raise]. *)
Definition _stop_iteration (cfg : Config.t) (self : t) : t * exn :=
  match _shuffle cfg (set_pose self 0) with
  | (self', Ok _) => (self', StopIteration)
  | (self', Raise e) => (self', e)
  end.

(** [__len__], the method as written (the builtin [len] would in
    addition reject a negative result). *)
Definition __len__ (self : t) : result Z :=
  n <- ArrayDataset.__len__ (dataset self) ;;
  if drop_last self then floordiv n (batch_size self)
  else q <- floordiv n (- batch_size self) ;; Ok (- q).

(** [__next__].  In both yielding branches [pose] advances by the whole
    [batch_size], after the gather has succeeded. *)
Definition __next__ (cfg : Config.t) (self : t) : t * result batch :=
  if pose self + batch_size self <=? data_len self then
    let batch_indices :=
      slice (indices self) (Some (pose self))
            (Some (pose self + batch_size self)) in
    match ArrayDataset.__getitem__ (dataset self) (Ints batch_indices) with
    | Ok batch_data =>
        (set_pose self (pose self + batch_size self), Ok batch_data)
    | Raise e => (self, Raise e)
    end
  else if (pose self <? data_len self) && negb (drop_last self) then
    let batch_indices := slice (indices self) (Some (pose self)) None in
    match ArrayDataset.__getitem__ (dataset self) (Ints batch_indices) with
    | Ok batch_data =>
        (set_pose self (pose self + batch_size self), Ok batch_data)
    | Raise e => (self, Raise e)
    end
  else
    let (self', e) := _stop_iteration cfg self in (self', Raise e).

Definition __iter__ (self : t) : t := self.

(** How a [for batch in dl:] loop ends. *)
Inductive outcome : Type :=
| Done (batches : list batch)      (* StopIteration reached *)
| Failed (e : exn)                 (* another exception escaped the loop *)
| OutOfFuel.                       (* still yielding after [fuel] calls *)

Definition yielded (b : batch) (o : outcome) : outcome :=
  match o with
  | Done batches => Done (b :: batches)
  | Failed e => Failed e
  | OutOfFuel => OutOfFuel
  end.

(** One [for batch in dl: ...] loop collecting the batches: [__next__]
    is called until it raises.  [fuel] bounds the number of calls. *)
Fixpoint iterate (cfg : Config.t) (fuel : nat) (self : t) : t * outcome :=
  match fuel with
  | O => (self, OutOfFuel)
  | S fuel' =>
      match __next__ cfg self with
      | (self', Ok b) =>
          let (self'', o) := iterate cfg fuel' self' in (self'', yielded b o)
      | (self', Raise StopIteration) => (self', Done [])
      | (self', Raise e) => (self', Failed e)
      end
  end.

Definition for_loop (cfg : Config.t) (fuel : nat) (self : t) : t * outcome :=
  iterate cfg fuel (__iter__ self).

(** The states a loader can be in: what [__next__] calls lead to. *)
Inductive reachable (cfg : Config.t) (self0 : t) : t -> Prop :=
| reach_init : reachable cfg self0 self0
| reach_next (self self' : t) (r : result batch) :
    reachable cfg self0 self ->
    __next__ cfg self = (self', r) ->
    reachable cfg self0 self'.

(** [jnp.concatenate] of the [j]-th components of the batches, as the
    notebook's [test_dataloader] assembles [_X] and [_Y]. *)
Definition column (j : nat) (batches : list batch) : list A :=
  concat (map (fun b : batch => rows (nth j b (Rows []))) batches).
End WithJax.
End DataLoaderJax.

(** ** Call sequences on key sequences *)

Module Calls.
Section WithJax.
Context {J : JaxRandom}.

(** The two public operations of a [PRNGSequence]. *)
Inductive call : Type :=
| Reserve (num : Z)
| Next.

(** What a call hands back: [None] for [reserve], the key for [next],
    or the exception. *)
Definition reply : Type := result (option Key).

Definition perform (cfg : Config.t) (self : PRNGSequence.t) (c : call)
    : PRNGSequence.t * reply :=
  match c with
  | Reserve num =>
      match PRNGSequence.reserve self num with
      | (self', Ok _) => (self', Ok None)
      | (self', Raise e) => (self', Raise e)
      end
  | Next =>
      match PRNGSequence.__next__ cfg self with
      | (self', Ok k) => (self', Ok (Some k))
      | (self', Raise e) => (self', Raise e)
      end
  end.

(** A program that keeps calling one object, exceptions caught and
    recorded. *)
Fixpoint run (cfg : Config.t) (self : PRNGSequence.t) (cs : list call)
    : list reply :=
  match cs with
  | [] => []
  | c :: cs' =>
      let (self', r) := perform cfg self c in r :: run cfg self' cs'
  end.

(** The same while the module-level configuration is reassigned between
    the calls: every call comes with the configuration [get_config()]
    returns when it is made. *)
Fixpoint run_under (self : PRNGSequence.t) (cs : list (Config.t * call))
    : list reply :=
  match cs with
  | [] => []
  | (cfg, c) :: cs' =>
      let (self', r) := perform cfg self c in r :: run_under self' cs'
  end.

(** Whether a call on [self] reads the configuration: [reserve] never
    does, and [next] only when it finds the queue empty. *)
Definition reads_config (self : PRNGSequence.t) (c : call) : bool :=
  match c, PRNGSequence._subkeys self with
  | Next, [] => true
  | _, _ => false
  end.

(** Two runs that start from [self] make the same calls, and wherever a
    call reads the configuration both runs find the same reserve size.
    What else the two configurations hold, and what they hold at the
    other calls, is left open. *)
Fixpoint same_where_read (self : PRNGSequence.t)
    (cs1 cs2 : list (Config.t * call)) : Prop :=
  match cs1, cs2 with
  | [], [] => True
  | (cfg1, c1) :: cs1', (cfg2, c2) :: cs2' =>
      c1 = c2
      /\ (reads_config self c1 = true ->
          Config.rng_reserve_size cfg1 = Config.rng_reserve_size cfg2)
      /\ same_where_read (fst (perform cfg1 self c1)) cs1' cs2'
  | _, _ => False
  end.
End WithJax.
End Calls.

(** ** A small concrete [jax.random]

    Keys are integers, [split] derives consecutive integers and
    [permutation] rotates its argument by the key.  It stands in for the
    library wherever a run is evaluated. *)
Module Toy.
Definition rotate (k : Z) (x : list Z) : list Z :=
  let r := Z.to_nat (k mod Z.of_nat (length x)) in
  skipn r x ++ firstn r x.

#[export] Instance jax : JaxRandom := {|
  Key := Z;
  PRNGKey := fun seed => seed;
  split := fun k n => map (fun i => 31 * k + i + 1) (arange n);
  permutation := rotate
|}.

(** Eleven samples in two buffers, features and labels. *)
Definition feats : ndarray Z := map (fun i => 100 + i) (arange 11).
Definition labels : ndarray Z := arange 11.
Definition ds11 : @ArrayDataset.t Z := {| ArrayDataset.arrays := [feats; labels] |}.

(** [DataLoaderJax(ds11, batch_size=B, shuffle=True, drop_last=dl)] as
    the constructor leaves it under [Config.default]: seed 42 is split
    into 1303 and 1304, and the indices are rotated by 1304. *)
Definition loader (B : Z) (dl : bool) : DataLoaderJax.t :=
  {| DataLoaderJax.dataset := ds11;
     DataLoaderJax.batch_size := B;
     DataLoaderJax.shuffle := true;
     DataLoaderJax.drop_last := dl;
     DataLoaderJax.keys :=
       {| PRNGSequence._key := 1303; PRNGSequence._subkeys := [] |};
     DataLoaderJax.data_len := 11;
     DataLoaderJax.indices := [6; 7; 8; 9; 10; 0; 1; 2; 3; 4; 5];
     DataLoaderJax.pose := 0 |}.
End Toy.

(** ** Vocabulary of the statements *)

(** Row [p] of [l] is the sample of buffer [col] at index [idx[p]], for
    every position [p]: [l] is [col] read in the order [idx]. *)
Definition samples_at {A : Type} (col : ndarray A) (l : list A) (idx : list Z) : Prop :=
  Forall2 (fun a i => nth_error col (Z.to_nat i) = Some a) l idx.

(** Every component of the batch holds exactly [n] rows. *)
Definition full_batch {A : Type} (n : Z) (b : list (item A)) : Prop :=
  Forall (fun it => Z.of_nat (length (rows it)) = n) b.

(** [idx] is a bijection on [0, n): it lists every index below [n] once. *)
Definition bijection_on (n : Z) (idx : list Z) : Prop :=
  Permutation (arange n) idx.

(** All buffers have the same first-axis size. *)
Definition same_first_axis {A : Type} (arrays : list (ndarray A)) : Prop :=
  forall a b, In a arrays -> In b arrays -> shape0 a = shape0 b.

Section LoaderVocabulary.
Context {J : JaxRandom} {A : Type}.
Implicit Types (self : @DataLoaderJax.t J A).

(** The fields no method assigns after the constructor. *)
Definition same_setup self self' : Prop :=
  DataLoaderJax.dataset self' = DataLoaderJax.dataset self
  /\ DataLoaderJax.batch_size self' = DataLoaderJax.batch_size self
  /\ DataLoaderJax.shuffle self' = DataLoaderJax.shuffle self
  /\ DataLoaderJax.drop_last self' = DataLoaderJax.drop_last self
  /\ DataLoaderJax.data_len self' = DataLoaderJax.data_len self.

(** The index sequence of a loader over [n] samples is a bijection. *)
Definition indices_ok (n : Z) self : Prop :=
  0 <= n
  /\ DataLoaderJax.data_len self = n
  /\ bijection_on n (DataLoaderJax.indices self).

(** A loader over a dataset of [n] samples per buffer that can run
    epochs: its index sequence is a bijection, and when it shuffles, the
    configuration lets the key sequence refill. *)
Definition ready (cfg : Config.t) (n : Z) self : Prop :=
  Forall (fun arr => shape0 arr = n)
         (ArrayDataset.arrays (DataLoaderJax.dataset self))
  /\ ArrayDataset.__len__ (DataLoaderJax.dataset self) = Ok n
  /\ indices_ok n self
  /\ (DataLoaderJax.shuffle self = true -> 1 <= Config.rng_reserve_size cfg).

(** What a yielded batch holds: per buffer, the rows at [idx]. *)
Definition gathered self (b : DataLoaderJax.batch) (idx : list Z) : Prop :=
  Forall2 (fun (it : item A) (col : ndarray A) =>
             exists l, it = Rows l /\ samples_at col l idx)
          b (ArrayDataset.arrays (DataLoaderJax.dataset self)).
End LoaderVocabulary.

(** ** Streams of keys *)

Module KeyStream.
Section WithJax.
Context {J : JaxRandom}.

(** The object a program is left with after the calls [cs]. *)
Fixpoint state_after (cfg : Config.t) (self : PRNGSequence.t)
    (cs : list Calls.call) : PRNGSequence.t :=
  match cs with
  | [] => self
  | c :: cs' => state_after cfg (fst (Calls.perform cfg self c)) cs'
  end.

(** The keys of [n] successive refills of size [r] starting from the root
    key [root]: each refill splits the current root into [r + 1] keys,
    keeps the first as the next root and queues the others. *)
Fixpoint refills (r : Z) (root : Key) (n : nat) : list Key :=
  match n with
  | O => []
  | S n' =>
      match split root (r + 1) with
      | [] => []
      | k0 :: rest => rest ++ refills r k0 n'
      end
  end.
End WithJax.
End KeyStream.

(** ** Backend dispatch (cells 4, 9, 45-47 and 49)

    The dispatch code tells objects apart with [isinstance] and looks at
    two module-level names, [torch_data] and [hf_datasets], which are
    [None] when the optional import failed.  Objects of torch and of
    huggingface datasets are kept abstract. *)

Module Dispatch.

(** [torch_data is not None], [hf_datasets is not None]. *)
Record imports : Type := {
  torch_data : bool;
  hf_datasets : bool
}.

(** The three [ValueError]s of the dispatch functions, by their message. *)
Inductive value_error : Type :=
| PytorchDatasetNeedsPytorchBackend   (* "... is a pytorch dataset, which is only supported by 'pytorch' backend ..." *)
| BackendNotSupported                 (* "backend=... is either an invalid backend or not supported yet. ..." *)
| DatasetNotRecognised.               (* "dataset must be one of ..." *)

Inductive pyexn : Type :=
| ValueError (why : value_error)
| AttributeError          (* [torch_data.Dataset] while [torch_data] is [None] *)
| KeyError (key : string)
| TypeError               (* calling [None] *)
| ModuleNotFoundError
| Core (e : exn)          (* raised by the loader's own constructor *)
| External (name : string).   (* raised inside torch or huggingface code *)

Inductive outcome (X : Type) : Type :=
| Returned (x : X)
| Raised (e : pyexn).
Arguments Returned {X} x.
Arguments Raised {X} e.

(** The loader classes the backend table refers to. *)
Inductive loader_class : Type :=
| DataLoaderJax_class
| DataLoaderPytorch_class.

(** [DataloaderBackends]: the class-level dict [__all__] in insertion
    order; [None] marks a backend that is declared and not provided. *)
Module DataloaderBackends.
Definition __all__ : list (string * option loader_class) :=
  [("jax"%string, Some DataLoaderJax_class);
   ("pytorch"%string, Some DataLoaderPytorch_class);
   ("tensorflow"%string, None);
   ("merlin"%string, None)].

(** [self.__all__[key]] *)
Definition __getitem__ (key : string) : outcome (option loader_class) :=
  match find (fun kv => String.eqb (fst kv) key) __all__ with
  | Some (_, dl_cls) => Returned dl_cls
  | None => Raised (KeyError key)
  end.

(** [[backend for backend, dl_cls in self.__all__.items()
      if dl_cls is not None]] *)
Definition supported : list string :=
  map fst (filter (fun kv => match snd kv with Some _ => true | None => false end)
                  __all__).
End DataloaderBackends.

(** [_dispatch_dataloader(backend)] *)
Definition _dispatch_dataloader (backend : string)
    : outcome (option loader_class) :=
  if negb (existsb (String.eqb backend) DataloaderBackends.supported)
  then Raised (ValueError BackendNotSupported)
  else DataloaderBackends.__getitem__ backend.

(** [_check_pytorch_installed()] *)
Definition _check_pytorch_installed (env : imports) : outcome unit :=
  if torch_data env then Returned tt else Raised ModuleNotFoundError.

(** [_check_hf_installed()] *)
Definition _check_hf_installed (env : imports) : outcome unit :=
  if hf_datasets env then Returned tt else Raised ModuleNotFoundError.

Section WithObjects.
Context {J : JaxRandom} {A : Type}.

(** Objects of the other libraries, and the two things the dispatch code
    does with them: evaluating [_has_tensor(dataset[0])] on a torch
    dataset, and [dataset.with_format("jax")] on a huggingface one. *)
Variables (T H O : Type).
Variable first_has_tensor : T -> outcome bool.
Variable with_format : H -> string -> H.

(** What can be passed as [dataset], by the class tests the code makes. *)
Inductive pyobject : Type :=
| CoreDataset (ds : @ArrayDataset.t A)   (* isinstance(dataset, Dataset) *)
| TorchObject (t : T)                    (* a torch_data.Dataset *)
| HFObject (h : H)                       (* a hf_datasets.Dataset or DatasetDict *)
| OtherObject (o : O).

(** [isinstance(dataset, torch_data.Dataset)]: the attribute access fails
    on [None]. *)
Definition isinstance_torch (env : imports) (dataset : pyobject) : outcome bool :=
  if torch_data env then
    Returned match dataset with TorchObject _ => true | _ => false end
  else Raised AttributeError.

(** [_is_hf_dataset(dataset)], as a truth value: [hf_datasets and (...)]
    is [None] when the import failed. *)
Definition _is_hf_dataset (env : imports) (dataset : pyobject) : bool :=
  hf_datasets env && match dataset with HFObject _ => true | _ => false end.

(** [_dispatch_dataset(dataset)]: the dataset to use, and whether the
    torch-tensor warning was issued. *)
Definition _dispatch_dataset (env : imports) (dataset : pyobject)
    : outcome (pyobject * bool) :=
  match dataset with
  | CoreDataset _ => Returned (dataset, false)
  | _ =>
      match torch_data env, dataset with
      | true, TorchObject t =>
          match first_has_tensor t with
          | Returned warn => Returned (dataset, warn)
          | Raised e => Raised e
          end
      | _, _ =>
          if _is_hf_dataset env dataset then
            match dataset with
            | HFObject h => Returned (HFObject (with_format h "jax"), false)
            | _ => Returned (dataset, false)
            end
          else Raised (ValueError DatasetNotRecognised)
      end
  end.

(** [_dispatch_dataset_and_backend(dataset, backend)] *)
Definition _dispatch_dataset_and_backend (env : imports) (dataset : pyobject)
    (backend : string) : outcome (pyobject * bool * option loader_class) :=
  let mismatch :=
    if negb (String.eqb backend "pytorch") then isinstance_torch env dataset
    else Returned false in
  match mismatch with
  | Raised e => Raised e
  | Returned true => Raised (ValueError PytorchDatasetNeedsPytorchBackend)
  | Returned false =>
      match _dispatch_dataset env dataset with
      | Raised e => Raised e
      | Returned (dataset', warned) =>
          match _dispatch_dataloader backend with
          | Raised e => Raised e
          | Returned dl_cls => Returned (dataset', warned, dl_cls)
          end
      end
  end.

(** Loaders built by code outside this development: torch's
    [DataLoader] behind [DataLoaderPytorch], or [DataLoaderJax] over an
    object of another library.  [F] is what such a construction returns
    and [foreign_init] its outcome for the class and the arguments of the
    call; it can raise (torch rejects a batch size that is not positive
    and keyword arguments it does not know). *)
Variable F : Type.
Variable foreign_init :
  loader_class -> pyobject -> Z -> bool -> bool -> list (string * Z) -> outcome F.

(** What [DataLoader.__init__] stores in [self.dataloader]: a native
    loader over an [ArrayDataset], or a loader of the other kind. *)
Inductive dataloader : Type :=
| Native (ld : @DataLoaderJax.t J A)
| Foreign (f : F).

Definition foreign (dl_cls : loader_class) (dataset : pyobject)
    (batch_size : Z) (shuffle drop_last : bool) (kwargs : list (string * Z))
    : outcome dataloader :=
  match foreign_init dl_cls dataset batch_size shuffle drop_last kwargs with
  | Returned f => Returned (Foreign f)
  | Raised e => Raised e
  end.

(** [dl_cls(dataset=..., batch_size=..., shuffle=..., drop_last=...,
    **kwargs)]; [DataLoaderPytorch.__init__] checks for torch first and
    then calls [torch_data.DataLoader]. *)
Definition construct (env : imports) (cfg : Config.t)
    (dl_cls : option loader_class) (dataset : pyobject) (batch_size : Z)
    (shuffle drop_last : bool) (kwargs : list (string * Z))
    : outcome dataloader :=
  match dl_cls with
  | None => Raised TypeError
  | Some DataLoaderJax_class =>
      match dataset with
      | CoreDataset ds =>
          match DataLoaderJax.__init__ cfg ds batch_size shuffle drop_last kwargs with
          | Ok ld => Returned (Native ld)
          | Raise e => Raised (Core e)
          end
      | _ => foreign DataLoaderJax_class dataset batch_size shuffle drop_last
               kwargs
      end
  | Some DataLoaderPytorch_class =>
      match _check_pytorch_installed env with
      | Raised e => Raised e
      | Returned _ =>
          foreign DataLoaderPytorch_class dataset batch_size shuffle drop_last
            kwargs
      end
  end.

(** [DataLoader.__init__(dataset, backend, batch_size, shuffle,
    drop_last, **kwargs)]: the value of [self.dataloader]. *)
Definition DataLoader__init__ (env : imports) (cfg : Config.t)
    (dataset : pyobject) (backend : string) (batch_size : Z)
    (shuffle drop_last : bool) (kwargs : list (string * Z))
    : outcome dataloader :=
  match _dispatch_dataset_and_backend env dataset backend with
  | Raised e => Raised e
  | Returned (dataset', _, dl_cls) =>
      construct env cfg dl_cls dataset' batch_size shuffle drop_last kwargs
  end.
End WithObjects.
End Dispatch.

(** * Properties *)

(** ** Integers, ranges and slices *)

Lemma fits_int64_spec (seed : Z) :
  fits_int64 seed = true <-> - 2 ^ 63 <= seed < 2 ^ 63.
Proof.
  unfold fits_int64. rewrite andb_true_iff, Z.leb_le, Z.ltb_lt. tauto.
Qed.

Lemma ceil_floordiv (n b : Z) : 0 < b -> - (n / - b) = (n + b - 1) / b.
Proof.
  intros Hb.
  pose proof (Z.div_mod n (- b) ltac:(lia)) as Hdm.
  pose proof (Z.mod_neg_bound n (- b) ltac:(lia)) as Hr.
  apply (Z.div_unique_pos _ _ _ (n mod - b + b - 1)); lia.
Qed.

Lemma arange_length (n : Z) : 0 <= n -> Z.of_nat (length (arange n)) = n.
Proof. intros H. unfold arange. rewrite length_map, length_seq. lia. Qed.

Lemma arange_In (n i : Z) : In i (arange n) <-> 0 <= i < n.
Proof.
  unfold arange. rewrite in_map_iff. split.
  - intros [k [<- Hk]]. apply in_seq in Hk. lia.
  - intros H. exists (Z.to_nat i). split; [lia | apply in_seq; lia].
Qed.

Lemma arange_NoDup (n : Z) : NoDup (arange n).
Proof.
  unfold arange. apply Finite.Injective_map_NoDup.
  - intros x y. lia.
  - apply seq_NoDup.
Qed.

Lemma arange_nth (n : Z) (k : nat) :
  (k < Z.to_nat n)%nat -> nth_error (arange n) k = Some (Z.of_nat k).
Proof.
  intros H. unfold arange. rewrite nth_error_map, nth_error_seq.
  destruct (Nat.ltb_spec k (Z.to_nat n)); [reflexivity | lia].
Qed.

Lemma bijection_on_length (n : Z) (idx : list Z) :
  0 <= n -> bijection_on n idx -> Z.of_nat (length idx) = n.
Proof.
  intros Hn H. rewrite <- (Permutation_length H). now apply arange_length.
Qed.

Lemma bijection_on_In (n : Z) (idx : list Z) (i : Z) :
  bijection_on n idx -> In i idx <-> 0 <= i < n.
Proof.
  intros H. rewrite <- arange_In. split; apply Permutation_in; [symmetry|]; exact H.
Qed.

Lemma bijection_on_NoDup (n : Z) (idx : list Z) :
  bijection_on n idx -> NoDup idx.
Proof. intros H. eapply Permutation_NoDup; [exact H | apply arange_NoDup]. Qed.

Lemma slice_mid {A : Type} (l : list A) (p b : Z) :
  0 <= p -> 0 <= b -> p + b <= Z.of_nat (length l) ->
  slice l (Some p) (Some (p + b)) = firstn (Z.to_nat b) (skipn (Z.to_nat p) l).
Proof.
  intros Hp Hb Hle. unfold slice, clip.
  destruct (Z.ltb_spec p 0); [lia|].
  destruct (Z.ltb_spec (p + b) 0); [lia|].
  do 2 f_equal; lia.
Qed.

Lemma slice_tail {A : Type} (l : list A) (p : Z) :
  0 <= p <= Z.of_nat (length l) ->
  slice l (Some p) None = skipn (Z.to_nat p) l.
Proof.
  intros Hp. unfold slice, clip.
  destruct (Z.ltb_spec p 0); [lia|].
  rewrite Z.min_l by lia.
  apply firstn_all2. rewrite length_skipn. lia.
Qed.

Lemma In_firstn {A : Type} (n : nat) (l : list A) (x : A) :
  In x (firstn n l) -> In x l.
Proof. intros H. rewrite <- (firstn_skipn n l). apply in_or_app. now left. Qed.

Lemma In_skipn {A : Type} (n : nat) (l : list A) (x : A) :
  In x (skipn n l) -> In x l.
Proof. intros H. rewrite <- (firstn_skipn n l). apply in_or_app. now right. Qed.

(** Whatever the bounds, a slice only holds elements of the list. *)
Lemma slice_In {A : Type} (l : list A) (start stop : option Z) (x : A) :
  In x (slice l start stop) -> In x l.
Proof. unfold slice. intros H. eapply In_skipn, In_firstn, H. Qed.

Lemma Forall2_nth_error {A B : Type} (R : A -> B -> Prop) (l : list A)
    (l' : list B) (k : nat) (a : A) :
  Forall2 R l l' -> nth_error l k = Some a ->
  exists b, nth_error l' k = Some b /\ R a b.
Proof.
  intros H. revert k. induction H as [|x y l l' Hxy _ IH]; intros [|k] E;
    try discriminate.
  - injection E as <-. now exists y.
  - now apply IH.
Qed.

Lemma Forall2_nth_error_r {A B : Type} (R : A -> B -> Prop) (l : list A)
    (l' : list B) (k : nat) (b : B) :
  Forall2 R l l' -> nth_error l' k = Some b ->
  exists a, nth_error l k = Some a /\ R a b.
Proof.
  intros H. revert k. induction H as [|x y l l' Hxy _ IH]; intros [|k] E;
    try discriminate.
  - injection E as <-. now exists x.
  - now apply IH.
Qed.

(** ** Indexing buffers *)

Section Indexing.
Context {A : Type}.
Implicit Types (arr col : ndarray A) (ds : @ArrayDataset.t A).

Lemma getrow_nonneg arr (i : Z) :
  0 <= i < shape0 arr ->
  exists a, getrow arr i = Ok a /\ nth_error arr (Z.to_nat i) = Some a.
Proof.
  intros Hi. unfold getrow.
  destruct (Z.leb_spec (- shape0 arr) i); [|lia].
  destruct (Z.ltb_spec i (shape0 arr)); [|lia].
  destruct (Z.ltb_spec i 0); [lia|]. cbn [andb].
  destruct (nth_error arr (Z.to_nat i)) as [a|] eqn:E.
  - now exists a.
  - apply nth_error_None in E. unfold shape0 in *. lia.
Qed.

Lemma getrow_negative arr (i : Z) :
  - shape0 arr <= i < 0 ->
  exists a, getrow arr i = Ok a
            /\ nth_error arr (Z.to_nat (i + shape0 arr)) = Some a.
Proof.
  intros Hi. unfold getrow.
  destruct (Z.leb_spec (- shape0 arr) i); [|lia].
  destruct (Z.ltb_spec i (shape0 arr)); [|lia].
  destruct (Z.ltb_spec i 0); [|lia]. cbn [andb].
  destruct (nth_error arr (Z.to_nat (i + shape0 arr))) as [a|] eqn:E.
  - now exists a.
  - apply nth_error_None in E. unfold shape0 in *. lia.
Qed.

Lemma getrow_wrap arr (i : Z) :
  - shape0 arr <= i < shape0 arr ->
  exists a, getrow arr i = Ok a
            /\ nth_error arr (Z.to_nat (i mod shape0 arr)) = Some a.
Proof.
  intros Hi. destruct (Z_lt_ge_dec i 0) as [Hneg|Hpos].
  - destruct (getrow_negative arr i ltac:(lia)) as [a [Ha Hn]].
    exists a. split; [exact Ha|].
    replace (i mod shape0 arr) with (i + shape0 arr); [exact Hn|].
    apply (Z.mod_unique_pos _ _ (-1)); lia.
  - destruct (getrow_nonneg arr i ltac:(lia)) as [a [Ha Hn]].
    exists a. split; [exact Ha|]. now rewrite Z.mod_small by lia.
Qed.

(** NumPy's indexing and clamping indexing agree inside [-n, n). *)
Lemma getrow_in_range : indexes_in_range (@getrow A).
Proof.
  intros arr i a Hi Hn. destruct (getrow_wrap arr i Hi) as [a' [-> Hn']].
  congruence.
Qed.

Lemma getrow_clamp_in_range : indexes_in_range (@getrow_clamp A).
Proof.
  intros arr i a Hi Hn. unfold getrow_clamp.
  replace (Z.max 0 (Z.min (if i <? 0 then i + shape0 arr else i)
                          (shape0 arr - 1)))
    with (i mod shape0 arr); [now rewrite Hn|].
  destruct (Z.ltb_spec i 0).
  - rewrite Z.min_l, Z.max_r by lia. symmetry.
    apply (Z.mod_unique_pos _ _ (-1)); lia.
  - rewrite Z.min_l, Z.max_r by lia. apply Z.mod_small. lia.
Qed.

(** Gathering at indices that are all in range succeeds and reads the
    rows in the order of the indices. *)
Lemma gather_in_range arr (idx : list Z) :
  Forall (fun i => 0 <= i < shape0 arr) idx ->
  exists l, mapM (getrow arr) idx = Ok l /\ samples_at arr l idx.
Proof.
  induction 1 as [|i idx Hi _ [l [IHm IHs]]]; cbn [mapM].
  - exists []. split; [reflexivity | constructor].
  - destruct (getrow_nonneg arr i Hi) as [a [Ha Hn]].
    rewrite Ha, IHm. cbn [bind]. exists (a :: l).
    split; [reflexivity | now constructor].
Qed.

(** The same for a whole dataset whose buffers all have [n] rows: the
    batch has one [Rows] component per buffer. *)
Lemma getitem_in_range (arrs : list (ndarray A)) (n : Z) (idx : list Z) :
  Forall (fun arr => shape0 arr = n) arrs ->
  Forall (fun i => 0 <= i < n) idx ->
  exists b, mapM (fun arr => ndarray_getitem arr (Ints idx)) arrs = Ok b
    /\ Forall2 (fun it col => exists l, it = Rows l /\ samples_at col l idx)
               b arrs.
Proof.
  intros Hs Hidx. induction Hs as [|arr arrs Harr _ [b [IHm IHf]]]; cbn [mapM].
  - exists []. split; [reflexivity | constructor].
  - destruct (gather_in_range arr idx) as [l [Hl Hsamp]].
    { rewrite Harr. exact Hidx. }
    change (ndarray_getitem arr (Ints idx))
      with (l <- mapM (getrow arr) idx ;; Ok (Rows l)).
    rewrite Hl. cbn [bind]. rewrite IHm. cbn [bind].
    exists (Rows l :: b). split; [reflexivity|].
    constructor; [now exists l | exact IHf].
Qed.

Lemma samples_at_app col (l1 l2 : list A) (i1 i2 : list Z) :
  samples_at col l1 i1 -> samples_at col l2 i2 ->
  samples_at col (l1 ++ l2) (i1 ++ i2).
Proof. apply Forall2_app. Qed.

Lemma samples_at_length col (l : list A) (idx : list Z) :
  samples_at col l idx -> length l = length idx.
Proof. apply Forall2_length. Qed.

(** Reading a buffer in the identity order gives the buffer back. *)
Lemma samples_at_arange col (l : list A) :
  samples_at col l (arange (shape0 col)) -> l = col.
Proof.
  intros H. apply nth_error_ext. intros k.
  pose proof (Forall2_length H) as Hlen.
  assert (Hn : length l = length col).
  { rewrite Hlen. apply Nat2Z.inj. rewrite arange_length; unfold shape0; lia. }
  destruct (Nat.lt_ge_cases k (length col)) as [Hk|Hk].
  - destruct (nth_error l k) as [a|] eqn:E.
    + pose proof (arange_nth (shape0 col) k ltac:(unfold shape0; lia)) as Hi.
      pose proof (Forall2_nth_error _ _ _ _ _ H E) as [i [Hi' Hai]].
      rewrite Hi in Hi'. injection Hi' as <-. rewrite Nat2Z.id in Hai. now symmetry.
    + apply nth_error_None in E. lia.
  - transitivity (@None A); [|symmetry]; apply nth_error_None; lia.
Qed.

Lemma init_same_shape (arrs : list (ndarray A)) ds (n : Z) :
  ArrayDataset.__init__ arrs = Ok ds ->
  ArrayDataset.__len__ ds = Ok n ->
  ArrayDataset.arrays ds = arrs /\ Forall (fun arr => shape0 arr = n) arrs.
Proof.
  unfold ArrayDataset.__init__, ArrayDataset.__len__.
  destruct arrs as [|arr0 rest].
  - intros [= <-]. discriminate.
  - destruct (forallb _ _) eqn:E; [|discriminate].
    intros [= <-]. cbn [ArrayDataset.arrays]. intros [= <-].
    split; [reflexivity|].
    rewrite forallb_forall in E. apply Forall_forall.
    intros arr Hin. specialize (E arr Hin). lia.
Qed.
End Indexing.

(** ** ArrayDataset *)

Section ArrayDatasetFacts.
Context {A : Type}.
Implicit Types (arr col : ndarray A) (arrs : list (ndarray A)).

Lemma shape_check_spec (arr0 : ndarray A) arrs :
  forallb (fun arr => shape0 arr0 =? shape0 arr) (arr0 :: arrs) = true
  <-> same_first_axis (arr0 :: arrs).
Proof.
  rewrite forallb_forall. split.
  - intros H a b Ha Hb.
    pose proof (H a Ha). pose proof (H b Hb). lia.
  - intros H arr Hin. apply Z.eqb_eq, H; [now left | exact Hin].
Qed.

(** [__getitem__] over NumPy buffers is [getitem_with] at NumPy's
    indexing. *)
Lemma getitem_numpy (ds : @ArrayDataset.t A) (ix : index) :
  ArrayDataset.__getitem__ ds ix = ArrayDataset.getitem_with getrow ds ix.
Proof. reflexivity. Qed.

(** A tuple comprehension fails with the exception of one of its
    elements, and succeeds when every element does. *)
Lemma mapM_raise_source {X Y : Type} (f : X -> result Y) (xs : list X) (e : exn) :
  mapM f xs = Raise e -> exists x, In x xs /\ f x = Raise e.
Proof.
  induction xs as [|x xs IH]; cbn [mapM]; [discriminate|].
  destruct (f x) as [y|e'] eqn:E; cbn [bind].
  - destruct (mapM f xs) as [ys|e'']; cbn [bind]; [discriminate|].
    intros [= <-]. destruct (IH eq_refl) as [x' [Hin Hx']].
    exists x'. split; [now right | exact Hx'].
  - intros [= <-]. exists x. split; [now left | exact E].
Qed.

Lemma mapM_all_ok {X Y : Type} (f : X -> result Y) (xs : list X) :
  (forall x, In x xs -> exists y, f x = Ok y) -> exists ys, mapM f xs = Ok ys.
Proof.
  induction xs as [|x xs IH]; intros Hall; cbn [mapM]; [eauto|].
  destruct (Hall x (or_introl eq_refl)) as [y ->].
  destruct IH as [ys ->]; [intros x' Hin; apply Hall; now right|].
  cbn [bind]. eauto.
Qed.

Section AnyLibrary.
Variable index_row : ndarray A -> Z -> result A.
Hypothesis in_range : indexes_in_range index_row.

Lemma index_row_wrap arr (i : Z) :
  - shape0 arr <= i < shape0 arr ->
  exists a, index_row arr i = Ok a
            /\ nth_error arr (Z.to_nat (i mod shape0 arr)) = Some a.
Proof.
  intros Hi.
  pose proof (Z.mod_pos_bound i (shape0 arr) ltac:(lia)) as Hm.
  destruct (nth_error arr (Z.to_nat (i mod shape0 arr))) as [a|] eqn:E.
  - exists a. split; [now apply in_range | reflexivity].
  - apply nth_error_None in E. unfold shape0 in *. lia.
Qed.

Lemma getitem_int_rows arrs (n i : Z) :
  Forall (fun arr => shape0 arr = n) arrs ->
  - n <= i < n ->
  exists b,
    mapM (fun arr => ndarray_getitem_with index_row arr (Int i)) arrs = Ok b
    /\ Forall2 (fun (it : item A) (col : ndarray A) =>
                  exists a, it = Row a
                            /\ nth_error col (Z.to_nat (i mod n)) = Some a)
               b arrs.
Proof.
  intros Hs Hi. induction Hs as [|arr arrs Harr _ [b [IHm IHf]]]; cbn [mapM].
  - exists []. split; [reflexivity | constructor].
  - destruct (index_row_wrap arr i ltac:(lia)) as [a [Ha Hn]].
    change (ndarray_getitem_with index_row arr (Int i))
      with (a <- index_row arr i ;; Ok (Row a)).
    rewrite Ha. cbn [bind]. rewrite IHm. cbn [bind].
    exists (Row a :: b). split; [reflexivity|].
    constructor; [|exact IHf]. exists a. now rewrite <- Harr.
Qed.

Lemma gather_wrap arr (idx : list Z) :
  Forall (fun i => - shape0 arr <= i < shape0 arr) idx ->
  exists l, mapM (index_row arr) idx = Ok l
            /\ samples_at arr l (map (fun i => i mod shape0 arr) idx).
Proof.
  induction 1 as [|i idx Hi _ [l [IHm IHs]]]; cbn [mapM map].
  - exists []. split; [reflexivity | constructor].
  - destruct (index_row_wrap arr i Hi) as [a [Ha Hn]].
    rewrite Ha, IHm. cbn [bind]. exists (a :: l).
    split; [reflexivity | now constructor].
Qed.

Lemma getitem_wrap arrs (n : Z) (idx : list Z) :
  Forall (fun arr => shape0 arr = n) arrs ->
  Forall (fun i => - n <= i < n) idx ->
  exists b,
    mapM (fun arr => ndarray_getitem_with index_row arr (Ints idx)) arrs = Ok b
    /\ Forall2 (fun (it : item A) (col : ndarray A) =>
                  exists l, it = Rows l
                    /\ samples_at col l (map (fun i => i mod n) idx))
               b arrs.
Proof.
  intros Hs Hidx. induction Hs as [|arr arrs Harr _ [b [IHm IHf]]]; cbn [mapM].
  - exists []. split; [reflexivity | constructor].
  - destruct (gather_wrap arr idx) as [l [Hl Hsamp]].
    { rewrite Harr. exact Hidx. }
    change (ndarray_getitem_with index_row arr (Ints idx))
      with (l <- mapM (index_row arr) idx ;; Ok (Rows l)).
    rewrite Hl. cbn [bind]. rewrite IHm. cbn [bind].
    exists (Rows l :: b). split; [reflexivity|].
    constructor; [|exact IHf]. exists l. split; [reflexivity|].
    now rewrite <- Harr.
Qed.
End AnyLibrary.
End ArrayDatasetFacts.

(** C7.  Construction of an [ArrayDataset] succeeds, keeping the buffers,
    exactly when all buffers share their first-axis size, and otherwise
    fails on the constructor's assertion ("All arrays must have the same
    dimension.", the spec's ShapeMismatch); two buffers of sizes 5 and 6
    are rejected. *)
Theorem ArrayDataset_init_shape_mismatch :
  (forall (A : Type) (arrs : list (ndarray A)),
     (same_first_axis arrs <->
      ArrayDataset.__init__ arrs = Ok {| ArrayDataset.arrays := arrs |})
     /\ (~ same_first_axis arrs <->
         ArrayDataset.__init__ arrs =
           Raise (AssertionError "All arrays must have the same dimension.")))
  /\ ArrayDataset.__init__ [arange 5; arange 6] =
       Raise (AssertionError "All arrays must have the same dimension.").
Proof.
  split; [|reflexivity].
  intros A [|arr0 rest].
  - cbn. split; split; try discriminate; try reflexivity.
    + intros _ a b [].
    + intros H. exfalso. apply H. intros a b [].
  - unfold ArrayDataset.__init__.
    pose proof (shape_check_spec arr0 rest) as Hspec.
    destruct (forallb _ (arr0 :: rest)).
    + split; split; try discriminate; try reflexivity.
      * intros _. now apply Hspec.
      * intros H. exfalso. now apply H, Hspec.
    + split; split; try discriminate; try reflexivity.
      * intros H. apply Hspec in H. discriminate.
      * intros _ H. apply Hspec in H. discriminate.
Qed.

(** C6, counterexample.  Index -1 lies outside [0, 11), and reading it
    from the eleven-sample dataset succeeds with the last sample. *)
Lemma ArrayDataset_getitem_minus_one :
  ArrayDataset.__init__ [Toy.feats; Toy.labels] = Ok Toy.ds11
  /\ ArrayDataset.__len__ Toy.ds11 = Ok 11
  /\ ~ (0 <= -1 < 11)
  /\ ArrayDataset.__getitem__ Toy.ds11 (Int (-1)) = Ok [Row 110; Row 10].
Proof. repeat split; try reflexivity. lia. Qed.

(** C6, amended.  For an [ArrayDataset] of length [n] over the buffers
    of any array library: an index in [0, n) reads the sample at that
    index from every buffer, and an index in [-n, 0) reads the sample at
    [i + n] (counting from the end).  The dataset has no bounds check and
    no error of its own: reading can fail only at an index outside
    [-n, n), only with the exception a buffer's own indexing raised, and
    it succeeds whenever every buffer's indexing does.  At index 11 of
    the eleven-sample dataset NumPy buffers raise [IndexError], and
    buffers that clamp return the last sample. *)
Theorem ArrayDataset_getitem_int (A : Type)
    (index_row : ndarray A -> Z -> result A) (arrs : list (ndarray A))
    (ds : ArrayDataset.t) (n i : Z) :
  indexes_in_range index_row ->
  ArrayDataset.__init__ arrs = Ok ds ->
  ArrayDataset.__len__ ds = Ok n ->
  (0 <= i < n ->
   exists b, ArrayDataset.getitem_with index_row ds (Int i) = Ok b
     /\ Forall2 (fun (it : item A) (col : ndarray A) =>
                   exists a, it = Row a /\ nth_error col (Z.to_nat i) = Some a)
                b arrs)
  /\ (- n <= i < 0 ->
      exists b, ArrayDataset.getitem_with index_row ds (Int i) = Ok b
        /\ Forall2 (fun (it : item A) (col : ndarray A) =>
                      exists a, it = Row a
                                /\ nth_error col (Z.to_nat (i + n)) = Some a)
                   b arrs)
  /\ (forall e, ArrayDataset.getitem_with index_row ds (Int i) = Raise e ->
      (i < - n \/ n <= i)
      /\ exists arr, In arr arrs /\ index_row arr i = Raise e)
  /\ ((forall arr, In arr arrs -> exists a, index_row arr i = Ok a) ->
      exists b, ArrayDataset.getitem_with index_row ds (Int i) = Ok b)
  /\ ArrayDataset.getitem_with getrow Toy.ds11 (Int 11) = Raise IndexError
  /\ ArrayDataset.getitem_with getrow_clamp Toy.ds11 (Int 11)
     = Ok [Row 110; Row 10].
Proof.
  intros Hlaw Hinit Hlen.
  destruct (init_same_shape arrs ds n Hinit Hlen) as [Harrs Hshape].
  unfold ArrayDataset.getitem_with at 1 2 3 4. rewrite Harrs.
  split; [|split; [|split; [|split; [|split; reflexivity]]]].
  - intros Hi.
    destruct (getitem_int_rows index_row Hlaw arrs n i Hshape ltac:(lia))
      as [b [Hb Hrows]].
    exists b. split; [exact Hb|]. now rewrite Z.mod_small in Hrows by lia.
  - intros Hi.
    destruct (getitem_int_rows index_row Hlaw arrs n i Hshape ltac:(lia))
      as [b [Hb Hrows]].
    exists b. split; [exact Hb|].
    replace (i mod n) with (i + n) in Hrows; [exact Hrows|].
    apply (Z.mod_unique_pos _ _ (-1)); lia.
  - intros e He. apply mapM_raise_source in He. destruct He as [arr [Hin He]].
    change (ndarray_getitem_with index_row arr (Int i))
      with (a <- index_row arr i ;; Ok (Row a)) in He.
    destruct (index_row arr i) as [a|e'] eqn:E; cbn [bind] in He;
      [discriminate|].
    injection He as ->. split; [|now exists arr].
    destruct (Z_lt_ge_dec i (- n)) as [|Hlo]; [now left|].
    destruct (Z_lt_ge_dec i n) as [Hhi|]; [|right; lia].
    rewrite Forall_forall in Hshape. specialize (Hshape arr Hin).
    destruct (index_row_wrap index_row Hlaw arr i ltac:(lia)) as [a [Ha _]].
    congruence.
  - intros Hall. apply mapM_all_ok. intros arr Hin.
    destruct (Hall arr Hin) as [a Ha].
    change (ndarray_getitem_with index_row arr (Int i))
      with (a <- index_row arr i ;; Ok (Row a)).
    rewrite Ha. cbn [bind]. eauto.
Qed.

Lemma ArrayDataset_getitem_int_witness :
  (0 <= -2 < 11 ->
   exists b, ArrayDataset.getitem_with getrow_clamp Toy.ds11 (Int (-2)) = Ok b
     /\ Forall2 (fun (it : item Z) (col : ndarray Z) =>
                   exists a, it = Row a
                             /\ nth_error col (Z.to_nat (-2)) = Some a)
                b [Toy.feats; Toy.labels])
  /\ (- 11 <= -2 < 0 ->
      exists b, ArrayDataset.getitem_with getrow_clamp Toy.ds11 (Int (-2)) = Ok b
        /\ Forall2 (fun (it : item Z) (col : ndarray Z) =>
                      exists a, it = Row a
                                /\ nth_error col (Z.to_nat (-2 + 11)) = Some a)
                   b [Toy.feats; Toy.labels])
  /\ (forall e,
        ArrayDataset.getitem_with getrow_clamp Toy.ds11 (Int (-2)) = Raise e ->
        (-2 < - 11 \/ 11 <= -2)
        /\ exists arr, In arr [Toy.feats; Toy.labels]
                       /\ getrow_clamp arr (-2) = Raise e)
  /\ ((forall arr, In arr [Toy.feats; Toy.labels] ->
         exists a, getrow_clamp arr (-2) = Ok a) ->
      exists b, ArrayDataset.getitem_with getrow_clamp Toy.ds11 (Int (-2)) = Ok b)
  /\ ArrayDataset.getitem_with getrow Toy.ds11 (Int 11) = Raise IndexError
  /\ ArrayDataset.getitem_with getrow_clamp Toy.ds11 (Int 11)
     = Ok [Row 110; Row 10].
Proof.
  apply (ArrayDataset_getitem_int Z getrow_clamp [Toy.feats; Toy.labels]
           Toy.ds11 11 (-2));
    [apply getrow_clamp_in_range | reflexivity | reflexivity].
Defined.

(** ** The concrete [jax.random] satisfies the interface *)

Lemma rotate_perm (k : Z) (x : list Z) : Permutation x (Toy.rotate k x).
Proof.
  unfold Toy.rotate.
  set (r := Z.to_nat (k mod Z.of_nat (length x))).
  rewrite <- (firstn_skipn r x) at 1. apply Permutation_app_comm.
Qed.

#[export] Instance Toy_jax_ok : JaxRandomOk Toy.jax.
Proof.
  split.
  - intros k n Hn. cbn. unfold arange. now rewrite !length_map, length_seq.
  - intros k x. apply rotate_perm.
Defined.

(** ** PRNGSequence *)

Section PRNGSequenceFacts.
Context {J : JaxRandom}.
Implicit Types (p q : PRNGSequence.t) (cfg : Config.t).

(** With a queue that is not empty, [__next__] pops its leftmost key. *)
Lemma next_nonempty cfg p (k : Key) (rest : list Key) :
  PRNGSequence._subkeys p = k :: rest ->
  PRNGSequence.__next__ cfg p =
    ({| PRNGSequence._key := PRNGSequence._key p;
        PRNGSequence._subkeys := rest |}, Ok k).
Proof.
  intros E. unfold PRNGSequence.__next__, PRNGSequence.popleft. now rewrite E.
Qed.

(** With an empty queue and a reserve size that is not positive,
    [reserve] does nothing and the pop fails. *)
Lemma next_empty_no_reserve cfg p :
  Config.rng_reserve_size cfg <= 0 ->
  PRNGSequence._subkeys p = [] ->
  PRNGSequence.__next__ cfg p = (p, Raise IndexError).
Proof.
  intros Hr E. unfold PRNGSequence.__next__, PRNGSequence.reserve. rewrite E.
  destruct (Z.ltb_spec 0 (Config.rng_reserve_size cfg)); [lia|].
  unfold PRNGSequence.popleft. now rewrite E.
Qed.

(** With an empty queue and a positive reserve size [r], the root key is
    split into [r + 1] keys: the first is the new root, the second is
    returned, the others wait in the queue. *)
Lemma next_empty_refill {Jok : JaxRandomOk J} cfg p :
  1 <= Config.rng_reserve_size cfg ->
  PRNGSequence._subkeys p = [] ->
  exists k0 k1 rest,
    split (PRNGSequence._key p) (Config.rng_reserve_size cfg + 1)
      = k0 :: k1 :: rest
    /\ PRNGSequence.__next__ cfg p =
         ({| PRNGSequence._key := k0; PRNGSequence._subkeys := rest |}, Ok k1).
Proof.
  intros Hr E.
  pose proof (split_length (PRNGSequence._key p)
                (Config.rng_reserve_size cfg + 1) ltac:(lia)) as Hlen.
  destruct (split _ _) as [|k0 [|k1 rest]] eqn:Es; cbn [length] in Hlen;
    try lia.
  exists k0, k1, rest. split; [reflexivity|].
  unfold PRNGSequence.__next__, PRNGSequence.reserve. rewrite E.
  destruct (Z.ltb_spec 0 (Config.rng_reserve_size cfg)); [|lia].
  rewrite Es. reflexivity.
Qed.

Lemma next_ok {Jok : JaxRandomOk J} cfg p :
  1 <= Config.rng_reserve_size cfg ->
  exists p' k, PRNGSequence.__next__ cfg p = (p', Ok k).
Proof.
  intros Hr. destruct (PRNGSequence._subkeys p) as [|k rest] eqn:E.
  - destruct (next_empty_refill cfg p Hr E) as (k0 & k1 & rest & _ & H).
    eauto.
  - rewrite (next_nonempty cfg p k rest E). eauto.
Qed.

(** A call depends on the configuration through the reserve size only,
    and only where [reads_config] says so. *)
Lemma perform_reads cfg1 cfg2 p (c : Calls.call) :
  (Calls.reads_config p c = true ->
   Config.rng_reserve_size cfg1 = Config.rng_reserve_size cfg2) ->
  Calls.perform cfg1 p c = Calls.perform cfg2 p c.
Proof.
  destruct c as [num|]; [reflexivity|].
  unfold Calls.reads_config, Calls.perform, PRNGSequence.__next__.
  destruct (PRNGSequence._subkeys p) as [|k rest]; [|reflexivity].
  intros Hr. now rewrite (Hr eq_refl).
Qed.

Lemma run_under_same (cs1 : list (Config.t * Calls.call)) :
  forall p cs2,
    Calls.same_where_read p cs1 cs2 ->
    Calls.run_under p cs1 = Calls.run_under p cs2.
Proof.
  induction cs1 as [|[cfg1 c1] cs1 IH]; intros p [|[cfg2 c2] cs2];
    cbn [Calls.same_where_read Calls.run_under]; try tauto.
  intros (<- & Hr & Hrest).
  rewrite <- (perform_reads cfg1 cfg2 p c1 Hr).
  destruct (Calls.perform cfg1 p c1) as [p' r]. cbn [fst] in Hrest.
  now rewrite (IH p' cs2 Hrest).
Qed.

(** Under one standing configuration [run_under] is [run]. *)
Lemma run_under_standing cfg (cs : list Calls.call) :
  forall p, Calls.run_under p (map (pair cfg) cs) = Calls.run cfg p cs.
Proof.
  induction cs as [|c cs IH]; intros p; cbn [map Calls.run_under Calls.run];
    [reflexivity|].
  destruct (Calls.perform cfg p c) as [p' r]. now rewrite IH.
Qed.
End PRNGSequenceFacts.

(** C3, counterexample.  The same seed and the same two [next] calls,
    once with [rng_reserve_size = 1] and once with 2: the second keys
    differ.  With size 1 the second call refills from the new root; with
    size 2 it takes the key queued by the first refill. *)
Lemma PRNGSequence_reserve_size_changes_keys :
  let one := {| Config.rng_reserve_size := 1; Config.global_seed := 42 |} in
  let two := {| Config.rng_reserve_size := 2; Config.global_seed := 42 |} in
  exists p q : @PRNGSequence.t Toy.jax,
    PRNGSequence.new 42 = Ok p
    /\ PRNGSequence.new 42 = Ok q
    /\ Calls.run one p [Calls.Next; Calls.Next]
       = [Ok (Some 1304); Ok (Some 40395)]
    /\ Calls.run two q [Calls.Next; Calls.Next]
       = [Ok (Some 1304); Ok (Some 1305)]
    /\ Calls.run one p [Calls.Next; Calls.Next]
       <> Calls.run two q [Calls.Next; Calls.Next].
Proof.
  intros one two. exists (PRNGSequence.__init__ 42), (PRNGSequence.__init__ 42).
  repeat split; try reflexivity. discriminate.
Qed.

(** C3, amended.  Two [PRNGSequence] objects constructed with the same
    seed and sent the same sequence of [reserve] and [next] calls hand
    back the same sequence of replies (keys, and exceptions where a call
    raises), provided the two runs find the same [rng_reserve_size] at
    every [next] that meets an empty queue.  Nothing else of the
    configuration matters: it may differ between the runs at every other
    call and in its other field. *)
Theorem PRNGSequence_same_seed_same_calls {J : JaxRandom} (seed : Z)
    (p q : PRNGSequence.t) (cs1 cs2 : list (Config.t * Calls.call)) :
  PRNGSequence.new seed = Ok p ->
  PRNGSequence.new seed = Ok q ->
  Calls.same_where_read p cs1 cs2 ->
  map snd cs1 = map snd cs2
  /\ Calls.run_under p cs1 = Calls.run_under q cs2.
Proof.
  intros Hp Hq Hsame. rewrite Hp in Hq. injection Hq as <-. split.
  - clear Hp. revert p cs2 Hsame.
    induction cs1 as [|[cfg1 c1] cs1 IH]; intros p [|[cfg2 c2] cs2];
      cbn [Calls.same_where_read map snd]; try tauto.
    intros (<- & _ & Hrest). f_equal. eapply IH, Hrest.
  - now apply run_under_same.
Qed.

Lemma PRNGSequence_same_seed_same_calls_witness :
  let cfg (r s : Z) :=
    {| Config.rng_reserve_size := r; Config.global_seed := s |} in
  let cs1 := [(cfg 2 42, Calls.Next); (cfg 1 42, Calls.Next);
              (cfg 1 42, Calls.Reserve 3); (cfg 1 42, Calls.Next)] in
  let cs2 := [(cfg 2 7, Calls.Next); (cfg 9 42, Calls.Next);
              (cfg 0 42, Calls.Reserve 3); (cfg 5 0, Calls.Next)] in
  map snd cs1 = map snd cs2
  /\ Calls.run_under (@PRNGSequence.__init__ Toy.jax 42) cs1
     = Calls.run_under (@PRNGSequence.__init__ Toy.jax 42) cs2.
Proof.
  intros cfg cs1 cs2.
  apply (@PRNGSequence_same_seed_same_calls Toy.jax 42
           (PRNGSequence.__init__ 42) (PRNGSequence.__init__ 42) cs1 cs2);
    [reflexivity | reflexivity |].
  vm_compute. repeat split; intros; try reflexivity; discriminate.
Defined.

(** C4, counterexample.  With [rng_reserve_size = 0] and an empty queue,
    [__next__] raises [IndexError]: nothing is refilled. *)
Lemma PRNGSequence_next_reserve_zero_fails :
  let cfg := {| Config.rng_reserve_size := 0; Config.global_seed := 42 |} in
  let p := @PRNGSequence.__init__ Toy.jax 42 in
  0 <= Config.rng_reserve_size cfg
  /\ PRNGSequence._subkeys p = []
  /\ PRNGSequence.__next__ cfg p = (p, Raise IndexError).
Proof. cbn. repeat split; reflexivity. Qed.

(** C4, amended.  [__next__] returns a key exactly when the configured
    reserve size is at least 1 or the queue is not empty.  With an empty
    queue and reserve size [r >= 1] it refills by splitting the root key
    into [r + 1] keys and returns the second; with an empty queue and
    reserve size 0 (or below) it raises [IndexError] and leaves the
    object as it was. *)
Theorem PRNGSequence_next_succeeds_iff {J : JaxRandom} (Jok : JaxRandomOk J)
    (cfg : Config.t) (p : PRNGSequence.t) :
  ((exists p' k, PRNGSequence.__next__ cfg p = (p', Ok k))
   <-> (1 <= Config.rng_reserve_size cfg \/ PRNGSequence._subkeys p <> []))
  /\ (1 <= Config.rng_reserve_size cfg -> PRNGSequence._subkeys p = [] ->
      exists k0 k1 rest,
        split (PRNGSequence._key p) (Config.rng_reserve_size cfg + 1)
          = k0 :: k1 :: rest
        /\ PRNGSequence.__next__ cfg p =
             ({| PRNGSequence._key := k0; PRNGSequence._subkeys := rest |},
              Ok k1))
  /\ (Config.rng_reserve_size cfg <= 0 -> PRNGSequence._subkeys p = [] ->
      PRNGSequence.__next__ cfg p = (p, Raise IndexError)).
Proof.
  split; [|split].
  - split.
    + intros (p' & k & H).
      destruct (Z_le_gt_dec 1 (Config.rng_reserve_size cfg)); [now left|].
      right. intros E.
      rewrite next_empty_no_reserve in H by (lia || assumption). discriminate.
    + intros [Hr|Hne].
      * now apply next_ok.
      * destruct (PRNGSequence._subkeys p) as [|k rest] eqn:E; [congruence|].
        rewrite (next_nonempty cfg p k rest E). eauto.
  - apply next_empty_refill.
  - apply next_empty_no_reserve.
Qed.

Lemma PRNGSequence_next_succeeds_iff_witness :
  let cfg := Config.default in
  let p := @PRNGSequence.__init__ Toy.jax 42 in
  ((exists p' k, PRNGSequence.__next__ cfg p = (p', Ok k))
   <-> (1 <= Config.rng_reserve_size cfg \/ PRNGSequence._subkeys p <> []))
  /\ (1 <= Config.rng_reserve_size cfg -> PRNGSequence._subkeys p = [] ->
      exists k0 k1 rest,
        split (PRNGSequence._key p) (Config.rng_reserve_size cfg + 1)
          = k0 :: k1 :: rest
        /\ PRNGSequence.__next__ cfg p =
             ({| PRNGSequence._key := k0; PRNGSequence._subkeys := rest |},
              Ok k1))
  /\ (Config.rng_reserve_size cfg <= 0 -> PRNGSequence._subkeys p = [] ->
      PRNGSequence.__next__ cfg p = (p, Raise IndexError)).
Proof.
  intros cfg p.
  exact (@PRNGSequence_next_succeeds_iff Toy.jax Toy_jax_ok cfg p).
Defined.

(** ** DataLoaderJax: what the methods keep *)

Section LoaderInvariants.
Context {J : JaxRandom} {A : Type}.
Implicit Types (self ld : @DataLoaderJax.t J A) (cfg : Config.t).

Lemma same_setup_refl self : same_setup self self.
Proof. repeat split. Qed.

Lemma same_setup_trans self1 self2 self3 :
  same_setup self1 self2 -> same_setup self2 self3 -> same_setup self1 self3.
Proof.
  unfold same_setup. intros (?&?&?&?&?) (?&?&?&?&?).
  repeat split; congruence.
Qed.

(** [_shuffle] touches [keys] and [indices] only, and the new indices
    are a rearrangement of the old ones. *)
Lemma shuffle_keeps {Jok : JaxRandomOk J} cfg self self' (r : result unit) :
  DataLoaderJax._shuffle cfg self = (self', r) ->
  same_setup self self'
  /\ DataLoaderJax.pose self' = DataLoaderJax.pose self
  /\ Permutation (DataLoaderJax.indices self) (DataLoaderJax.indices self').
Proof.
  unfold DataLoaderJax._shuffle.
  destruct (DataLoaderJax.shuffle self).
  - destruct (PRNGSequence.__next__ cfg (DataLoaderJax.keys self))
      as [ks [k|e]]; intros [= <- <-]; cbn.
    + repeat split. apply permutation_perm.
    + repeat split. reflexivity.
  - intros [= <- <-]. repeat split. reflexivity.
Qed.

(** Without shuffling [_shuffle] changes nothing; with shuffling and a
    positive reserve size it succeeds. *)
Lemma shuffle_off cfg self :
  DataLoaderJax.shuffle self = false ->
  DataLoaderJax._shuffle cfg self = (self, Ok tt).
Proof. intros E. unfold DataLoaderJax._shuffle. now rewrite E. Qed.

Lemma shuffle_succeeds {Jok : JaxRandomOk J} cfg self :
  (DataLoaderJax.shuffle self = true -> 1 <= Config.rng_reserve_size cfg) ->
  exists self', DataLoaderJax._shuffle cfg self = (self', Ok tt).
Proof.
  intros Hr. unfold DataLoaderJax._shuffle.
  destruct (DataLoaderJax.shuffle self); [|eauto].
  destruct (next_ok cfg (DataLoaderJax.keys self) (Hr eq_refl))
    as (ks & k & ->). eauto.
Qed.

Lemma stop_iteration_keeps {Jok : JaxRandomOk J} cfg self self' (e : exn) :
  DataLoaderJax._stop_iteration cfg self = (self', e) ->
  same_setup self self'
  /\ DataLoaderJax.pose self' = 0
  /\ Permutation (DataLoaderJax.indices self) (DataLoaderJax.indices self').
Proof.
  unfold DataLoaderJax._stop_iteration.
  destruct (DataLoaderJax._shuffle cfg (DataLoaderJax.set_pose self 0))
    as [s r] eqn:E.
  apply shuffle_keeps in E. cbn in E.
  destruct r; intros [= <- <-]; exact E.
Qed.

Lemma stop_iteration_stops {Jok : JaxRandomOk J} cfg self :
  (DataLoaderJax.shuffle self = true -> 1 <= Config.rng_reserve_size cfg) ->
  exists self',
    DataLoaderJax._stop_iteration cfg self = (self', StopIteration).
Proof.
  intros Hr. unfold DataLoaderJax._stop_iteration.
  destruct (shuffle_succeeds cfg (DataLoaderJax.set_pose self 0) Hr)
    as [self' ->]. eauto.
Qed.

(** [__next__] assigns [pose], and through [_stop_iteration] [keys] and
    [indices]; the indices stay a rearrangement of what they were. *)
Lemma next_keeps {Jok : JaxRandomOk J} cfg self self' (r : result DataLoaderJax.batch) :
  DataLoaderJax.__next__ cfg self = (self', r) ->
  same_setup self self'
  /\ Permutation (DataLoaderJax.indices self) (DataLoaderJax.indices self').
Proof.
  unfold DataLoaderJax.__next__.
  destruct (_ <=? _).
  - destruct (ArrayDataset.__getitem__ _ _); intros [= <- <-]; cbn;
      repeat split; reflexivity.
  - destruct (_ && _).
    + destruct (ArrayDataset.__getitem__ _ _); intros [= <- <-]; cbn;
        repeat split; reflexivity.
    + destruct (DataLoaderJax._stop_iteration cfg self) as [s e] eqn:E.
      intros [= <- <-]. apply stop_iteration_keeps in E. tauto.
Qed.

Lemma reachable_keeps {Jok : JaxRandomOk J} cfg ld0 ld :
  DataLoaderJax.reachable cfg ld0 ld ->
  same_setup ld0 ld
  /\ Permutation (DataLoaderJax.indices ld0) (DataLoaderJax.indices ld).
Proof.
  induction 1 as [|self self' r _ [IHs IHp] Hnext].
  - split; [apply same_setup_refl | reflexivity].
  - apply next_keeps in Hnext. destruct Hnext as [Hs Hp]. split.
    + eapply same_setup_trans; eassumption.
    + etransitivity; eassumption.
Qed.

Lemma reachable_trans cfg ld0 ld1 ld2 :
  DataLoaderJax.reachable cfg ld0 ld1 ->
  DataLoaderJax.reachable cfg ld1 ld2 ->
  DataLoaderJax.reachable cfg ld0 ld2.
Proof.
  intros H01 H12. induction H12; [exact H01|].
  eapply DataLoaderJax.reach_next; eassumption.
Qed.

Lemma iterate_reachable cfg (fuel : nat) :
  forall ld ld' (o : DataLoaderJax.outcome),
    DataLoaderJax.iterate cfg fuel ld = (ld', o) ->
    DataLoaderJax.reachable cfg ld ld'.
Proof.
  induction fuel as [|fuel IH]; intros ld ld' o; cbn [DataLoaderJax.iterate].
  - intros [= <- <-]. constructor.
  - destruct (DataLoaderJax.__next__ cfg ld) as [s r] eqn:E.
    assert (Hs : DataLoaderJax.reachable cfg ld s).
    { eapply DataLoaderJax.reach_next; [constructor | exact E]. }
    destruct r as [b|e].
    + destruct (DataLoaderJax.iterate cfg fuel s) as [s' o'] eqn:E'.
      intros [= <- <-]. eapply reachable_trans; [exact Hs|]. eapply IH, E'.
    + destruct e; intros [= <- <-]; exact Hs.
Qed.

Lemma indices_ok_keeps n self self' :
  same_setup self self' ->
  Permutation (DataLoaderJax.indices self) (DataLoaderJax.indices self') ->
  indices_ok n self -> indices_ok n self'.
Proof.
  unfold indices_ok, bijection_on. intros (_&_&_&_&Hd) Hp (Hn & Hlen & Hb).
  repeat split; [exact Hn | congruence | etransitivity; eassumption].
Qed.

Lemma ready_keeps cfg n self self' :
  same_setup self self' ->
  Permutation (DataLoaderJax.indices self) (DataLoaderJax.indices self') ->
  ready cfg n self -> ready cfg n self'.
Proof.
  intros Hs Hp (Hshape & Hlen & Hix & Hr).
  pose proof Hs as (Hds & _ & Hsh & _ & _).
  unfold ready. rewrite Hds, Hsh.
  split; [|split; [|split]]; try assumption.
  eapply indices_ok_keeps; eassumption.
Qed.

(** [PRNGSequence(seed)] returns exactly for the seeds that fit. *)
Lemma new_inv (seed : Z) (p : PRNGSequence.t) :
  PRNGSequence.new seed = Ok p ->
  fits_int64 seed = true /\ p = PRNGSequence.__init__ seed.
Proof.
  unfold PRNGSequence.new. destruct (fits_int64 seed); [|discriminate].
  intros [= <-]. now split.
Qed.

Lemma new_fits (seed : Z) :
  fits_int64 seed = true ->
  PRNGSequence.new seed = Ok (PRNGSequence.__init__ seed).
Proof. intros E. unfold PRNGSequence.new. now rewrite E. Qed.

(** The constructor gets past its first statement exactly when the
    configured seed fits. *)
Lemma init_fits cfg (ds : @ArrayDataset.t A) (B : Z) (sh dl : bool)
    (kw : list (string * Z)) :
  fits_int64 (Config.global_seed cfg) = true ->
  DataLoaderJax.__init__ cfg ds B sh dl kw =
    (n <- ArrayDataset.__len__ ds ;;
     match DataLoaderJax._shuffle (J := J) (A := A) cfg
             {| DataLoaderJax.dataset := ds; DataLoaderJax.batch_size := B;
                DataLoaderJax.shuffle := sh; DataLoaderJax.drop_last := dl;
                DataLoaderJax.keys :=
                  PRNGSequence.__init__ (Config.global_seed cfg);
                DataLoaderJax.data_len := n;
                DataLoaderJax.indices := arange n;
                DataLoaderJax.pose := 0 |} with
     | (self', Ok _) => Ok self'
     | (_, Raise e) => Raise e
     end).
Proof.
  intros E. unfold DataLoaderJax.__init__. now rewrite (new_fits _ E).
Qed.

Lemma init_seed_fits cfg (ds : @ArrayDataset.t A) (B : Z) (sh dl : bool)
    (kw : list (string * Z)) ld :
  DataLoaderJax.__init__ cfg ds B sh dl kw = Ok ld ->
  fits_int64 (Config.global_seed cfg) = true.
Proof.
  unfold DataLoaderJax.__init__, PRNGSequence.new.
  now destruct (fits_int64 (Config.global_seed cfg)).
Qed.

Lemma init_seed_overflow cfg (ds : @ArrayDataset.t A) (B : Z) (sh dl : bool)
    (kw : list (string * Z)) :
  fits_int64 (Config.global_seed cfg) = false ->
  DataLoaderJax.__init__ (J := J) cfg ds B sh dl kw = Raise OverflowError.
Proof.
  intros E. unfold DataLoaderJax.__init__, PRNGSequence.new. now rewrite E.
Qed.

(** The constructor: when it returns, the loader holds its arguments,
    stands at position 0 and its indices are a bijection on the dataset
    length. *)
Lemma init_spec {Jok : JaxRandomOk J} cfg (ds : ArrayDataset.t) (B : Z)
    (sh dl : bool) (kw : list (string * Z)) ld :
  DataLoaderJax.__init__ cfg ds B sh dl kw = Ok ld ->
  exists n,
    ArrayDataset.__len__ ds = Ok n
    /\ indices_ok n ld
    /\ DataLoaderJax.pose ld = 0
    /\ DataLoaderJax.dataset ld = ds
    /\ DataLoaderJax.batch_size ld = B
    /\ DataLoaderJax.shuffle ld = sh
    /\ DataLoaderJax.drop_last ld = dl
    /\ (sh = true -> 1 <= Config.rng_reserve_size cfg).
Proof.
  unfold DataLoaderJax.__init__.
  destruct (PRNGSequence.new (Config.global_seed cfg)) as [ks|e] eqn:Hks;
    [|discriminate].
  apply new_inv in Hks as [_ ->]. cbn [bind].
  destruct (ArrayDataset.__len__ ds) as [n|e] eqn:Hlen; [|discriminate].
  cbn [bind].
  match goal with |- context [DataLoaderJax._shuffle cfg ?s] =>
    set (self := s) end.
  destruct (DataLoaderJax._shuffle cfg self) as [s r] eqn:E.
  destruct r as [[]|e]; [|discriminate]. intros [= <-].
  assert (Hn : 0 <= n).
  { unfold ArrayDataset.__len__ in Hlen.
    destruct (ArrayDataset.arrays ds); [discriminate|].
    injection Hlen as <-. unfold shape0. lia. }
  exists n. split; [reflexivity|].
  assert (Hres : sh = true -> 1 <= Config.rng_reserve_size cfg).
  { intros ->. destruct (Z_le_gt_dec 1 (Config.rng_reserve_size cfg)) as [|Hg];
      [assumption|]. exfalso.
    unfold DataLoaderJax._shuffle in E. subst self.
    cbn [DataLoaderJax.shuffle DataLoaderJax.keys] in E.
    rewrite next_empty_no_reserve in E by (reflexivity || lia).
    discriminate. }
  pose proof (shuffle_keeps cfg self s _ E) as ((Hds & HB & Hsh & Hdl & Hdata) & Hpose & Hperm).
  cbn in Hds, HB, Hsh, Hdl, Hdata, Hpose, Hperm.
  repeat split; assumption.
Qed.
End LoaderInvariants.

(** ** DataLoaderJax: one call of [__next__] *)

Section NextCases.
Context {J : JaxRandom} {Jok : JaxRandomOk J} {A : Type}.
Implicit Types (self ld : @DataLoaderJax.t J A) (cfg : Config.t).

Lemma ready_set_pose cfg n ld (p : Z) :
  ready cfg n ld -> ready cfg n (DataLoaderJax.set_pose ld p).
Proof.
  apply ready_keeps; [repeat split | reflexivity].
Qed.

Lemma ready_indices_length cfg n ld :
  ready cfg n ld -> Z.of_nat (length (DataLoaderJax.indices ld)) = n.
Proof. intros (_ & _ & (Hn & _ & Hb) & _). now apply bijection_on_length. Qed.

Lemma ready_gather cfg n ld (idx : list Z) :
  ready cfg n ld ->
  (forall i, In i idx -> In i (DataLoaderJax.indices ld)) ->
  exists b,
    ArrayDataset.__getitem__ (DataLoaderJax.dataset ld) (Ints idx) = Ok b
    /\ gathered ld b idx.
Proof.
  intros (Hshape & _ & (_ & _ & Hb) & _) Hin.
  apply (getitem_in_range _ n idx Hshape).
  apply Forall_forall. intros i Hi.
  apply (bijection_on_In n _ i Hb), Hin, Hi.
Qed.

(** First branch: a full batch. *)
Lemma next_full cfg n ld :
  ready cfg n ld ->
  0 <= DataLoaderJax.pose ld -> 0 < DataLoaderJax.batch_size ld ->
  DataLoaderJax.pose ld + DataLoaderJax.batch_size ld <= n ->
  exists b,
    DataLoaderJax.__next__ cfg ld =
      (DataLoaderJax.set_pose ld
         (DataLoaderJax.pose ld + DataLoaderJax.batch_size ld), Ok b)
    /\ gathered ld b
         (firstn (Z.to_nat (DataLoaderJax.batch_size ld))
            (skipn (Z.to_nat (DataLoaderJax.pose ld))
               (DataLoaderJax.indices ld))).
Proof.
  intros Hready Hp HB Hle.
  pose proof (ready_indices_length cfg n ld Hready) as Hlen.
  pose proof Hready as (_ & _ & (_ & Hdata & _) & _).
  unfold DataLoaderJax.__next__. rewrite Hdata.
  destruct (Z.leb_spec (DataLoaderJax.pose ld + DataLoaderJax.batch_size ld) n);
    [|lia].
  rewrite slice_mid by lia.
  destruct (ready_gather cfg n ld
              (firstn (Z.to_nat (DataLoaderJax.batch_size ld))
                 (skipn (Z.to_nat (DataLoaderJax.pose ld))
                    (DataLoaderJax.indices ld))) Hready)
    as [b [-> Hg]].
  { intros i Hi. eapply In_skipn, In_firstn, Hi. }
  now exists b.
Qed.

(** Second branch: the shorter batch at the tail. *)
Lemma next_tail cfg n ld :
  ready cfg n ld ->
  0 <= DataLoaderJax.pose ld < n ->
  n < DataLoaderJax.pose ld + DataLoaderJax.batch_size ld ->
  DataLoaderJax.drop_last ld = false ->
  exists b,
    DataLoaderJax.__next__ cfg ld =
      (DataLoaderJax.set_pose ld
         (DataLoaderJax.pose ld + DataLoaderJax.batch_size ld), Ok b)
    /\ gathered ld b
         (skipn (Z.to_nat (DataLoaderJax.pose ld)) (DataLoaderJax.indices ld)).
Proof.
  intros Hready Hp Hgt Hdl.
  pose proof (ready_indices_length cfg n ld Hready) as Hlen.
  pose proof Hready as (_ & _ & (_ & Hdata & _) & _).
  unfold DataLoaderJax.__next__. rewrite Hdata, Hdl.
  destruct (Z.leb_spec (DataLoaderJax.pose ld + DataLoaderJax.batch_size ld) n);
    [lia|].
  destruct (Z.ltb_spec (DataLoaderJax.pose ld) n); [|lia]. cbn [andb negb].
  rewrite slice_tail by lia.
  destruct (ready_gather cfg n ld
              (skipn (Z.to_nat (DataLoaderJax.pose ld))
                 (DataLoaderJax.indices ld)) Hready)
    as [b [-> Hg]].
  { intros i Hi. eapply In_skipn, Hi. }
  now exists b.
Qed.

(** Third branch: the epoch ends, the position is reset and the indices
    are rearranged for the next epoch. *)
Lemma next_stop cfg n ld :
  ready cfg n ld ->
  n < DataLoaderJax.pose ld + DataLoaderJax.batch_size ld ->
  n <= DataLoaderJax.pose ld \/ DataLoaderJax.drop_last ld = true ->
  exists ld',
    DataLoaderJax.__next__ cfg ld = (ld', Raise StopIteration)
    /\ ready cfg n ld' /\ same_setup ld ld' /\ DataLoaderJax.pose ld' = 0.
Proof.
  intros Hready Hgt Hor.
  pose proof Hready as (_ & _ & (_ & Hdata & _) & Hres).
  unfold DataLoaderJax.__next__. rewrite Hdata.
  destruct (Z.leb_spec (DataLoaderJax.pose ld + DataLoaderJax.batch_size ld) n);
    [lia|].
  replace ((DataLoaderJax.pose ld <? n) && negb (DataLoaderJax.drop_last ld))
    with false.
  2:{ destruct Hor as [Hge| ->]; [|now rewrite andb_false_r].
      destruct (Z.ltb_spec (DataLoaderJax.pose ld) n); [lia | reflexivity]. }
  destruct (stop_iteration_stops cfg ld Hres) as [ld' E]. rewrite E.
  exists ld'. split; [reflexivity|].
  apply stop_iteration_keeps in E. destruct E as (Hs & Hp & Hperm).
  split; [eapply ready_keeps; eassumption | split; assumption].
Qed.

Lemma column_cons (j : nat) (b : DataLoaderJax.batch)
    (batches : list (@DataLoaderJax.batch A)) :
  DataLoaderJax.column j (b :: batches) =
    rows (nth j b (Rows [])) ++ DataLoaderJax.column j batches.
Proof. reflexivity. Qed.

Lemma gathered_column ld (b : DataLoaderJax.batch) (idx : list Z)
    (j : nat) (col : ndarray A) :
  gathered ld b idx ->
  nth_error (ArrayDataset.arrays (DataLoaderJax.dataset ld)) j = Some col ->
  samples_at col (rows (nth j b (Rows []))) idx.
Proof.
  intros Hg Hcol.
  destruct (Forall2_nth_error_r _ _ _ _ _ Hg Hcol) as [it [Hit [l [-> Hs]]]].
  rewrite (nth_error_nth _ _ _ Hit). exact Hs.
Qed.

Lemma gathered_full ld (b : DataLoaderJax.batch) (idx : list Z) :
  gathered ld b idx -> full_batch (Z.of_nat (length idx)) b.
Proof.
  unfold gathered, full_batch.
  induction 1 as [|it col b arrs [l [-> Hs]] _ IH]; constructor; [|exact IH].
  cbn [rows]. f_equal. now apply samples_at_length in Hs.
Qed.
End NextCases.

(** ** DataLoaderJax: one epoch *)

Lemma firstn_add {X : Type} (a b : nat) (l : list X) :
  firstn (a + b) l = firstn a l ++ firstn b (skipn a l).
Proof.
  revert l. induction a as [|a IH]; intros [|x l]; cbn; try reflexivity.
  - now rewrite firstn_nil.
  - now rewrite IH.
Qed.

Lemma div_add_one (x b : Z) : 0 < b -> (x + b) / b = x / b + 1.
Proof.
  intros Hb. replace (x + b) with (x + 1 * b) by lia.
  apply Z.div_add. lia.
Qed.

(** Splits the conclusion of the epoch lemma into its seven parts and
    closes those that are among the hypotheses. *)
Ltac epoch_parts :=
  split; [reflexivity|];
  split; [assumption|];
  split; [assumption|];
  split; [assumption|];
  split; [|split].

Section Epoch.
Context {J : JaxRandom} {Jok : JaxRandomOk J} {A : Type}.
Implicit Types (self ld : @DataLoaderJax.t J A) (cfg : Config.t).

(** From any position [p = pose ld] inside the epoch, the loop runs to
    [StopIteration] when it has fuel for the remaining batches and the
    final call.  The batches read the indices from [p] on, in order, up
    to the last whole batch when [drop_last] is set. *)
Lemma iterate_from cfg (n : Z) (fuel : nat) :
  forall ld,
    ready cfg n ld ->
    0 < DataLoaderJax.batch_size ld ->
    0 <= DataLoaderJax.pose ld <= n ->
    n - DataLoaderJax.pose ld + DataLoaderJax.batch_size ld
      <= Z.of_nat fuel * DataLoaderJax.batch_size ld ->
    exists batches ld',
      DataLoaderJax.iterate cfg fuel ld = (ld', DataLoaderJax.Done batches)
      /\ ready cfg n ld' /\ same_setup ld ld' /\ DataLoaderJax.pose ld' = 0
      /\ (forall j col,
            nth_error (ArrayDataset.arrays (DataLoaderJax.dataset ld)) j
              = Some col ->
            samples_at col (DataLoaderJax.column j batches)
              (if DataLoaderJax.drop_last ld
               then firstn
                      (Z.to_nat ((n - DataLoaderJax.pose ld)
                                 / DataLoaderJax.batch_size ld
                                 * DataLoaderJax.batch_size ld))
                      (skipn (Z.to_nat (DataLoaderJax.pose ld))
                         (DataLoaderJax.indices ld))
               else skipn (Z.to_nat (DataLoaderJax.pose ld))
                      (DataLoaderJax.indices ld)))
      /\ Z.of_nat (length batches)
         = (if DataLoaderJax.drop_last ld
            then (n - DataLoaderJax.pose ld) / DataLoaderJax.batch_size ld
            else (n - DataLoaderJax.pose ld + DataLoaderJax.batch_size ld - 1)
                 / DataLoaderJax.batch_size ld)
      /\ (DataLoaderJax.drop_last ld = true ->
          Forall (full_batch (DataLoaderJax.batch_size ld)) batches).
Proof.
  induction fuel as [|fuel IH]; intros ld Hready HB Hp Hfuel; [lia|].
  pose proof (ready_indices_length cfg n ld Hready) as Hlen.
  set (B := DataLoaderJax.batch_size ld) in *.
  set (p := DataLoaderJax.pose ld) in *.
  set (ixs := DataLoaderJax.indices ld) in *.
  cbn [DataLoaderJax.iterate].
  destruct (Z_le_gt_dec (p + B) n) as [Hfull|Hshort].
  - (* a full batch, then the rest of the epoch *)
    destruct (next_full cfg n ld Hready ltac:(lia) HB Hfull) as [b [-> Hg]].
    fold B p ixs in Hg |- *.
    destruct (IH (DataLoaderJax.set_pose ld (p + B))
                (ready_set_pose cfg n ld _ Hready))
      as (batches & ld' & -> & Hready' & Hsame & Hpose & Hcols & Hcount & Hfullb);
      cbn [DataLoaderJax.set_pose DataLoaderJax.batch_size DataLoaderJax.pose];
      fold B; try lia.
    cbn [DataLoaderJax.set_pose DataLoaderJax.batch_size DataLoaderJax.pose
         DataLoaderJax.drop_last DataLoaderJax.indices DataLoaderJax.dataset]
      in Hcols, Hcount, Hfullb.
    fold B ixs in Hcols, Hcount, Hfullb.
    exists (b :: batches), ld'. cbn [DataLoaderJax.yielded].
    assert (Hnat : Z.to_nat (p + B) = (Z.to_nat B + Z.to_nat p)%nat) by lia.
    epoch_parts.
    + intros j col Hcol. rewrite column_cons.
      specialize (Hcols j col Hcol).
      pose proof (gathered_column ld b _ j col Hg Hcol) as Hb.
      rewrite Hnat, <- skipn_skipn in Hcols.
      destruct (DataLoaderJax.drop_last ld).
      * replace (Z.to_nat ((n - p) / B * B))
          with (Z.to_nat B + Z.to_nat ((n - (p + B)) / B * B))%nat.
        2:{ replace (n - p) with (n - (p + B) + B) by lia.
            rewrite div_add_one by lia.
            pose proof (Z.div_pos (n - (p + B)) B ltac:(lia) ltac:(lia)).
            nia. }
        rewrite firstn_add. now apply samples_at_app.
      * rewrite <- (firstn_skipn (Z.to_nat B) (skipn (Z.to_nat p) ixs)).
        now apply samples_at_app.
    + cbn [length]. rewrite Nat2Z.inj_succ, Hcount.
      destruct (DataLoaderJax.drop_last ld).
      * replace (n - p) with (n - (p + B) + B) by lia.
        rewrite div_add_one by lia. lia.
      * replace (n - p + B - 1) with (n - (p + B) + B - 1 + B) by lia.
        rewrite div_add_one by lia. lia.
    + intros Hdl. constructor; [|now apply Hfullb].
      apply gathered_full in Hg.
      rewrite length_firstn, length_skipn in Hg.
      replace (Z.of_nat (Nat.min (Z.to_nat B) (length ixs - Z.to_nat p)))
        with B in Hg by lia.
      exact Hg.
  - destruct (DataLoaderJax.drop_last ld) eqn:Hdl.
    + (* drop_last: the short tail is not yielded *)
      destruct (next_stop cfg n ld Hready ltac:(fold B p; lia)
                  (or_intror Hdl))
        as (ld' & -> & Hready' & Hsame & Hpose).
      exists [], ld'. epoch_parts.
      * intros j col _. rewrite (Z.div_small (n - p) B) by lia. constructor.
      * rewrite Z.div_small by lia. reflexivity.
      * constructor.
    + destruct (Z_lt_ge_dec p n) as [Hlt|Hge].
      * (* the short tail, then the call that stops *)
        destruct (next_tail cfg n ld Hready ltac:(fold p; lia)
                    ltac:(fold B p; lia) Hdl) as [b [-> Hg]].
        fold B p ixs in Hg |- *.
        destruct fuel as [|fuel]; [nia|].
        cbn [DataLoaderJax.iterate].
        destruct (next_stop cfg n (DataLoaderJax.set_pose ld (p + B))
                    (ready_set_pose cfg n ld _ Hready))
          as (ld' & -> & Hready' & Hsame & Hpose);
          cbn [DataLoaderJax.set_pose DataLoaderJax.batch_size
               DataLoaderJax.pose]; fold B; try lia.
        exists [b], ld'. cbn [DataLoaderJax.yielded].
        epoch_parts.
        -- intros j col Hcol. rewrite column_cons.
           cbn [DataLoaderJax.column map concat]. rewrite app_nil_r.
           exact (gathered_column ld b _ j col Hg Hcol).
        -- cbn [length].
           replace (n - p + B - 1) with (n - p - 1 + B) by lia.
           rewrite div_add_one, Z.div_small by lia. reflexivity.
        -- discriminate.
      * (* nothing left *)
        assert (Hend : n <= DataLoaderJax.pose ld) by (fold p; lia).
        destruct (next_stop cfg n ld Hready ltac:(fold B p; lia)
                    (or_introl Hend))
          as (ld' & -> & Hready' & Hsame & Hpose).
        exists [], ld'. epoch_parts.
        -- intros j col _. rewrite skipn_all2 by lia. constructor.
        -- replace (n - p + B - 1) with (B - 1) by lia.
           rewrite Z.div_small by lia. reflexivity.
        -- discriminate.
Qed.
End Epoch.

(** ** DataLoaderJax: loaders built by the constructor *)

Section Constructed.
Context {J : JaxRandom} {Jok : JaxRandomOk J} {A : Type}.
Implicit Types (self ld : @DataLoaderJax.t J A) (cfg : Config.t).

(** Every state of a loader built over a checked [ArrayDataset] can run
    epochs, and still holds the constructor's arguments. *)
Lemma reachable_ready cfg (arrs : list (ndarray A)) (ds : ArrayDataset.t)
    (B : Z) (sh dl : bool) (kw : list (string * Z)) ld0 ld :
  ArrayDataset.__init__ arrs = Ok ds ->
  DataLoaderJax.__init__ cfg ds B sh dl kw = Ok ld0 ->
  DataLoaderJax.reachable cfg ld0 ld ->
  exists n,
    ArrayDataset.__len__ ds = Ok n /\ 0 <= n
    /\ ready cfg n ld
    /\ DataLoaderJax.dataset ld = ds
    /\ DataLoaderJax.batch_size ld = B
    /\ DataLoaderJax.shuffle ld = sh
    /\ DataLoaderJax.drop_last ld = dl.
Proof.
  intros Hds Hinit Hreach.
  destruct (init_spec cfg ds B sh dl kw ld0 Hinit)
    as (n & Hlen & Hix & _ & Hd & HB & Hsh & Hdl & Hres).
  destruct (init_same_shape arrs ds n Hds Hlen) as [Harrs Hshape].
  destruct (reachable_keeps cfg ld0 ld Hreach) as [Hsame Hperm].
  pose proof Hsame as (Hd' & HB' & Hsh' & Hdl' & _).
  exists n. split; [exact Hlen|]. split; [apply Hix|].
  split; [|repeat split; congruence].
  apply (ready_keeps cfg n ld0 ld Hsame Hperm).
  unfold ready. rewrite Hd, Hsh, Harrs. tauto.
Qed.

(** Without shuffling the indices never change. *)
Lemma next_no_shuffle cfg ld ld' (r : result DataLoaderJax.batch) :
  DataLoaderJax.shuffle ld = false ->
  DataLoaderJax.__next__ cfg ld = (ld', r) ->
  DataLoaderJax.indices ld' = DataLoaderJax.indices ld.
Proof.
  intros Hsh. unfold DataLoaderJax.__next__.
  destruct (_ <=? _).
  - destruct (ArrayDataset.__getitem__ _ _); now intros [= <- <-].
  - destruct (_ && _).
    + destruct (ArrayDataset.__getitem__ _ _); now intros [= <- <-].
    + unfold DataLoaderJax._stop_iteration.
      rewrite shuffle_off by exact Hsh. now intros [= <- <-].
Qed.

Lemma reachable_no_shuffle cfg ld0 ld :
  DataLoaderJax.shuffle ld0 = false ->
  DataLoaderJax.reachable cfg ld0 ld ->
  DataLoaderJax.indices ld = DataLoaderJax.indices ld0.
Proof.
  intros Hsh. induction 1 as [|self self' r Hreach IH Hnext]; [reflexivity|].
  rewrite <- IH. eapply next_no_shuffle; [|exact Hnext].
  destruct (reachable_keeps cfg ld0 self Hreach) as [(_ & _ & -> & _) _].
  exact Hsh.
Qed.

Lemma len_keep_last ld (n : Z) :
  ArrayDataset.__len__ (DataLoaderJax.dataset ld) = Ok n ->
  DataLoaderJax.drop_last ld = false ->
  0 < DataLoaderJax.batch_size ld ->
  DataLoaderJax.__len__ ld
    = Ok ((n + DataLoaderJax.batch_size ld - 1) / DataLoaderJax.batch_size ld).
Proof.
  intros Hlen Hdl HB. unfold DataLoaderJax.__len__, floordiv.
  rewrite Hlen, Hdl. cbn [bind].
  destruct (Z.eqb_spec (- DataLoaderJax.batch_size ld) 0); [lia|].
  cbn [bind]. now rewrite ceil_floordiv.
Qed.

Lemma len_drop_last ld (n : Z) :
  ArrayDataset.__len__ (DataLoaderJax.dataset ld) = Ok n ->
  DataLoaderJax.drop_last ld = true ->
  0 < DataLoaderJax.batch_size ld ->
  DataLoaderJax.__len__ ld = Ok (n / DataLoaderJax.batch_size ld).
Proof.
  intros Hlen Hdl HB. unfold DataLoaderJax.__len__, floordiv.
  rewrite Hlen, Hdl. cbn [bind].
  destruct (Z.eqb_spec (DataLoaderJax.batch_size ld) 0); [lia|reflexivity].
Qed.
End Constructed.

Lemma ceil_bounds (n b : Z) :
  0 < b -> ((n + b - 1) / b - 1) * b < n <= (n + b - 1) / b * b.
Proof.
  intros Hb.
  pose proof (Z.div_mod (n + b - 1) b ltac:(lia)).
  pose proof (Z.mod_pos_bound (n + b - 1) b Hb). nia.
Qed.

Lemma floor_bounds (n b : Z) : 0 < b -> n / b * b <= n < (n / b + 1) * b.
Proof.
  intros Hb.
  pose proof (Z.div_mod n b ltac:(lia)).
  pose proof (Z.mod_pos_bound n b Hb). nia.
Qed.

Lemma fuel_enough (n b : Z) (fuel : nat) :
  0 <= n -> 0 < b -> (Z.to_nat (n / b) + 2 <= fuel)%nat ->
  n - 0 + b <= Z.of_nat fuel * b.
Proof.
  intros Hn Hb Hfuel.
  pose proof (floor_bounds n b Hb).
  pose proof (Z.div_pos n b Hn Hb). nia.
Qed.

(** C1.  A loader built with a positive batch size [B] and
    [drop_last = False] over a dataset of [n] samples, at the start of any
    epoch (position 0, whatever epochs it ran before): the loop ends with
    [StopIteration]; per buffer, the concatenated batches are the [n]
    samples read in the order of the epoch's index sequence, which is a
    bijection on [0, n) (so no index is skipped or repeated, although the
    tail branch advances the position by the whole [B]); without shuffling
    the concatenation is the buffer itself; [__len__] and the number of
    batches are the ceiling of [n / B]; the loader is then at the start of
    the next epoch. *)
Theorem DataLoaderJax_epoch_keep_last {J : JaxRandom} (Jok : JaxRandomOk J)
    (A : Type) (cfg : Config.t) (arrs : list (ndarray A))
    (ds : ArrayDataset.t) (n B : Z) (sh : bool) (kw : list (string * Z))
    (ld0 ld : DataLoaderJax.t) (fuel : nat) :
  ArrayDataset.__init__ arrs = Ok ds ->
  ArrayDataset.__len__ ds = Ok n ->
  0 < B ->
  DataLoaderJax.__init__ cfg ds B sh false kw = Ok ld0 ->
  DataLoaderJax.reachable cfg ld0 ld ->
  DataLoaderJax.pose ld = 0 ->
  (Z.to_nat (n / B) + 2 <= fuel)%nat ->
  exists batches ld' q,
    DataLoaderJax.for_loop cfg fuel ld = (ld', DataLoaderJax.Done batches)
    /\ (forall j col, nth_error arrs j = Some col ->
          samples_at col (DataLoaderJax.column j batches)
            (DataLoaderJax.indices ld))
    /\ bijection_on n (DataLoaderJax.indices ld)
    /\ (sh = false -> forall j col, nth_error arrs j = Some col ->
          DataLoaderJax.column j batches = col)
    /\ DataLoaderJax.__len__ ld = Ok q
    /\ Z.of_nat (length batches) = q
    /\ q = (n + B - 1) / B
    /\ (q - 1) * B < n <= q * B
    /\ DataLoaderJax.reachable cfg ld0 ld'
    /\ DataLoaderJax.pose ld' = 0.
Proof.
  intros Hds Hlen HB Hinit Hreach Hpose Hfuel.
  destruct (reachable_ready cfg arrs ds B sh false kw ld0 ld Hds Hinit Hreach)
    as (n' & Hlen' & Hn & Hready & Hd & HBld & Hsh & Hdl).
  rewrite Hlen in Hlen'. injection Hlen' as <-.
  destruct (init_same_shape arrs ds n Hds Hlen) as [Harrs Hshape].
  destruct (iterate_from cfg n fuel ld Hready)
    as (batches & ld' & Hrun & _ & _ & Hpose' & Hcols & Hcount & _).
  { lia. }
  { lia. }
  { rewrite Hpose, HBld. now apply fuel_enough. }
  rewrite Hdl, Hpose, HBld, Hd, Harrs in *. cbn [Z.to_nat skipn] in Hcols.
  rewrite Z.sub_0_r in Hcount.
  exists batches, ld', ((n + B - 1) / B).
  split; [exact Hrun|]. split; [exact Hcols|].
  split; [apply Hready|]. split; [|split; [|split; [|split; [|split; [|split]]]]].
  - intros -> j col Hcol. apply samples_at_arange.
    assert (Hcoln : shape0 col = n).
    { rewrite Forall_forall in Hshape. eapply Hshape, nth_error_In, Hcol. }
    rewrite Hcoln.
    replace (arange n) with (DataLoaderJax.indices ld); [now apply Hcols|].
    rewrite (reachable_no_shuffle cfg ld0 ld); [| |exact Hreach].
    + destruct (init_spec cfg ds B false false kw ld0 Hinit)
        as (m & Hm & _ & _ & _ & _ & Hsh0 & _).
      pose proof (init_seed_fits _ _ _ _ _ _ _ Hinit) as Hfit.
      rewrite (init_fits _ _ _ _ _ _ Hfit), Hlen in Hinit.
      cbn [bind] in Hinit. rewrite shuffle_off in Hinit by reflexivity.
      now injection Hinit as <-.
    + now destruct (init_spec cfg ds B false false kw ld0 Hinit)
        as (m & _ & _ & _ & _ & _ & Hsh0 & _).
  - rewrite <- HBld. apply len_keep_last; rewrite ?Hd, ?HBld; assumption.
  - exact Hcount.
  - reflexivity.
  - now apply ceil_bounds.
  - eapply reachable_trans; [exact Hreach|]. eapply iterate_reachable, Hrun.
  - exact Hpose'.
Qed.

(** C2.  The same with [drop_last = True]: the loop ends with
    [StopIteration]; every batch is full ([B] rows per buffer); per buffer
    the concatenated batches are the samples at the first
    [floor(n / B) * B] entries of the epoch's index sequence, which are
    pairwise distinct indices below [n]; [__len__] and the number of
    batches are [floor(n / B)]. *)
Theorem DataLoaderJax_epoch_drop_last {J : JaxRandom} (Jok : JaxRandomOk J)
    (A : Type) (cfg : Config.t) (arrs : list (ndarray A))
    (ds : ArrayDataset.t) (n B : Z) (sh : bool) (kw : list (string * Z))
    (ld0 ld : DataLoaderJax.t) (fuel : nat) :
  ArrayDataset.__init__ arrs = Ok ds ->
  ArrayDataset.__len__ ds = Ok n ->
  0 < B ->
  DataLoaderJax.__init__ cfg ds B sh true kw = Ok ld0 ->
  DataLoaderJax.reachable cfg ld0 ld ->
  DataLoaderJax.pose ld = 0 ->
  (Z.to_nat (n / B) + 2 <= fuel)%nat ->
  exists batches ld' visited,
    DataLoaderJax.for_loop cfg fuel ld = (ld', DataLoaderJax.Done batches)
    /\ Forall (full_batch B) batches
    /\ visited = firstn (Z.to_nat (n / B * B)) (DataLoaderJax.indices ld)
    /\ (forall j col, nth_error arrs j = Some col ->
          samples_at col (DataLoaderJax.column j batches) visited)
    /\ Z.of_nat (length visited) = n / B * B
    /\ NoDup visited
    /\ (forall i, In i visited -> 0 <= i < n)
    /\ DataLoaderJax.__len__ ld = Ok (n / B)
    /\ Z.of_nat (length batches) = n / B
    /\ DataLoaderJax.reachable cfg ld0 ld'
    /\ DataLoaderJax.pose ld' = 0.
Proof.
  intros Hds Hlen HB Hinit Hreach Hpose Hfuel.
  destruct (reachable_ready cfg arrs ds B sh true kw ld0 ld Hds Hinit Hreach)
    as (n' & Hlen' & Hn & Hready & Hd & HBld & Hsh & Hdl).
  rewrite Hlen in Hlen'. injection Hlen' as <-.
  destruct (init_same_shape arrs ds n Hds Hlen) as [Harrs Hshape].
  pose proof (ready_indices_length cfg n ld Hready) as Hixlen.
  pose proof Hready as (_ & _ & (_ & _ & Hbij) & _).
  destruct (iterate_from cfg n fuel ld Hready)
    as (batches & ld' & Hrun & _ & _ & Hpose' & Hcols & Hcount & Hfull).
  { lia. }
  { lia. }
  { rewrite Hpose, HBld. now apply fuel_enough. }
  rewrite Hdl, Hpose, HBld, Hd, Harrs in *. cbn [Z.to_nat skipn] in Hcols.
  rewrite Z.sub_0_r in Hcount, Hcols.
  pose proof (floor_bounds n B HB) as Hfl.
  pose proof (Z.div_pos n B Hn HB) as Hq.
  exists batches, ld', (firstn (Z.to_nat (n / B * B)) (DataLoaderJax.indices ld)).
  split; [exact Hrun|]. split; [now apply Hfull|]. split; [reflexivity|].
  split; [exact Hcols|].
  split; [|split; [|split; [|split; [|split; [|split]]]]].
  - rewrite length_firstn. nia.
  - rewrite <- (firstn_skipn (Z.to_nat (n / B * B)) (DataLoaderJax.indices ld))
      in Hbij.
    apply bijection_on_NoDup in Hbij. now apply NoDup_app_remove_r in Hbij.
  - intros i Hi. apply (bijection_on_In n _ i Hbij). eapply In_firstn, Hi.
  - rewrite <- HBld. apply len_drop_last; rewrite ?Hd, ?HBld; assumption.
  - exact Hcount.
  - eapply reachable_trans; [exact Hreach|]. eapply iterate_reachable, Hrun.
  - exact Hpose'.
Qed.

(** C9.  With a batch size larger than the dataset ([1 <= n < B]), an
    epoch without [drop_last] yields exactly one batch, holding per buffer
    all [n] samples in the order of the index sequence; with [drop_last]
    it yields no batch at all. *)
Theorem DataLoaderJax_batch_larger_than_dataset {J : JaxRandom}
    (Jok : JaxRandomOk J) (A : Type) (cfg : Config.t)
    (arrs : list (ndarray A)) (ds : ArrayDataset.t) (n B : Z)
    (sh dl : bool) (kw : list (string * Z)) (ld0 ld : DataLoaderJax.t)
    (fuel : nat) :
  ArrayDataset.__init__ arrs = Ok ds ->
  ArrayDataset.__len__ ds = Ok n ->
  1 <= n -> n < B ->
  DataLoaderJax.__init__ cfg ds B sh dl kw = Ok ld0 ->
  DataLoaderJax.reachable cfg ld0 ld ->
  DataLoaderJax.pose ld = 0 ->
  (2 <= fuel)%nat ->
  (dl = false ->
   exists b ld',
     DataLoaderJax.for_loop cfg fuel ld = (ld', DataLoaderJax.Done [b])
     /\ length b = length arrs
     /\ full_batch n b
     /\ (forall j col, nth_error arrs j = Some col ->
           samples_at col (rows (nth j b (Rows []))) (DataLoaderJax.indices ld))
     /\ bijection_on n (DataLoaderJax.indices ld))
  /\ (dl = true ->
      exists ld',
        DataLoaderJax.for_loop cfg fuel ld = (ld', DataLoaderJax.Done [])).
Proof.
  intros Hds Hlen Hn HnB Hinit Hreach Hpose Hfuel.
  destruct (reachable_ready cfg arrs ds B sh dl kw ld0 ld Hds Hinit Hreach)
    as (n' & Hlen' & _ & Hready & Hd & HBld & Hsh & Hdl).
  rewrite Hlen in Hlen'. injection Hlen' as <-.
  destruct (init_same_shape arrs ds n Hds Hlen) as [Harrs Hshape].
  pose proof (ready_indices_length cfg n ld Hready) as Hixlen.
  destruct fuel as [|[|fuel]]; try lia.
  unfold DataLoaderJax.for_loop, DataLoaderJax.__iter__.
  split; intros ->.
  - destruct (next_tail cfg n ld Hready ltac:(lia) ltac:(lia) Hdl)
      as [b [Hnext Hg]].
    rewrite Hpose in Hg. cbn [Z.to_nat skipn] in Hg.
    destruct (next_stop cfg n
                (DataLoaderJax.set_pose ld
                   (DataLoaderJax.pose ld + DataLoaderJax.batch_size ld))
                (ready_set_pose cfg n ld _ Hready))
      as (ld' & Hstop & _);
      cbn [DataLoaderJax.set_pose DataLoaderJax.batch_size DataLoaderJax.pose];
      try lia.
    exists b, ld'. split; [|split; [|split; [|split]]].
    + cbn [DataLoaderJax.iterate]. rewrite Hnext.
      cbn [DataLoaderJax.iterate]. rewrite Hstop. reflexivity.
    + rewrite (Forall2_length Hg), Hd, Harrs. reflexivity.
    + rewrite <- Hixlen. now apply gathered_full in Hg.
    + intros j col Hcol. apply (gathered_column ld b _ j col Hg).
      now rewrite Hd, Harrs.
    + apply Hready.
  - destruct (next_stop cfg n ld Hready ltac:(lia) (or_intror Hdl))
      as (ld' & Hstop & _).
    exists ld'. cbn [DataLoaderJax.iterate]. now rewrite Hstop.
Qed.

(** C8.  In every state of a loader, after the constructor and after any
    number of [__next__] calls (epoch ends and reshuffles included, for
    any batch size and either [shuffle] setting), [indices] is a bijection
    on [0, n) for the dataset length [n]: it has [n] entries, no entry
    twice, and holds exactly the integers from 0 to [n - 1].  Without
    shuffling it is the identity sequence. *)
Theorem DataLoaderJax_indices_bijection {J : JaxRandom} (Jok : JaxRandomOk J)
    (A : Type) (cfg : Config.t) (ds : @ArrayDataset.t A) (B : Z)
    (sh dl : bool) (kw : list (string * Z)) (ld0 ld : DataLoaderJax.t) :
  DataLoaderJax.__init__ cfg ds B sh dl kw = Ok ld0 ->
  DataLoaderJax.reachable cfg ld0 ld ->
  exists n,
    ArrayDataset.__len__ ds = Ok n
    /\ bijection_on n (DataLoaderJax.indices ld)
    /\ Z.of_nat (length (DataLoaderJax.indices ld)) = n
    /\ NoDup (DataLoaderJax.indices ld)
    /\ (forall i, In i (DataLoaderJax.indices ld) <-> 0 <= i < n)
    /\ (sh = false -> DataLoaderJax.indices ld = arange n).
Proof.
  intros Hinit Hreach.
  destruct (init_spec cfg ds B sh dl kw ld0 Hinit)
    as (n & Hlen & Hix & _ & _ & _ & Hsh & _ & _).
  destruct (reachable_keeps cfg ld0 ld Hreach) as [Hsame Hperm].
  destruct (indices_ok_keeps n ld0 ld Hsame Hperm Hix) as (Hn & _ & Hbij).
  exists n. split; [exact Hlen|]. split; [exact Hbij|].
  split; [now apply bijection_on_length|].
  split; [now apply bijection_on_NoDup in Hbij|].
  split; [intros i; now apply bijection_on_In|].
  intros ->. rewrite (reachable_no_shuffle cfg ld0 ld Hsh Hreach).
  pose proof (init_seed_fits _ _ _ _ _ _ _ Hinit) as Hfit.
  rewrite (init_fits _ _ _ _ _ _ Hfit), Hlen in Hinit.
  cbn [bind] in Hinit. rewrite shuffle_off in Hinit by reflexivity.
  now injection Hinit as <-.
Qed.

(** C5, counterexample.  Constructing a loader with [batch_size = 0]
    succeeds and stores the 0. *)
Lemma DataLoaderJax_init_batch_size_zero :
  exists ld : @DataLoaderJax.t Toy.jax Z,
    DataLoaderJax.__init__ Config.default Toy.ds11 0 false false [] = Ok ld
    /\ DataLoaderJax.batch_size ld = 0.
Proof. eexists. split; reflexivity. Qed.

(** C5, amended.  The constructor does not check [batch_size]: for every
    integer [B], positive or not, construction over a dataset that has a
    length succeeds and stores [B] as given, provided the configured
    seed fits a signed 64-bit integer (the key sequence is built from it)
    and, when shuffling, the reserve size lets the first key be drawn. *)
Theorem DataLoaderJax_init_any_batch_size {J : JaxRandom}
    (Jok : JaxRandomOk J) (A : Type) (cfg : Config.t)
    (ds : @ArrayDataset.t A) (n B : Z) (sh dl : bool)
    (kw : list (string * Z)) :
  ArrayDataset.__len__ ds = Ok n ->
  - 2 ^ 63 <= Config.global_seed cfg < 2 ^ 63 ->
  sh = false \/ 1 <= Config.rng_reserve_size cfg ->
  exists ld,
    DataLoaderJax.__init__ cfg ds B sh dl kw = Ok ld
    /\ DataLoaderJax.batch_size ld = B
    /\ DataLoaderJax.data_len ld = n
    /\ DataLoaderJax.pose ld = 0.
Proof.
  intros Hlen Hseed Hsh.
  rewrite init_fits, Hlen by now apply fits_int64_spec.
  cbn [bind].
  match goal with |- context [DataLoaderJax._shuffle cfg ?s] =>
    set (self := s) end.
  destruct (shuffle_succeeds cfg self) as [self' E].
  { subst self. cbn. intros ->. destruct Hsh; [discriminate | assumption]. }
  rewrite E. exists self'. split; [reflexivity|].
  apply shuffle_keeps in E. destruct E as ((_ & HB & _ & _ & Hd) & Hp & _).
  subst self. cbn in HB, Hd, Hp. auto.
Qed.


(** * The statements at the eleven-sample dataset *)

Lemma DataLoaderJax_epoch_keep_last_witness :
  exists batches ld' q,
    DataLoaderJax.for_loop Config.default 3 (Toy.loader 10 false)
      = (ld', DataLoaderJax.Done batches)
    /\ (forall j col, nth_error [Toy.feats; Toy.labels] j = Some col ->
          samples_at col (DataLoaderJax.column j batches)
            (DataLoaderJax.indices (Toy.loader 10 false)))
    /\ bijection_on 11 (DataLoaderJax.indices (Toy.loader 10 false))
    /\ (true = false -> forall j col,
          nth_error [Toy.feats; Toy.labels] j = Some col ->
          DataLoaderJax.column j batches = col)
    /\ DataLoaderJax.__len__ (Toy.loader 10 false) = Ok q
    /\ Z.of_nat (length batches) = q
    /\ q = (11 + 10 - 1) / 10
    /\ (q - 1) * 10 < 11 <= q * 10
    /\ DataLoaderJax.reachable Config.default (Toy.loader 10 false) ld'
    /\ DataLoaderJax.pose ld' = 0.
Proof.
  apply (DataLoaderJax_epoch_keep_last Toy_jax_ok Z Config.default
           [Toy.feats; Toy.labels] Toy.ds11 11 10 true []
           (Toy.loader 10 false) (Toy.loader 10 false) 3);
    try reflexivity; try lia; constructor.
Defined.

Lemma DataLoaderJax_epoch_drop_last_witness :
  exists batches ld' visited,
    DataLoaderJax.for_loop Config.default 3 (Toy.loader 10 true)
      = (ld', DataLoaderJax.Done batches)
    /\ Forall (full_batch 10) batches
    /\ visited = firstn (Z.to_nat (11 / 10 * 10))
                   (DataLoaderJax.indices (Toy.loader 10 true))
    /\ (forall j col, nth_error [Toy.feats; Toy.labels] j = Some col ->
          samples_at col (DataLoaderJax.column j batches) visited)
    /\ Z.of_nat (length visited) = 11 / 10 * 10
    /\ NoDup visited
    /\ (forall i, In i visited -> 0 <= i < 11)
    /\ DataLoaderJax.__len__ (Toy.loader 10 true) = Ok (11 / 10)
    /\ Z.of_nat (length batches) = 11 / 10
    /\ DataLoaderJax.reachable Config.default (Toy.loader 10 true) ld'
    /\ DataLoaderJax.pose ld' = 0.
Proof.
  apply (DataLoaderJax_epoch_drop_last Toy_jax_ok Z Config.default
           [Toy.feats; Toy.labels] Toy.ds11 11 10 true []
           (Toy.loader 10 true) (Toy.loader 10 true) 3);
    try reflexivity; try lia; constructor.
Defined.

Lemma DataLoaderJax_batch_larger_than_dataset_witness :
  (false = false ->
   exists b ld',
     DataLoaderJax.for_loop Config.default 2 (Toy.loader 12 false)
       = (ld', DataLoaderJax.Done [b])
     /\ length b = length [Toy.feats; Toy.labels]
     /\ full_batch 11 b
     /\ (forall j col, nth_error [Toy.feats; Toy.labels] j = Some col ->
           samples_at col (rows (nth j b (Rows [])))
             (DataLoaderJax.indices (Toy.loader 12 false)))
     /\ bijection_on 11 (DataLoaderJax.indices (Toy.loader 12 false)))
  /\ (false = true ->
      exists ld',
        DataLoaderJax.for_loop Config.default 2 (Toy.loader 12 false)
          = (ld', DataLoaderJax.Done [])).
Proof.
  apply (DataLoaderJax_batch_larger_than_dataset Toy_jax_ok Z Config.default
           [Toy.feats; Toy.labels] Toy.ds11 11 12 true false []
           (Toy.loader 12 false) (Toy.loader 12 false) 2);
    try reflexivity; try lia; constructor.
Defined.

Lemma DataLoaderJax_indices_bijection_witness :
  exists n,
    ArrayDataset.__len__ Toy.ds11 = Ok n
    /\ bijection_on n (DataLoaderJax.indices (Toy.loader 10 false))
    /\ Z.of_nat (length (DataLoaderJax.indices (Toy.loader 10 false))) = n
    /\ NoDup (DataLoaderJax.indices (Toy.loader 10 false))
    /\ (forall i, In i (DataLoaderJax.indices (Toy.loader 10 false))
                  <-> 0 <= i < n)
    /\ (true = false ->
        DataLoaderJax.indices (Toy.loader 10 false) = arange n).
Proof.
  apply (DataLoaderJax_indices_bijection Toy_jax_ok Z Config.default
           Toy.ds11 10 true false [] (Toy.loader 10 false)
           (Toy.loader 10 false));
    [reflexivity | constructor].
Defined.

Lemma DataLoaderJax_init_any_batch_size_witness :
  exists ld : @DataLoaderJax.t Toy.jax Z,
    DataLoaderJax.__init__ Config.default Toy.ds11 (-3) true false [] = Ok ld
    /\ DataLoaderJax.batch_size ld = -3
    /\ DataLoaderJax.data_len ld = 11
    /\ DataLoaderJax.pose ld = 0.
Proof.
  apply (DataLoaderJax_init_any_batch_size Toy_jax_ok Z Config.default
           Toy.ds11 11 (-3) true false []);
    [reflexivity | cbn; lia | right; cbn; lia].
Defined.


(** ** A batch size of zero

    With [batch_size = 0] the first branch of [__next__] is taken at every
    call: it yields an empty batch and leaves the position where it was,
    so the loop never reaches [StopIteration], whatever the fuel; and
    [__len__] divides by zero. *)
Lemma DataLoaderJax_batch_size_zero_never_stops (fuel : nat) :
  snd (DataLoaderJax.for_loop Config.default fuel (Toy.loader 0 false))
    = DataLoaderJax.OutOfFuel
  /\ DataLoaderJax.__len__ (Toy.loader 0 false) = Raise ZeroDivisionError.
Proof.
  split; [|reflexivity].
  unfold DataLoaderJax.for_loop, DataLoaderJax.__iter__.
  induction fuel as [|fuel IH]; [reflexivity|].
  cbn [DataLoaderJax.iterate].
  change (DataLoaderJax.__next__ Config.default (Toy.loader 0 false))
    with (Toy.loader 0 false, Ok [@Rows Z []; @Rows Z []]).
  cbv beta iota.
  destruct (DataLoaderJax.iterate _ _ _) as [s o].
  cbn [snd] in IH. subst o. reflexivity.
Qed.

(** * Further properties of the code *)

(** ** PRNGSequence: the queue is first in, first out *)

Section KeyStreamFacts.
Context {J : JaxRandom}.
Implicit Types (p : PRNGSequence.t) (cfg : Config.t).

(** The queued keys are handed out in order and without a split, whatever
    the configuration says. *)
Lemma drain_queue cfg (q : list Key) :
  forall p,
    PRNGSequence._subkeys p = q ->
    Calls.run cfg p (repeat Calls.Next (length q))
      = map (fun k => Ok (Some k)) q
    /\ KeyStream.state_after cfg p (repeat Calls.Next (length q))
       = {| PRNGSequence._key := PRNGSequence._key p;
            PRNGSequence._subkeys := [] |}.
Proof.
  induction q as [|k q IH]; intros p Hq.
  - cbn. split; [reflexivity|]. destruct p; cbn in *. now subst.
  - cbn [length repeat Calls.run KeyStream.state_after Calls.perform].
    rewrite (next_nonempty cfg p k q Hq). cbn [fst map].
    destruct (IH {| PRNGSequence._key := PRNGSequence._key p;
                    PRNGSequence._subkeys := q |} eq_refl) as [-> ->].
    split; reflexivity.
Qed.

Lemma run_app cfg (cs1 cs2 : list Calls.call) :
  forall p,
    Calls.run cfg p (cs1 ++ cs2)
      = Calls.run cfg p cs1
        ++ Calls.run cfg (KeyStream.state_after cfg p cs1) cs2.
Proof.
  induction cs1 as [|c cs1 IH]; intros p; [reflexivity|].
  cbn [app Calls.run KeyStream.state_after].
  destruct (Calls.perform cfg p c) as [p' r]. cbn [fst]. now rewrite IH.
Qed.

Lemma refills_extend (r : Z) (n : nat) :
  forall root, exists extra,
    KeyStream.refills r root (S n) = KeyStream.refills r root n ++ extra.
Proof.
  induction n as [|n IH]; intros root.
  - exists (KeyStream.refills r root 1). reflexivity.
  - cbn [KeyStream.refills]. destruct (split root (r + 1)) as [|k0 rest].
    + exists []. reflexivity.
    + destruct (IH k0) as [extra He]. exists extra.
      cbn [KeyStream.refills] in He. rewrite He. now rewrite app_assoc.
Qed.

Lemma refills_length {Jok : JaxRandomOk J} (r : Z) (n : nat) :
  1 <= r -> forall root, (n <= length (KeyStream.refills r root n))%nat.
Proof.
  intros Hr. induction n as [|n IH]; intros root; [cbn; lia|].
  cbn [KeyStream.refills].
  pose proof (split_length root (r + 1) ltac:(lia)) as Hlen.
  destruct (split root (r + 1)) as [|k0 rest]; cbn [length] in Hlen; [lia|].
  rewrite length_app. specialize (IH k0). lia.
Qed.

(** From any state, [m] calls of [next] under a reserve size [r >= 1]
    return the queue followed by the refills, cut after [m] keys. *)
Lemma next_stream {Jok : JaxRandomOk J} cfg (m : nat) :
  1 <= Config.rng_reserve_size cfg ->
  forall p,
    Calls.run cfg p (repeat Calls.Next m)
      = map (fun k => Ok (Some k))
          (firstn m (PRNGSequence._subkeys p
                     ++ KeyStream.refills (Config.rng_reserve_size cfg)
                          (PRNGSequence._key p) m)).
Proof.
  intros Hr. induction m as [|m IH]; intros p; [reflexivity|].
  cbn [repeat Calls.run Calls.perform].
  destruct (PRNGSequence._subkeys p) as [|k q] eqn:Hq.
  - destruct (next_empty_refill cfg p Hr Hq) as (k0 & k1 & rest & Hs & ->).
    rewrite IH. cbn [PRNGSequence._subkeys PRNGSequence._key].
    cbn [KeyStream.refills app]. rewrite Hs. reflexivity.
  - rewrite (next_nonempty cfg p k q Hq), IH.
    cbn [PRNGSequence._subkeys PRNGSequence._key app firstn map].
    do 2 f_equal.
    pose proof (refills_length (Config.rng_reserve_size cfg) m Hr
                  (PRNGSequence._key p)) as Hlen.
    destruct (refills_extend (Config.rng_reserve_size cfg) m
                (PRNGSequence._key p)) as [extra ->].
    set (R := KeyStream.refills (Config.rng_reserve_size cfg)
                (PRNGSequence._key p) m) in *.
    rewrite app_assoc, (firstn_app m (q ++ R) extra).
    replace (m - length (q ++ R))%nat with 0%nat
      by (rewrite length_app; lia).
    cbn [firstn]. now rewrite app_nil_r.
Qed.
End KeyStreamFacts.

(** X1.  [reserve(num)] with [num > 0] queues exactly [num] new keys
    behind the keys already waiting, and the next [len(queue) + num] calls
    of [next] hand out the old queue and then the new keys, in that
    order, without another split and under any configured reserve size;
    the object is left with the new root key and an empty queue. *)
Theorem PRNGSequence_reserve_then_drain {J : JaxRandom} (Jok : JaxRandomOk J)
    (cfg : Config.t) (p : PRNGSequence.t) (num : Z) :
  0 < num ->
  exists k0 new,
    split (PRNGSequence._key p) (num + 1) = k0 :: new
    /\ Z.of_nat (length new) = num
    /\ let cs := Calls.Reserve num
                 :: repeat Calls.Next
                      (length (PRNGSequence._subkeys p) + Z.to_nat num) in
       Calls.run cfg p cs
         = Ok None :: map (fun k => Ok (Some k)) (PRNGSequence._subkeys p ++ new)
       /\ KeyStream.state_after cfg p cs
          = {| PRNGSequence._key := k0; PRNGSequence._subkeys := [] |}.
Proof.
  intros Hnum.
  pose proof (split_length (PRNGSequence._key p) (num + 1) ltac:(lia)) as Hlen.
  destruct (split (PRNGSequence._key p) (num + 1)) as [|k0 new] eqn:Hs;
    cbn [length] in Hlen; [lia|].
  exists k0, new. split; [reflexivity|]. split; [lia|].
  cbn [Calls.run KeyStream.state_after Calls.perform].
  unfold PRNGSequence.reserve.
  destruct (Z.ltb_spec 0 num); [|lia]. rewrite Hs. cbn [fst].
  replace (length (PRNGSequence._subkeys p) + Z.to_nat num)%nat
    with (length (PRNGSequence._subkeys p ++ new))
    by (rewrite length_app; lia).
  destruct (drain_queue cfg (PRNGSequence._subkeys p ++ new)
              {| PRNGSequence._key := k0;
                 PRNGSequence._subkeys := PRNGSequence._subkeys p ++ new |}
              eq_refl) as [-> ->].
  split; reflexivity.
Qed.

Lemma PRNGSequence_reserve_then_drain_witness :
  let p := @PRNGSequence.__init__ Toy.jax 42 in
  let cfg := {| Config.rng_reserve_size := 0; Config.global_seed := 42 |} in
  exists k0 new,
    split (PRNGSequence._key p) (3 + 1) = k0 :: new
    /\ Z.of_nat (length new) = 3
    /\ let cs := Calls.Reserve 3
                 :: repeat Calls.Next
                      (length (PRNGSequence._subkeys p) + Z.to_nat 3) in
       Calls.run cfg p cs
         = Ok None :: map (fun k => Ok (Some k)) (PRNGSequence._subkeys p ++ new)
       /\ KeyStream.state_after cfg p cs
          = {| PRNGSequence._key := k0; PRNGSequence._subkeys := [] |}.
Proof.
  intros p cfg.
  apply (@PRNGSequence_reserve_then_drain Toy.jax Toy_jax_ok cfg p 3). lia.
Defined.

(** X2.  Under a reserve size [r >= 1], the first [m] keys a fresh
    [PRNGSequence(seed)] hands out are the first [m] keys of the successive
    refills from [PRNGKey(seed)]: every [r] calls the root is split into
    [r + 1] keys, the first becomes the root and the other [r] are handed
    out in order.  No call fails. *)
Theorem PRNGSequence_stream_is_refills {J : JaxRandom} (Jok : JaxRandomOk J)
    (cfg : Config.t) (seed : Z) (m : nat) :
  1 <= Config.rng_reserve_size cfg ->
  Calls.run cfg (PRNGSequence.__init__ seed) (repeat Calls.Next m)
    = map (fun k => Ok (Some k))
        (firstn m (KeyStream.refills (Config.rng_reserve_size cfg)
                     (PRNGKey seed) m)).
Proof.
  intros Hr. now rewrite (next_stream cfg m Hr).
Qed.

Lemma PRNGSequence_stream_is_refills_witness :
  Calls.run Config.default (@PRNGSequence.__init__ Toy.jax 42)
    (repeat Calls.Next 3)
  = map (fun k => Ok (Some k))
      (firstn 3 (KeyStream.refills (Config.rng_reserve_size Config.default)
                   (@PRNGKey Toy.jax 42) 3)).
Proof.
  apply (@PRNGSequence_stream_is_refills Toy.jax Toy_jax_ok Config.default 42 3).
  cbn. lia.
Defined.

(** ** ArrayDataset: indexing with an index array *)

(** X3.  Indexing an [ArrayDataset] of length [n] with an index array
    whose entries all lie in [-n, n) succeeds, over the buffers of any
    array library.  The batch has one component per buffer, holding for
    each position the sample at the index taken modulo [n] (negative
    indices count from the end), in the order of the index array.  The
    dataset adds no check of its own: when the call fails, a buffer's own
    indexing raised that exception at an entry outside [-n, n). *)
Theorem ArrayDataset_getitem_index_array (A : Type)
    (index_row : ndarray A -> Z -> result A) (arrs : list (ndarray A))
    (ds : ArrayDataset.t) (n : Z) (idx : list Z) :
  indexes_in_range index_row ->
  ArrayDataset.__init__ arrs = Ok ds ->
  ArrayDataset.__len__ ds = Ok n ->
  (Forall (fun i => - n <= i < n) idx ->
   exists b,
     ArrayDataset.getitem_with index_row ds (Ints idx) = Ok b
     /\ Forall2 (fun (it : item A) (col : ndarray A) =>
                   exists l, it = Rows l
                     /\ samples_at col l (map (fun i => i mod n) idx))
                b arrs)
  /\ (forall e,
        ArrayDataset.getitem_with index_row ds (Ints idx) = Raise e ->
        exists arr i,
          In arr arrs /\ In i idx /\ (i < - n \/ n <= i)
          /\ index_row arr i = Raise e).
Proof.
  intros Hlaw Hinit Hlen.
  destruct (init_same_shape arrs ds n Hinit Hlen) as [Harrs Hshape].
  unfold ArrayDataset.getitem_with. rewrite Harrs. split.
  - intros Hidx. now apply getitem_wrap.
  - intros e He. apply mapM_raise_source in He. destruct He as [arr [Hin He]].
    change (ndarray_getitem_with index_row arr (Ints idx))
      with (l <- mapM (index_row arr) idx ;; Ok (Rows l)) in He.
    destruct (mapM (index_row arr) idx) as [l|e'] eqn:E; cbn [bind] in He;
      [discriminate|].
    injection He as ->. apply mapM_raise_source in E.
    destruct E as [i [Hi He]]. exists arr, i.
    split; [exact Hin|]. split; [exact Hi|]. split; [|exact He].
    destruct (Z_lt_ge_dec i (- n)) as [|Hlo]; [now left|].
    destruct (Z_lt_ge_dec i n) as [Hhi|]; [|right; lia].
    rewrite Forall_forall in Hshape. specialize (Hshape arr Hin).
    destruct (index_row_wrap index_row Hlaw arr i ltac:(lia)) as [a [Ha _]].
    congruence.
Qed.

Lemma ArrayDataset_getitem_index_array_witness :
  (Forall (fun i => - 11 <= i < 11) [3; -1; 3] ->
   exists b,
     ArrayDataset.__getitem__ Toy.ds11 (Ints [3; -1; 3]) = Ok b
     /\ Forall2 (fun (it : item Z) (col : ndarray Z) =>
                   exists l, it = Rows l
                     /\ samples_at col l (map (fun i => i mod 11) [3; -1; 3]))
                b [Toy.feats; Toy.labels])
  /\ (forall e,
        ArrayDataset.__getitem__ Toy.ds11 (Ints [3; -1; 3]) = Raise e ->
        exists arr i,
          In arr [Toy.feats; Toy.labels] /\ In i [3; -1; 3]
          /\ (i < - 11 \/ 11 <= i) /\ getrow arr i = Raise e).
Proof.
  apply (ArrayDataset_getitem_index_array Z getrow [Toy.feats; Toy.labels]
           Toy.ds11 11 [3; -1; 3]);
    [apply getrow_in_range | reflexivity | reflexivity].
Defined.

(** ** What can be raised *)

Lemma mapM_raises_only {X Y : Type} (f : X -> result Y) (P : exn -> Prop)
    (xs : list X) :
  (forall x e, f x = Raise e -> P e) ->
  forall e, mapM f xs = Raise e -> P e.
Proof.
  intros Hf e He. apply mapM_raise_source in He. destruct He as [x [_ He]].
  eapply Hf, He.
Qed.

Lemma mapM_Forall2 {X Y : Type} (f : X -> result Y) (xs : list X) :
  forall ys, mapM f xs = Ok ys -> Forall2 (fun y x => f x = Ok y) ys xs.
Proof.
  induction xs as [|x xs IH]; intros ys; cbn [mapM].
  - intros [= <-]. constructor.
  - destruct (f x) as [y|e] eqn:E; cbn [bind]; [|discriminate].
    destruct (mapM f xs) as [ys'|e]; cbn [bind]; [|discriminate].
    intros [= <-]. constructor; [exact E | now apply IH].
Qed.

Lemma getrow_raises_only {A : Type} (arr : ndarray A) (i : Z) (e : exn) :
  getrow arr i = Raise e -> e = IndexError \/ e = OverflowError.
Proof.
  unfold getrow. destruct (_ && _).
  - destruct (nth_error _ _); [discriminate | intros [= <-]; now left].
  - destruct (fits_int64 i); intros [= <-]; [now left | now right].
Qed.

(** Indexing raises nothing but [IndexError] and [OverflowError]. *)
Lemma getitem_raises_only {A : Type} (ds : @ArrayDataset.t A) (ix : index)
    (e : exn) :
  ArrayDataset.__getitem__ ds ix = Raise e ->
  e = IndexError \/ e = OverflowError.
Proof.
  unfold ArrayDataset.__getitem__.
  apply (mapM_raises_only _ (fun e => e = IndexError \/ e = OverflowError)).
  intros arr e'. destruct ix as [i|idx]; cbn [ndarray_getitem].
  - destruct (getrow arr i) eqn:E; cbn [bind]; [discriminate|].
    intros [= <-]. eapply getrow_raises_only, E.
  - destruct (mapM (getrow arr) idx) eqn:E; cbn [bind]; [discriminate|].
    intros [= <-]. revert E.
    apply (mapM_raises_only _ (fun e => e = IndexError \/ e = OverflowError)).
    intros i e''. apply getrow_raises_only.
Qed.

(** A batch gathered at [idx] has [len(idx)] rows in every component. *)
Lemma getitem_ints_full {A : Type} (ds : @ArrayDataset.t A) (idx : list Z)
    (b : list (item A)) :
  ArrayDataset.__getitem__ ds (Ints idx) = Ok b ->
  full_batch (Z.of_nat (length idx)) b.
Proof.
  unfold ArrayDataset.__getitem__, full_batch. intros H.
  apply mapM_Forall2 in H.
  induction H as [|it arr b arrs Hit _ IH]; constructor; [|exact IH].
  cbn [ndarray_getitem] in Hit.
  destruct (mapM (getrow arr) idx) as [l|e] eqn:E; cbn [bind] in Hit;
    [|discriminate].
  injection Hit as <-. cbn [rows]. f_equal.
  apply mapM_Forall2, Forall2_length in E. exact E.
Qed.

Section KeyErrors.
Context {J : JaxRandom}.

(** [PRNGSequence.__next__] raises nothing but [IndexError]. *)
Lemma key_next_raises_only (cfg : Config.t) (p p' : PRNGSequence.t) (e : exn) :
  PRNGSequence.__next__ cfg p = (p', Raise e) -> e = IndexError.
Proof.
  unfold PRNGSequence.__next__.
  destruct (PRNGSequence._subkeys p) as [|k q] eqn:Hq.
  - unfold PRNGSequence.reserve. destruct (0 <? _).
    + destruct (split _ _) as [|k0 rest]; [now intros [= _ <-]|].
      unfold PRNGSequence.popleft. cbn [PRNGSequence._subkeys].
      destruct (_ ++ _); [now intros [= _ <-] | discriminate].
    + unfold PRNGSequence.popleft. rewrite Hq. now intros [= _ <-].
  - unfold PRNGSequence.popleft. rewrite Hq. discriminate.
Qed.
End KeyErrors.

(** ** DataLoaderJax: reading a call of [__next__] backwards *)

Section NextInversion.
Context {J : JaxRandom} {A : Type}.
Implicit Types (self ld : @DataLoaderJax.t J A) (cfg : Config.t).

(** A call that yields took one of the two gathering branches and moved
    the position by [batch_size]. *)
Lemma next_yield_inv cfg ld ld' (b : DataLoaderJax.batch) :
  DataLoaderJax.__next__ cfg ld = (ld', Ok b) ->
  ld' = DataLoaderJax.set_pose ld
          (DataLoaderJax.pose ld + DataLoaderJax.batch_size ld)
  /\ ((DataLoaderJax.pose ld + DataLoaderJax.batch_size ld
         <= DataLoaderJax.data_len ld
       /\ ArrayDataset.__getitem__ (DataLoaderJax.dataset ld)
            (Ints (slice (DataLoaderJax.indices ld)
                     (Some (DataLoaderJax.pose ld))
                     (Some (DataLoaderJax.pose ld
                            + DataLoaderJax.batch_size ld)))) = Ok b)
      \/ (DataLoaderJax.data_len ld
            < DataLoaderJax.pose ld + DataLoaderJax.batch_size ld
          /\ DataLoaderJax.pose ld < DataLoaderJax.data_len ld
          /\ DataLoaderJax.drop_last ld = false
          /\ ArrayDataset.__getitem__ (DataLoaderJax.dataset ld)
               (Ints (slice (DataLoaderJax.indices ld)
                        (Some (DataLoaderJax.pose ld)) None)) = Ok b)).
Proof.
  unfold DataLoaderJax.__next__.
  destruct (Z.leb_spec (DataLoaderJax.pose ld + DataLoaderJax.batch_size ld)
              (DataLoaderJax.data_len ld)).
  - destruct (ArrayDataset.__getitem__ _ _) eqn:E; intros [= <- <-].
    split; [reflexivity|]. left. now split.
  - destruct (Z.ltb_spec (DataLoaderJax.pose ld) (DataLoaderJax.data_len ld));
      cbn [andb].
    + destruct (DataLoaderJax.drop_last ld); cbn [negb].
      * destruct (DataLoaderJax._stop_iteration cfg ld). discriminate.
      * destruct (ArrayDataset.__getitem__ _ _) eqn:E; intros [= <- <-].
        split; [reflexivity|]. right. repeat split; assumption.
    + destruct (DataLoaderJax._stop_iteration cfg ld). discriminate.
Qed.

(** A call that raises [StopIteration] went through [_stop_iteration],
    whose [_shuffle] returned. *)
Lemma next_stop_inv cfg ld ld' :
  DataLoaderJax.__next__ cfg ld = (ld', Raise StopIteration) ->
  DataLoaderJax._shuffle cfg (DataLoaderJax.set_pose ld 0) = (ld', Ok tt).
Proof.
  unfold DataLoaderJax.__next__.
  assert (Hstop : forall s e,
            DataLoaderJax._stop_iteration cfg ld = (s, e) ->
            (s, @Raise (@DataLoaderJax.batch A) e) = (ld', Raise StopIteration) ->
            DataLoaderJax._shuffle cfg (DataLoaderJax.set_pose ld 0)
              = (ld', Ok tt)).
  { unfold DataLoaderJax._stop_iteration. intros s e.
    destruct (DataLoaderJax._shuffle cfg (DataLoaderJax.set_pose ld 0))
      as [s' [[]|e']] eqn:E; intros [= <- <-] Heq.
    - now injection Heq as <-.
    - injection Heq as <- ->. exfalso. unfold DataLoaderJax._shuffle in E.
      destruct (DataLoaderJax.shuffle _); [|discriminate].
      destruct (PRNGSequence.__next__ cfg _) as [ks [k|e]] eqn:Ek;
        [discriminate|].
      apply key_next_raises_only in Ek. injection E as _ E. congruence. }
  destruct (_ <=? _).
  - destruct (ArrayDataset.__getitem__ _ _) eqn:E; [discriminate|].
    intros [= _ He]. apply getitem_raises_only in E. destruct E; congruence.
  - destruct (_ && _).
    + destruct (ArrayDataset.__getitem__ _ _) eqn:E; [discriminate|].
      intros [= _ He]. apply getitem_raises_only in E. destruct E; congruence.
    + destruct (DataLoaderJax._stop_iteration cfg ld) as [s e] eqn:E.
      now apply Hstop.
Qed.

(** However many batches an epoch yields, the loader it leaves is the one
    [_shuffle] makes of the starting loader at position 0. *)
Lemma iterate_end cfg (fuel : nat) :
  forall ld ld' (batches : list DataLoaderJax.batch),
    DataLoaderJax.iterate cfg fuel ld = (ld', DataLoaderJax.Done batches) ->
    DataLoaderJax._shuffle cfg (DataLoaderJax.set_pose ld 0) = (ld', Ok tt).
Proof.
  induction fuel as [|fuel IH]; intros ld ld' batches;
    cbn [DataLoaderJax.iterate]; [discriminate|].
  destruct (DataLoaderJax.__next__ cfg ld) as [s [b|e]] eqn:E.
  - destruct (DataLoaderJax.iterate cfg fuel s) as [s' o] eqn:E'.
    destruct o as [batches'| |]; cbn [DataLoaderJax.yielded];
      intros [= <- <-].
    apply next_yield_inv in E. destruct E as [-> _].
    apply (IH _ _ _ E').
  - destruct e; intros [= <- <-]. now apply next_stop_inv.
Qed.
End NextInversion.

(** ** DataLoaderJax: epochs one after the other *)

Section EpochFacts.
Context {J : JaxRandom} {Jok : JaxRandomOk J} {A : Type}.
Implicit Types (self ld : @DataLoaderJax.t J A) (cfg : Config.t).

(** What is known at the start of an epoch of a constructed loader. *)
Lemma epoch_facts cfg (arrs : list (ndarray A)) (ds : ArrayDataset.t)
    (n B : Z) (sh dl : bool) (kw : list (string * Z)) ld0 ld (fuel : nat) :
  ArrayDataset.__init__ arrs = Ok ds ->
  ArrayDataset.__len__ ds = Ok n ->
  0 < B ->
  DataLoaderJax.__init__ cfg ds B sh dl kw = Ok ld0 ->
  DataLoaderJax.reachable cfg ld0 ld ->
  DataLoaderJax.pose ld = 0 ->
  (Z.to_nat (n / B) + 2 <= fuel)%nat ->
  exists batches ld',
    DataLoaderJax.iterate cfg fuel ld = (ld', DataLoaderJax.Done batches)
    /\ ready cfg n ld /\ 0 <= n
    /\ DataLoaderJax.dataset ld = ds
    /\ DataLoaderJax.batch_size ld = B
    /\ DataLoaderJax.shuffle ld = sh
    /\ DataLoaderJax.drop_last ld = dl
    /\ Z.of_nat (length batches) = (if dl then n / B else (n + B - 1) / B)
    /\ DataLoaderJax.pose ld' = 0.
Proof.
  intros Hds Hlen HB Hinit Hreach Hpose Hfuel.
  destruct (reachable_ready cfg arrs ds B sh dl kw ld0 ld Hds Hinit Hreach)
    as (n' & Hlen' & Hn & Hready & Hd & HBld & Hsh & Hdl).
  rewrite Hlen in Hlen'. injection Hlen' as <-.
  destruct (iterate_from cfg n fuel ld Hready)
    as (batches & ld' & Hrun & _ & _ & Hpose' & _ & Hcount & _).
  { lia. }
  { lia. }
  { rewrite Hpose, HBld. now apply fuel_enough. }
  rewrite Hdl, Hpose, HBld, Z.sub_0_r in Hcount.
  exists batches, ld'. repeat split; try assumption; apply Hready.
Qed.

Lemma next_no_shuffle_keys cfg ld ld' (r : result DataLoaderJax.batch) :
  DataLoaderJax.shuffle ld = false ->
  DataLoaderJax.__next__ cfg ld = (ld', r) ->
  DataLoaderJax.keys ld' = DataLoaderJax.keys ld.
Proof.
  intros Hsh. unfold DataLoaderJax.__next__.
  destruct (_ <=? _).
  - destruct (ArrayDataset.__getitem__ _ _); now intros [= <- <-].
  - destruct (_ && _).
    + destruct (ArrayDataset.__getitem__ _ _); now intros [= <- <-].
    + unfold DataLoaderJax._stop_iteration.
      rewrite shuffle_off by exact Hsh. now intros [= <- <-].
Qed.

Lemma reachable_no_shuffle_keys cfg ld0 ld :
  DataLoaderJax.shuffle ld0 = false ->
  DataLoaderJax.reachable cfg ld0 ld ->
  DataLoaderJax.keys ld = DataLoaderJax.keys ld0.
Proof.
  intros Hsh. induction 1 as [|self self' r Hreach IH Hnext]; [reflexivity|].
  rewrite <- IH. eapply next_no_shuffle_keys; [|exact Hnext].
  destruct (reachable_keeps cfg ld0 self Hreach) as [(_ & _ & -> & _) _].
  exact Hsh.
Qed.

(** Two loader states with the same fields are the same state. *)
Lemma loader_ext ld1 ld2 :
  same_setup ld1 ld2 ->
  DataLoaderJax.keys ld2 = DataLoaderJax.keys ld1 ->
  DataLoaderJax.indices ld2 = DataLoaderJax.indices ld1 ->
  DataLoaderJax.pose ld2 = DataLoaderJax.pose ld1 ->
  ld2 = ld1.
Proof.
  destruct ld1, ld2. unfold same_setup. cbn.
  intros (-> & -> & -> & -> & ->) -> -> ->. reflexivity.
Qed.
End EpochFacts.

(** X5.  Without shuffling, an epoch leaves the loader exactly as it was:
    at the start of every epoch the loader is the one the constructor
    built, and the loop returns that same loader, so every epoch yields
    the same batches. *)
Theorem DataLoaderJax_unshuffled_epoch_restores {J : JaxRandom}
    (Jok : JaxRandomOk J) (A : Type) (cfg : Config.t)
    (arrs : list (ndarray A)) (ds : ArrayDataset.t) (n B : Z) (dl : bool)
    (kw : list (string * Z)) (ld0 ld : DataLoaderJax.t) (fuel : nat) :
  ArrayDataset.__init__ arrs = Ok ds ->
  ArrayDataset.__len__ ds = Ok n ->
  0 < B ->
  DataLoaderJax.__init__ cfg ds B false dl kw = Ok ld0 ->
  DataLoaderJax.reachable cfg ld0 ld ->
  DataLoaderJax.pose ld = 0 ->
  (Z.to_nat (n / B) + 2 <= fuel)%nat ->
  ld = ld0
  /\ exists batches,
       DataLoaderJax.for_loop cfg fuel ld = (ld, DataLoaderJax.Done batches)
       /\ DataLoaderJax.for_loop cfg fuel
            (fst (DataLoaderJax.for_loop cfg fuel ld))
          = (ld, DataLoaderJax.Done batches).
Proof.
  intros Hds Hlen HB Hinit Hreach Hpose Hfuel.
  destruct (epoch_facts cfg arrs ds n B false dl kw ld0 ld fuel
              Hds Hlen HB Hinit Hreach Hpose Hfuel)
    as (batches & ld' & Hrun & _ & _ & _ & _ & Hsh & _).
  destruct (init_spec cfg ds B false dl kw ld0 Hinit)
    as (_ & _ & _ & Hpose0 & _ & _ & Hsh0 & _).
  destruct (reachable_keeps cfg ld0 ld Hreach) as [Hsame _].
  split.
  - apply loader_ext; [exact Hsame | | |congruence].
    + now apply (reachable_no_shuffle_keys cfg).
    + now apply (reachable_no_shuffle cfg).
  - assert (Hback : ld' = ld).
    { apply iterate_end in Hrun. rewrite shuffle_off in Hrun by exact Hsh.
      injection Hrun as <-. destruct ld; cbn in *. now subst. }
    subst ld'. exists batches. unfold DataLoaderJax.for_loop,
      DataLoaderJax.__iter__ in *. now rewrite !Hrun.
Qed.

Lemma DataLoaderJax_unshuffled_epoch_restores_witness :
  let ld : @DataLoaderJax.t Toy.jax Z :=
    {| DataLoaderJax.dataset := Toy.ds11; DataLoaderJax.batch_size := 4;
       DataLoaderJax.shuffle := false; DataLoaderJax.drop_last := false;
       DataLoaderJax.keys := PRNGSequence.__init__ 42;
       DataLoaderJax.data_len := 11; DataLoaderJax.indices := arange 11;
       DataLoaderJax.pose := 0 |} in
  ld = ld
  /\ exists batches,
       DataLoaderJax.for_loop Config.default 4 ld
         = (ld, DataLoaderJax.Done batches)
       /\ DataLoaderJax.for_loop Config.default 4
            (fst (DataLoaderJax.for_loop Config.default 4 ld))
          = (ld, DataLoaderJax.Done batches).
Proof.
  intros ld.
  apply (DataLoaderJax_unshuffled_epoch_restores Toy_jax_ok Z Config.default
           [Toy.feats; Toy.labels] Toy.ds11 11 4 false [] ld ld 4);
    try reflexivity; try lia; constructor.
Defined.

(** X6.  With shuffling, an epoch draws exactly one key, however many
    batches it yields: the key sequence after the epoch is the one a
    single [next] leaves, and the index sequence of the next epoch is
    [jax.random.permutation] of that key applied to the index sequence
    of the epoch that ended. *)
Theorem DataLoaderJax_one_key_per_epoch {J : JaxRandom}
    (Jok : JaxRandomOk J) (A : Type) (cfg : Config.t)
    (arrs : list (ndarray A)) (ds : ArrayDataset.t) (n B : Z) (dl : bool)
    (kw : list (string * Z)) (ld0 ld : DataLoaderJax.t) (fuel : nat) :
  ArrayDataset.__init__ arrs = Ok ds ->
  ArrayDataset.__len__ ds = Ok n ->
  0 < B ->
  DataLoaderJax.__init__ cfg ds B true dl kw = Ok ld0 ->
  DataLoaderJax.reachable cfg ld0 ld ->
  DataLoaderJax.pose ld = 0 ->
  (Z.to_nat (n / B) + 2 <= fuel)%nat ->
  exists batches ld' k,
    DataLoaderJax.for_loop cfg fuel ld = (ld', DataLoaderJax.Done batches)
    /\ PRNGSequence.__next__ cfg (DataLoaderJax.keys ld)
       = (DataLoaderJax.keys ld', Ok k)
    /\ DataLoaderJax.indices ld' = permutation k (DataLoaderJax.indices ld)
    /\ DataLoaderJax.pose ld' = 0.
Proof.
  intros Hds Hlen HB Hinit Hreach Hpose Hfuel.
  destruct (epoch_facts cfg arrs ds n B true dl kw ld0 ld fuel
              Hds Hlen HB Hinit Hreach Hpose Hfuel)
    as (batches & ld' & Hrun & _ & _ & _ & _ & Hsh & _ & _ & Hpose').
  pose proof (iterate_end cfg fuel ld ld' batches Hrun) as Hend.
  unfold DataLoaderJax._shuffle in Hend. cbn in Hend. rewrite Hsh in Hend.
  destruct (PRNGSequence.__next__ cfg (DataLoaderJax.keys ld))
    as [ks [k|e]]; [|discriminate].
  injection Hend as <-. eexists batches, _, k.
  split; [exact Hrun|]. repeat split.
Qed.

Lemma DataLoaderJax_one_key_per_epoch_witness :
  exists batches ld' k,
    DataLoaderJax.for_loop Config.default 5 (Toy.loader 3 false)
      = (ld', DataLoaderJax.Done batches)
    /\ PRNGSequence.__next__ Config.default
         (DataLoaderJax.keys (Toy.loader 3 false))
       = (DataLoaderJax.keys ld', Ok k)
    /\ DataLoaderJax.indices ld'
       = permutation k (DataLoaderJax.indices (Toy.loader 3 false))
    /\ DataLoaderJax.pose ld' = 0.
Proof.
  apply (DataLoaderJax_one_key_per_epoch Toy_jax_ok Z Config.default
           [Toy.feats; Toy.labels] Toy.ds11 11 3 false []
           (Toy.loader 3 false) (Toy.loader 3 false) 5);
    try reflexivity; try lia; constructor.
Defined.

(** ** DataLoaderJax: which indices each batch reads *)

Lemma slice_stop_beyond {X : Type} (l : list X) (lo hi : Z) :
  Z.of_nat (length l) <= hi ->
  slice l (Some lo) (Some hi) = slice l (Some lo) None.
Proof.
  intros Hhi. unfold slice, clip.
  destruct (Z.ltb_spec hi 0); [lia|]. now rewrite Z.min_r by lia.
Qed.

Lemma slice_length {X : Type} (l : list X) (lo hi : Z) :
  0 <= lo <= Z.of_nat (length l) -> lo <= hi ->
  Z.of_nat (length (slice l (Some lo) (Some hi)))
    = Z.min hi (Z.of_nat (length l)) - lo.
Proof.
  intros Hlo Hhi. unfold slice, clip.
  destruct (Z.ltb_spec lo 0); [lia|].
  destruct (Z.ltb_spec hi 0); [lia|].
  rewrite length_firstn, length_skipn. lia.
Qed.

Section EpochSlices.
Context {J : JaxRandom} {A : Type}.
Implicit Types (self ld : @DataLoaderJax.t J A) (cfg : Config.t).

(** The batch at place [k] of a finished loop was gathered at the slice
    of the indices that starts [k] batch sizes after the position the
    loop started from ([s] is where the count of places starts). *)
Lemma iterate_slices cfg (fuel : nat) :
  forall ld ld' (batches : list DataLoaderJax.batch) (s : nat),
    0 < DataLoaderJax.batch_size ld ->
    0 <= DataLoaderJax.pose ld ->
    Z.of_nat (length (DataLoaderJax.indices ld)) = DataLoaderJax.data_len ld ->
    DataLoaderJax.iterate cfg fuel ld = (ld', DataLoaderJax.Done batches) ->
    Forall2
      (fun b k =>
         ArrayDataset.__getitem__ (DataLoaderJax.dataset ld)
           (Ints (slice (DataLoaderJax.indices ld)
                    (Some (DataLoaderJax.pose ld
                           + (Z.of_nat k - Z.of_nat s)
                             * DataLoaderJax.batch_size ld))
                    (Some (DataLoaderJax.pose ld
                           + (Z.of_nat k - Z.of_nat s + 1)
                             * DataLoaderJax.batch_size ld)))) = Ok b)
      batches (seq s (length batches)).
Proof.
  induction fuel as [|fuel IH]; intros ld ld' batches s HB Hp Hlen;
    cbn [DataLoaderJax.iterate]; [discriminate|].
  destruct (DataLoaderJax.__next__ cfg ld) as [s1 [b|e]] eqn:E.
  - destruct (DataLoaderJax.iterate cfg fuel s1) as [s' o] eqn:E'.
    destruct o as [batches'| |]; cbn [DataLoaderJax.yielded];
      intros [= <- <-].
    apply next_yield_inv in E. destruct E as [-> Hcase].
    specialize (IH (DataLoaderJax.set_pose ld
                      (DataLoaderJax.pose ld + DataLoaderJax.batch_size ld))
                  s' batches' (S s) HB ltac:(cbn; lia) Hlen E').
    cbn [DataLoaderJax.set_pose DataLoaderJax.dataset DataLoaderJax.indices
         DataLoaderJax.pose DataLoaderJax.batch_size] in IH.
    cbn [length seq]. constructor.
    + replace (Z.of_nat s - Z.of_nat s) with 0 by lia.
      rewrite Z.mul_0_l, Z.add_0_r, Z.add_0_l, Z.mul_1_l.
      destruct Hcase as [[_ Hg]|(Hgt & _ & _ & Hg)]; [exact Hg|].
      rewrite slice_stop_beyond by lia. exact Hg.
    + eapply Forall2_impl; [|exact IH]. cbn beta. intros b' k Hk.
      rewrite <- Hk. do 3 f_equal; f_equal; lia.
  - destruct e; intros [= <- <-]. constructor.
Qed.

(** The same, read place by place for a loop started at position 0. *)
Lemma iterate_nth_slice cfg (fuel : nat) ld ld'
    (batches : list DataLoaderJax.batch) (k : nat) (b : DataLoaderJax.batch) :
  0 < DataLoaderJax.batch_size ld ->
  DataLoaderJax.pose ld = 0 ->
  Z.of_nat (length (DataLoaderJax.indices ld)) = DataLoaderJax.data_len ld ->
  DataLoaderJax.iterate cfg fuel ld = (ld', DataLoaderJax.Done batches) ->
  nth_error batches k = Some b ->
  ArrayDataset.__getitem__ (DataLoaderJax.dataset ld)
    (Ints (slice (DataLoaderJax.indices ld)
             (Some (Z.of_nat k * DataLoaderJax.batch_size ld))
             (Some ((Z.of_nat k + 1) * DataLoaderJax.batch_size ld)))) = Ok b.
Proof.
  intros HB Hp Hlen Hrun Hk.
  pose proof (iterate_slices cfg fuel ld ld' batches 0 HB ltac:(lia) Hlen Hrun)
    as Hall.
  destruct (Forall2_nth_error _ _ _ _ _ Hall Hk) as [k' [Hk' Hb]].
  assert (Hlt : (k < length batches)%nat)
    by (apply nth_error_Some; congruence).
  rewrite nth_error_seq in Hk'.
  destruct (Nat.ltb_spec k (length batches)); [|lia].
  injection Hk' as <-. cbn [Nat.add] in Hb.
  rewrite Hp, Z.sub_0_r, !Z.add_0_l in Hb. exact Hb.
Qed.
End EpochSlices.

(** X7.  In an epoch of a loader with batch size [B > 0], the batch at
    place [k] (counting from 0) is the dataset indexed with
    [indices[k*B : (k+1)*B]]; the number of places is [floor(n / B)] with
    [drop_last] and [ceil(n / B)] without. *)
Theorem DataLoaderJax_batch_is_slice {J : JaxRandom} (Jok : JaxRandomOk J)
    (A : Type) (cfg : Config.t) (arrs : list (ndarray A))
    (ds : ArrayDataset.t) (n B : Z) (sh dl : bool) (kw : list (string * Z))
    (ld0 ld : DataLoaderJax.t) (fuel : nat) :
  ArrayDataset.__init__ arrs = Ok ds ->
  ArrayDataset.__len__ ds = Ok n ->
  0 < B ->
  DataLoaderJax.__init__ cfg ds B sh dl kw = Ok ld0 ->
  DataLoaderJax.reachable cfg ld0 ld ->
  DataLoaderJax.pose ld = 0 ->
  (Z.to_nat (n / B) + 2 <= fuel)%nat ->
  exists batches ld',
    DataLoaderJax.for_loop cfg fuel ld = (ld', DataLoaderJax.Done batches)
    /\ Z.of_nat (length batches) = (if dl then n / B else (n + B - 1) / B)
    /\ forall k b,
         nth_error batches k = Some b ->
         ArrayDataset.__getitem__ ds
           (Ints (slice (DataLoaderJax.indices ld)
                    (Some (Z.of_nat k * B)) (Some ((Z.of_nat k + 1) * B))))
         = Ok b.
Proof.
  intros Hds Hlen HB Hinit Hreach Hpose Hfuel.
  destruct (epoch_facts cfg arrs ds n B sh dl kw ld0 ld fuel
              Hds Hlen HB Hinit Hreach Hpose Hfuel)
    as (batches & ld' & Hrun & Hready & Hn & Hd & HBld & _ & _ & Hcount & _).
  exists batches, ld'. split; [exact Hrun|]. split; [exact Hcount|].
  intros k b Hk. rewrite <- Hd, <- HBld.
  apply (iterate_nth_slice cfg fuel ld ld' batches k b); try assumption.
  - lia.
  - rewrite (ready_indices_length cfg n ld Hready). symmetry. apply Hready.
Qed.

Lemma DataLoaderJax_batch_is_slice_witness :
  exists batches ld',
    DataLoaderJax.for_loop Config.default 5 (Toy.loader 3 false)
      = (ld', DataLoaderJax.Done batches)
    /\ Z.of_nat (length batches)
       = (if false then 11 / 3 else (11 + 3 - 1) / 3)
    /\ forall k b,
         nth_error batches k = Some b ->
         ArrayDataset.__getitem__ Toy.ds11
           (Ints (slice (DataLoaderJax.indices (Toy.loader 3 false))
                    (Some (Z.of_nat k * 3)) (Some ((Z.of_nat k + 1) * 3))))
         = Ok b.
Proof.
  apply (DataLoaderJax_batch_is_slice Toy_jax_ok Z Config.default
           [Toy.feats; Toy.labels] Toy.ds11 11 3 true false []
           (Toy.loader 3 false) (Toy.loader 3 false) 5);
    try reflexivity; try lia; constructor.
Defined.

(** X8.  The batch at place [k] of an epoch holds [min(B, n - k*B)] rows
    in every component: every batch is full except possibly the last one
    of an epoch without [drop_last], which holds the [n mod B] samples
    that are left. *)
Theorem DataLoaderJax_batch_sizes {J : JaxRandom} (Jok : JaxRandomOk J)
    (A : Type) (cfg : Config.t) (arrs : list (ndarray A))
    (ds : ArrayDataset.t) (n B : Z) (sh dl : bool) (kw : list (string * Z))
    (ld0 ld : DataLoaderJax.t) (fuel : nat) :
  ArrayDataset.__init__ arrs = Ok ds ->
  ArrayDataset.__len__ ds = Ok n ->
  0 < B ->
  DataLoaderJax.__init__ cfg ds B sh dl kw = Ok ld0 ->
  DataLoaderJax.reachable cfg ld0 ld ->
  DataLoaderJax.pose ld = 0 ->
  (Z.to_nat (n / B) + 2 <= fuel)%nat ->
  exists batches ld',
    DataLoaderJax.for_loop cfg fuel ld = (ld', DataLoaderJax.Done batches)
    /\ (forall k b,
          nth_error batches k = Some b ->
          full_batch (Z.min B (n - Z.of_nat k * B)) b)
    /\ (forall k b,
          nth_error batches k = Some b ->
          (S k < length batches)%nat -> full_batch B b)
    /\ (dl = false -> n mod B <> 0 ->
        exists b, nth_error batches (Z.to_nat (n / B)) = Some b
                  /\ length batches = S (Z.to_nat (n / B))
                  /\ full_batch (n mod B) b).
Proof.
  intros Hds Hlen HB Hinit Hreach Hpose Hfuel.
  destruct (epoch_facts cfg arrs ds n B sh dl kw ld0 ld fuel
              Hds Hlen HB Hinit Hreach Hpose Hfuel)
    as (batches & ld' & Hrun & Hready & Hn & Hd & HBld & _ & _ & Hcount & _).
  pose proof (ready_indices_length cfg n ld Hready) as Hixlen.
  pose proof (floor_bounds n B HB) as Hfl.
  pose proof (ceil_bounds n B HB) as Hce.
  pose proof (Z.div_pos n B Hn HB) as Hq.
  assert (Hsize : forall k b, nth_error batches k = Some b ->
            Z.of_nat k * B < n
            /\ full_batch (Z.min B (n - Z.of_nat k * B)) b).
  { intros k b Hk.
    assert (Hlt : (k < length batches)%nat)
      by (apply nth_error_Some; congruence).
    assert (HkB : Z.of_nat k * B < n) by (destruct dl; nia).
    split; [exact HkB|].
    pose proof (iterate_nth_slice cfg fuel ld ld' batches k b
                  ltac:(lia) Hpose
                  ltac:(rewrite Hixlen; symmetry; apply Hready) Hrun Hk) as Hg.
    apply getitem_ints_full in Hg.
    rewrite slice_length, Hixlen, HBld in Hg by (rewrite ?Hixlen, ?HBld; nia).
    replace (Z.min B (n - Z.of_nat k * B))
      with (Z.min ((Z.of_nat k + 1) * B) n - Z.of_nat k * B) by lia.
    exact Hg. }
  exists batches, ld'. split; [exact Hrun|]. split; [|split].
  - intros k b Hk. now apply Hsize.
  - intros k b Hk Hnext. destruct (Hsize k b Hk) as [_ Hf].
    replace B with (Z.min B (n - Z.of_nat k * B)); [exact Hf|].
    assert (Z.of_nat (S k) * B < n).
    { destruct dl; nia. }
    lia.
  - intros -> Hmod.
    pose proof (Z.div_mod n B ltac:(lia)) as Hdm.
    pose proof (Z.mod_pos_bound n B HB) as Hmb.
    assert (Hc : (n + B - 1) / B = n / B + 1).
    { symmetry. apply (Z.div_unique_pos _ _ _ (n mod B - 1)); lia. }
    rewrite Hc in Hcount.
    destruct (nth_error batches (Z.to_nat (n / B))) as [b|] eqn:Hb.
    + exists b. split; [reflexivity|]. split; [lia|].
      destruct (Hsize _ b Hb) as [_ Hf].
      replace (n mod B) with (Z.min B (n - Z.of_nat (Z.to_nat (n / B)) * B));
        [exact Hf|]. nia.
    + apply nth_error_None in Hb. lia.
Qed.

Lemma DataLoaderJax_batch_sizes_witness :
  exists batches ld',
    DataLoaderJax.for_loop Config.default 3 (Toy.loader 10 false)
      = (ld', DataLoaderJax.Done batches)
    /\ (forall k b,
          nth_error batches k = Some b ->
          full_batch (Z.min 10 (11 - Z.of_nat k * 10)) b)
    /\ (forall k b,
          nth_error batches k = Some b ->
          (S k < length batches)%nat -> full_batch 10 b)
    /\ (false = false -> 11 mod 10 <> 0 ->
        exists b, nth_error batches (Z.to_nat (11 / 10)) = Some b
                  /\ length batches = S (Z.to_nat (11 / 10))
                  /\ full_batch (11 mod 10) b).
Proof.
  apply (DataLoaderJax_batch_sizes Toy_jax_ok Z Config.default
           [Toy.feats; Toy.labels] Toy.ds11 11 10 true false []
           (Toy.loader 10 false) (Toy.loader 10 false) 3);
    try reflexivity; try lia; constructor.
Defined.

(** ** DataLoaderJax: batch sizes that are not positive *)

Section NonPositive.
Context {J : JaxRandom} {Jok : JaxRandomOk J} {A : Type}.
Implicit Types (self ld : @DataLoaderJax.t J A) (cfg : Config.t).

(** Whenever the first test of [__next__] holds, the call yields: the
    slice holds indices of the dataset whatever its bounds are. *)
Lemma next_first_branch cfg n ld :
  ready cfg n ld ->
  DataLoaderJax.pose ld + DataLoaderJax.batch_size ld <= n ->
  exists b,
    DataLoaderJax.__next__ cfg ld =
      (DataLoaderJax.set_pose ld
         (DataLoaderJax.pose ld + DataLoaderJax.batch_size ld), Ok b).
Proof.
  intros Hready Hle.
  pose proof Hready as (_ & _ & (_ & Hdata & _) & _).
  unfold DataLoaderJax.__next__. rewrite Hdata.
  destruct (Z.leb_spec (DataLoaderJax.pose ld + DataLoaderJax.batch_size ld) n);
    [|lia].
  destruct (ready_gather cfg n ld
              (slice (DataLoaderJax.indices ld) (Some (DataLoaderJax.pose ld))
                 (Some (DataLoaderJax.pose ld + DataLoaderJax.batch_size ld)))
              Hready) as [b [-> _]].
  { intros i. apply slice_In. }
  now exists b.
Qed.

Lemma iterate_never_stops cfg n (fuel : nat) :
  forall ld,
    ready cfg n ld ->
    DataLoaderJax.batch_size ld <= 0 ->
    DataLoaderJax.pose ld <= n ->
    exists ld',
      DataLoaderJax.iterate cfg fuel ld = (ld', DataLoaderJax.OutOfFuel).
Proof.
  induction fuel as [|fuel IH]; intros ld Hready HB Hp;
    cbn [DataLoaderJax.iterate]; [eauto|].
  destruct (next_first_branch cfg n ld Hready ltac:(lia)) as [b ->].
  destruct (IH (DataLoaderJax.set_pose ld
                  (DataLoaderJax.pose ld + DataLoaderJax.batch_size ld))
              (ready_set_pose cfg n ld _ Hready) HB ltac:(cbn; lia))
    as [ld' ->].
  now exists ld'.
Qed.
End NonPositive.

(** X9.  A loader constructed with a batch size that is zero or negative
    never ends an epoch: in every state it can reach, [__next__] yields a
    batch and neither raises [StopIteration] nor fails, so a loop over it
    is still running after any number of calls. *)
Theorem DataLoaderJax_nonpositive_batch_size_never_stops {J : JaxRandom}
    (Jok : JaxRandomOk J) (A : Type) (cfg : Config.t)
    (arrs : list (ndarray A)) (ds : ArrayDataset.t) (B : Z) (sh dl : bool)
    (kw : list (string * Z)) (ld0 ld : DataLoaderJax.t) :
  ArrayDataset.__init__ arrs = Ok ds ->
  B <= 0 ->
  DataLoaderJax.__init__ cfg ds B sh dl kw = Ok ld0 ->
  DataLoaderJax.reachable cfg ld0 ld ->
  (exists b ld', DataLoaderJax.__next__ cfg ld = (ld', Ok b))
  /\ forall fuel, exists ld',
       DataLoaderJax.for_loop cfg fuel ld = (ld', DataLoaderJax.OutOfFuel).
Proof.
  intros Hds HB Hinit Hreach.
  destruct (reachable_ready cfg arrs ds B sh dl kw ld0 ld Hds Hinit Hreach)
    as (n & Hlen & Hn & Hready & _ & HBld & _).
  assert (Hpose : DataLoaderJax.pose ld <= n).
  { clear Hready HBld. induction Hreach as [|self self' r Hreach IH Hnext].
    - destruct (init_spec cfg ds B sh dl kw ld0 Hinit)
        as (_ & _ & _ & -> & _). exact Hn.
    - destruct (reachable_ready cfg arrs ds B sh dl kw ld0 self Hds Hinit Hreach)
        as (n' & Hlen' & _ & Hready & _ & HBs & _).
      rewrite Hlen in Hlen'. injection Hlen' as <-.
      destruct (next_first_branch cfg n self Hready ltac:(lia)) as [b Hb].
      rewrite Hb in Hnext. injection Hnext as <- _. cbn. lia. }
  split.
  - destruct (next_first_branch cfg n ld Hready ltac:(lia)) as [b Hb]. eauto.
  - intros fuel. apply (iterate_never_stops cfg n fuel ld Hready); lia.
Qed.

Lemma DataLoaderJax_nonpositive_batch_size_never_stops_witness :
  (exists b ld',
     DataLoaderJax.__next__ Config.default (Toy.loader (-3) false)
       = (ld', Ok b))
  /\ forall fuel, exists ld',
       DataLoaderJax.for_loop Config.default fuel (Toy.loader (-3) false)
       = (ld', DataLoaderJax.OutOfFuel).
Proof.
  apply (DataLoaderJax_nonpositive_batch_size_never_stops Toy_jax_ok Z
           Config.default [Toy.feats; Toy.labels] Toy.ds11 (-3) true false []
           (Toy.loader (-3) false) (Toy.loader (-3) false));
    try reflexivity; try lia; constructor.
Defined.

(** X10.  Over a dataset whose buffers are empty, a loader with a positive
    batch size yields no batch in any epoch and reports length 0, with or
    without [drop_last] and with or without shuffling. *)
Theorem DataLoaderJax_empty_dataset {J : JaxRandom} (Jok : JaxRandomOk J)
    (A : Type) (cfg : Config.t) (arrs : list (ndarray A))
    (ds : ArrayDataset.t) (B : Z) (sh dl : bool) (kw : list (string * Z))
    (ld0 ld : DataLoaderJax.t) (fuel : nat) :
  ArrayDataset.__init__ arrs = Ok ds ->
  ArrayDataset.__len__ ds = Ok 0 ->
  0 < B ->
  DataLoaderJax.__init__ cfg ds B sh dl kw = Ok ld0 ->
  DataLoaderJax.reachable cfg ld0 ld ->
  (1 <= fuel)%nat ->
  DataLoaderJax.pose ld = 0
  /\ DataLoaderJax.__len__ ld = Ok 0
  /\ exists ld',
       DataLoaderJax.for_loop cfg fuel ld = (ld', DataLoaderJax.Done []).
Proof.
  intros Hds Hlen HB Hinit Hreach Hfuel.
  destruct (reachable_ready cfg arrs ds B sh dl kw ld0 ld Hds Hinit Hreach)
    as (n & Hlen' & _ & Hready & Hd & HBld & _ & Hdl).
  rewrite Hlen in Hlen'. injection Hlen' as <-.
  assert (Hpose : DataLoaderJax.pose ld = 0).
  { clear Hready Hd HBld Hdl.
    induction Hreach as [|self self' r Hreach IH Hnext].
    - now destruct (init_spec cfg ds B sh dl kw ld0 Hinit)
        as (_ & _ & _ & -> & _).
    - destruct (reachable_ready cfg arrs ds B sh dl kw ld0 self Hds Hinit Hreach)
        as (n & Hl & _ & Hready & _ & HBs & _).
      rewrite Hlen in Hl. injection Hl as <-.
      assert (Hend : 0 <= DataLoaderJax.pose self) by lia.
      destruct (next_stop cfg 0 self Hready ltac:(lia) (or_introl Hend))
        as (s & Hs & _ & _ & Hp).
      rewrite Hs in Hnext. now injection Hnext as <- _. }
  split; [exact Hpose|]. split.
  - destruct dl.
    + rewrite (len_drop_last ld 0); rewrite ?Hd, ?HBld; try assumption.
      now rewrite Z.div_0_l by lia.
    + rewrite (len_keep_last ld 0); rewrite ?Hd, ?HBld; try assumption.
      now rewrite Z.div_small by lia.
  - destruct fuel as [|fuel]; [lia|].
    assert (Hend : 0 <= DataLoaderJax.pose ld) by lia.
    destruct (next_stop cfg 0 ld Hready ltac:(lia) (or_introl Hend))
      as (s & Hs & _).
    exists s. unfold DataLoaderJax.for_loop, DataLoaderJax.__iter__.
    cbn [DataLoaderJax.iterate]. now rewrite Hs.
Qed.

Lemma DataLoaderJax_empty_dataset_witness :
  let ds : @ArrayDataset.t Z := {| ArrayDataset.arrays := [[]; []] |} in
  let ld : @DataLoaderJax.t Toy.jax Z :=
    {| DataLoaderJax.dataset := ds; DataLoaderJax.batch_size := 4;
       DataLoaderJax.shuffle := false; DataLoaderJax.drop_last := false;
       DataLoaderJax.keys := PRNGSequence.__init__ 42;
       DataLoaderJax.data_len := 0; DataLoaderJax.indices := [];
       DataLoaderJax.pose := 0 |} in
  DataLoaderJax.pose ld = 0
  /\ DataLoaderJax.__len__ ld = Ok 0
  /\ exists ld',
       DataLoaderJax.for_loop Config.default 1 ld = (ld', DataLoaderJax.Done []).
Proof.
  intros ds ld.
  apply (DataLoaderJax_empty_dataset Toy_jax_ok Z Config.default [[]; []] ds 4
           false false [] ld ld 1);
    try reflexivity; try lia; constructor.
Defined.

(** ** DataLoaderJax: loaders that do not shuffle, and loaders that do *)

(** X11.  A loader constructed with [shuffle=False] never draws a key:
    whenever the configured seed fits a signed 64-bit integer,
    construction succeeds whatever the reserve size is, 0 included, and
    in every state the loader reaches its key sequence is the untouched
    [PRNGSequence(global_seed)] and its indices are [arange(n)]. *)
Theorem DataLoaderJax_unshuffled_never_draws_key {J : JaxRandom}
    (Jok : JaxRandomOk J) (A : Type) (cfg : Config.t)
    (ds : @ArrayDataset.t A) (n B : Z) (dl : bool) (kw : list (string * Z)) :
  ArrayDataset.__len__ ds = Ok n ->
  - 2 ^ 63 <= Config.global_seed cfg < 2 ^ 63 ->
  exists ld0,
    DataLoaderJax.__init__ cfg ds B false dl kw = Ok ld0
    /\ forall ld,
         DataLoaderJax.reachable cfg ld0 ld ->
         PRNGSequence.new (Config.global_seed cfg) = Ok (DataLoaderJax.keys ld)
         /\ DataLoaderJax.indices ld = arange n.
Proof.
  intros Hlen Hseed. apply fits_int64_spec in Hseed.
  rewrite (init_fits _ _ _ _ _ _ Hseed), Hlen. cbn [bind].
  rewrite shuffle_off by reflexivity.
  eexists. split; [reflexivity|]. intros ld Hreach. split.
  - eapply reachable_no_shuffle_keys in Hreach; [|reflexivity].
    rewrite Hreach. cbn [DataLoaderJax.keys]. now apply new_fits.
  - eapply reachable_no_shuffle in Hreach; [exact Hreach | reflexivity].
Qed.

Lemma DataLoaderJax_unshuffled_never_draws_key_witness :
  let cfg := {| Config.rng_reserve_size := 0; Config.global_seed := 7 |} in
  exists ld0 : @DataLoaderJax.t Toy.jax Z,
    DataLoaderJax.__init__ cfg Toy.ds11 4 false true [] = Ok ld0
    /\ forall ld,
         DataLoaderJax.reachable cfg ld0 ld ->
         PRNGSequence.new (Config.global_seed cfg) = Ok (DataLoaderJax.keys ld)
         /\ DataLoaderJax.indices ld = arange 11.
Proof.
  intros cfg.
  apply (DataLoaderJax_unshuffled_never_draws_key Toy_jax_ok Z cfg Toy.ds11
           11 4 true []); [reflexivity | cbn; lia].
Defined.

(** X12.  What construction fails on before it looks at the batch policy:
    a configured seed that does not fit a signed 64-bit integer raises
    [OverflowError], whatever the dataset, since the key sequence is
    built first; with a seed that fits, a dataset without a buffer has no
    length and raises [IndexError].  A constructed loader therefore has a
    seed that fits and a dataset with at least one buffer.  Batch size,
    [drop_last] and the extra keyword arguments play no part. *)
Theorem DataLoaderJax_init_failures {J : JaxRandom} (A : Type)
    (cfg : Config.t) (ds : @ArrayDataset.t A) (B : Z) (sh dl : bool)
    (kw : list (string * Z)) :
  (~ - 2 ^ 63 <= Config.global_seed cfg < 2 ^ 63 ->
   DataLoaderJax.__init__ cfg ds B sh dl kw = Raise OverflowError)
  /\ (- 2 ^ 63 <= Config.global_seed cfg < 2 ^ 63 ->
      ArrayDataset.arrays ds = [] ->
      DataLoaderJax.__init__ cfg ds B sh dl kw = Raise IndexError)
  /\ (forall ld, DataLoaderJax.__init__ cfg ds B sh dl kw = Ok ld ->
      - 2 ^ 63 <= Config.global_seed cfg < 2 ^ 63
      /\ ArrayDataset.arrays ds <> []).
Proof.
  split; [|split].
  - intros Hseed. apply init_seed_overflow.
    destruct (fits_int64 (Config.global_seed cfg)) eqn:E; [|reflexivity].
    now apply fits_int64_spec in E.
  - intros Hseed Hno. apply fits_int64_spec in Hseed.
    rewrite (init_fits _ _ _ _ _ _ Hseed). unfold ArrayDataset.__len__.
    now rewrite Hno.
  - intros ld Hinit.
    pose proof (init_seed_fits _ _ _ _ _ _ _ Hinit) as Hfit.
    split; [now apply fits_int64_spec|].
    rewrite (init_fits _ _ _ _ _ _ Hfit) in Hinit.
    unfold ArrayDataset.__len__ in Hinit.
    destruct (ArrayDataset.arrays ds); [discriminate | discriminate].
Qed.

Lemma DataLoaderJax_init_failures_witness :
  let cfg := {| Config.rng_reserve_size := 1; Config.global_seed := 2 ^ 64 |} in
  @DataLoaderJax.__init__ Toy.jax Z cfg Toy.ds11 10 false false []
    = Raise OverflowError
  /\ @DataLoaderJax.__init__ Toy.jax Z Config.default
       {| ArrayDataset.arrays := [] |} 10 false false [] = Raise IndexError.
Proof.
  intros cfg. split.
  - apply (@DataLoaderJax_init_failures Toy.jax Z cfg Toy.ds11 10 false false []).
    cbn. lia.
  - apply (@DataLoaderJax_init_failures Toy.jax Z Config.default
             {| ArrayDataset.arrays := [] |} 10 false false []);
      [cbn; lia | reflexivity].
Defined.

(** X13.  [drop_last] only removes the short batch at the end: when two
    loaders over the same dataset with the same batch size, one with
    [drop_last] and one without, start an epoch with the same indices and
    keys, the batches of the first are the first [floor(n / B)] batches of
    the second, and both start their next epoch with the same indices and
    keys again. *)
Theorem DataLoaderJax_drop_last_is_prefix {J : JaxRandom}
    (Jok : JaxRandomOk J) (A : Type) (cfg : Config.t)
    (arrs : list (ndarray A)) (ds : ArrayDataset.t) (n B : Z) (sh : bool)
    (kw1 kw2 : list (string * Z)) (ld1 ld2 ldt ldf : DataLoaderJax.t)
    (fuel : nat) :
  ArrayDataset.__init__ arrs = Ok ds ->
  ArrayDataset.__len__ ds = Ok n ->
  0 < B ->
  DataLoaderJax.__init__ cfg ds B sh true kw1 = Ok ld1 ->
  DataLoaderJax.__init__ cfg ds B sh false kw2 = Ok ld2 ->
  DataLoaderJax.reachable cfg ld1 ldt ->
  DataLoaderJax.reachable cfg ld2 ldf ->
  DataLoaderJax.pose ldt = 0 ->
  DataLoaderJax.pose ldf = 0 ->
  DataLoaderJax.indices ldt = DataLoaderJax.indices ldf ->
  DataLoaderJax.keys ldt = DataLoaderJax.keys ldf ->
  (Z.to_nat (n / B) + 2 <= fuel)%nat ->
  exists bt bf ldt' ldf',
    DataLoaderJax.for_loop cfg fuel ldt = (ldt', DataLoaderJax.Done bt)
    /\ DataLoaderJax.for_loop cfg fuel ldf = (ldf', DataLoaderJax.Done bf)
    /\ bt = firstn (Z.to_nat (n / B)) bf
    /\ DataLoaderJax.indices ldt' = DataLoaderJax.indices ldf'
    /\ DataLoaderJax.keys ldt' = DataLoaderJax.keys ldf'
    /\ DataLoaderJax.pose ldt' = 0 /\ DataLoaderJax.pose ldf' = 0.
Proof.
  intros Hds Hlen HB Hi1 Hi2 Hr1 Hr2 Hp1 Hp2 Hix Hkeys Hfuel.
  destruct (epoch_facts cfg arrs ds n B sh true kw1 ld1 ldt fuel
              Hds Hlen HB Hi1 Hr1 Hp1 Hfuel)
    as (bt & ldt' & Hrt & Hreadyt & Hn & Hdt & HBt & Hsht & _ & Hct & Hpt').
  destruct (epoch_facts cfg arrs ds n B sh false kw2 ld2 ldf fuel
              Hds Hlen HB Hi2 Hr2 Hp2 Hfuel)
    as (bf & ldf' & Hrf & Hreadyf & _ & Hdf & HBf & Hshf & _ & Hcf & Hpf').
  exists bt, bf, ldt', ldf'.
  split; [exact Hrt|]. split; [exact Hrf|].
  pose proof (floor_bounds n B HB) as Hfl.
  pose proof (ceil_bounds n B HB) as Hce.
  pose proof (Z.div_pos n B Hn HB) as Hq.
  split; [|split; [|split; [|split]]]; try assumption.
  - apply nth_error_ext. intros k. rewrite nth_error_firstn.
    destruct (Nat.ltb_spec k (Z.to_nat (n / B))) as [Hk|Hk].
    + destruct (nth_error bt k) as [b1|] eqn:E1;
        [|apply nth_error_None in E1; lia].
      destruct (nth_error bf k) as [b2|] eqn:E2;
        [|apply nth_error_None in E2; nia].
      pose proof (iterate_nth_slice cfg fuel ldt ldt' bt k b1 ltac:(lia) Hp1
                    ltac:(rewrite (ready_indices_length cfg n ldt Hreadyt);
                          symmetry; apply Hreadyt) Hrt E1) as H1.
      pose proof (iterate_nth_slice cfg fuel ldf ldf' bf k b2 ltac:(lia) Hp2
                    ltac:(rewrite (ready_indices_length cfg n ldf Hreadyf);
                          symmetry; apply Hreadyf) Hrf E2) as H2.
      rewrite Hdt, HBt, Hix in H1. rewrite Hdf, HBf in H2. congruence.
    + apply nth_error_None. lia.
  - apply iterate_end in Hrt. apply iterate_end in Hrf.
    unfold DataLoaderJax._shuffle in Hrt, Hrf. cbn in Hrt, Hrf.
    rewrite Hsht in Hrt. rewrite Hshf in Hrf. rewrite Hkeys, Hix in Hrt.
    destruct sh.
    + destruct (PRNGSequence.__next__ cfg (DataLoaderJax.keys ldf))
        as [ks [k|e]]; [|discriminate].
      injection Hrt as <-. injection Hrf as <-. reflexivity.
    + injection Hrt as <-. injection Hrf as <-. cbn. exact Hix.
  - apply iterate_end in Hrt. apply iterate_end in Hrf.
    unfold DataLoaderJax._shuffle in Hrt, Hrf. cbn in Hrt, Hrf.
    rewrite Hsht in Hrt. rewrite Hshf in Hrf. rewrite Hkeys in Hrt.
    destruct sh.
    + destruct (PRNGSequence.__next__ cfg (DataLoaderJax.keys ldf))
        as [ks [k|e]]; [|discriminate].
      injection Hrt as <-. injection Hrf as <-. reflexivity.
    + injection Hrt as <-. injection Hrf as <-. cbn. exact Hkeys.
Qed.

Lemma DataLoaderJax_drop_last_is_prefix_witness :
  exists bt bf ldt' ldf',
    DataLoaderJax.for_loop Config.default 5 (Toy.loader 3 true)
      = (ldt', DataLoaderJax.Done bt)
    /\ DataLoaderJax.for_loop Config.default 5 (Toy.loader 3 false)
       = (ldf', DataLoaderJax.Done bf)
    /\ bt = firstn (Z.to_nat (11 / 3)) bf
    /\ DataLoaderJax.indices ldt' = DataLoaderJax.indices ldf'
    /\ DataLoaderJax.keys ldt' = DataLoaderJax.keys ldf'
    /\ DataLoaderJax.pose ldt' = 0 /\ DataLoaderJax.pose ldf' = 0.
Proof.
  apply (DataLoaderJax_drop_last_is_prefix Toy_jax_ok Z Config.default
           [Toy.feats; Toy.labels] Toy.ds11 11 3 true [] []
           (Toy.loader 3 true) (Toy.loader 3 false)
           (Toy.loader 3 true) (Toy.loader 3 false) 5);
    try reflexivity; try lia; constructor.
Defined.

(** ** Backend dispatch *)

Lemma dispatch_dataloader_other (backend : string) :
  backend <> "jax"%string -> backend <> "pytorch"%string ->
  Dispatch._dispatch_dataloader backend
  = Dispatch.Raised (Dispatch.ValueError Dispatch.BackendNotSupported).
Proof.
  intros Hj Hp. unfold Dispatch._dispatch_dataloader.
  change Dispatch.DataloaderBackends.supported with ["jax"; "pytorch"]%string.
  cbn [existsb].
  destruct (String.eqb_spec backend "jax"); [contradiction|].
  destruct (String.eqb_spec backend "pytorch"); [contradiction|].
  reflexivity.
Qed.

(** X14.  The backend table accepts exactly two names: ["jax"] selects
    [DataLoaderJax] and ["pytorch"] selects [DataLoaderPytorch]; every
    other string raises the unsupported-backend [ValueError], the declared
    but unprovided ["tensorflow"] and ["merlin"] included.  The call never
    returns [None] and never raises [KeyError]. *)
Theorem dispatch_dataloader_accepts_jax_and_pytorch (backend : string) :
  Dispatch.DataloaderBackends.supported = ["jax"; "pytorch"]%string
  /\ Dispatch._dispatch_dataloader "jax"
     = Dispatch.Returned (Some Dispatch.DataLoaderJax_class)
  /\ Dispatch._dispatch_dataloader "pytorch"
     = Dispatch.Returned (Some Dispatch.DataLoaderPytorch_class)
  /\ Dispatch._dispatch_dataloader "tensorflow"
     = Dispatch.Raised (Dispatch.ValueError Dispatch.BackendNotSupported)
  /\ Dispatch._dispatch_dataloader "merlin"
     = Dispatch.Raised (Dispatch.ValueError Dispatch.BackendNotSupported)
  /\ (backend <> "jax"%string -> backend <> "pytorch"%string ->
      Dispatch._dispatch_dataloader backend
      = Dispatch.Raised (Dispatch.ValueError Dispatch.BackendNotSupported)).
Proof.
  repeat (split; [reflexivity|]). apply dispatch_dataloader_other.
Qed.

Section DispatchFacts.
Context {J : JaxRandom} {A : Type}.
Variables (T H O F : Type).
Variable first_has_tensor : T -> Dispatch.outcome bool.
Variable with_format : H -> string -> H.
Variable foreign_init :
  Dispatch.loader_class -> @Dispatch.pyobject A T H O -> Z -> bool -> bool ->
  list (string * Z) -> Dispatch.outcome F.

Local Abbreviation dispatch :=
  (@Dispatch._dispatch_dataset_and_backend A T H O first_has_tensor with_format).
Local Abbreviation DataLoader :=
  (@Dispatch.DataLoader__init__ J A T H O first_has_tensor with_format
     F foreign_init).

Lemma not_pytorch (backend : string) :
  backend <> "pytorch"%string -> negb (String.eqb backend "pytorch") = true.
Proof. intros H0. now destruct (String.eqb_spec backend "pytorch"). Qed.

(** X15.  With torch installed, a torch dataset is accepted by the
    ["pytorch"] backend only.  Any other backend name, supported or not,
    raises the [ValueError] about pytorch datasets, before the backend
    name itself is checked; with ["pytorch"] the same object is handed
    on together with [DataLoaderPytorch] (when looking for tensors in its
    first item raises nothing). *)
Theorem dispatch_torch_dataset_needs_pytorch_backend (env : Dispatch.imports)
    (t : T) (backend : string) :
  Dispatch.torch_data env = true ->
  (backend <> "pytorch"%string ->
   dispatch env (Dispatch.TorchObject T H O t) backend
   = Dispatch.Raised
       (Dispatch.ValueError Dispatch.PytorchDatasetNeedsPytorchBackend))
  /\ dispatch env (Dispatch.TorchObject T H O t) "pytorch"
     = match first_has_tensor t with
       | Dispatch.Returned warned =>
           Dispatch.Returned (Dispatch.TorchObject T H O t, warned,
                              Some Dispatch.DataLoaderPytorch_class)
       | Dispatch.Raised e => Dispatch.Raised e
       end.
Proof.
  intros Htorch.
  unfold Dispatch._dispatch_dataset_and_backend, Dispatch.isinstance_torch.
  split.
  - intros Hb. now rewrite not_pytorch, Htorch.
  - cbn. rewrite Htorch. now destruct (first_has_tensor t).
Qed.

(** X16.  Without torch installed the main [DataLoader] cannot be
    constructed at all.  Every backend other than ["pytorch"], ["jax"]
    included, raises [AttributeError] for every dataset, because the
    dataset is tested against [torch_data.Dataset] while [torch_data] is
    [None]; and ["pytorch"] raises as well, [ModuleNotFoundError] for a
    dataset of this module. *)
Theorem DataLoader_needs_torch (env : Dispatch.imports) (cfg : Config.t)
    (dataset : Dispatch.pyobject T H O) (backend : string) (B : Z)
    (sh dl : bool) (kw : list (string * Z)) :
  Dispatch.torch_data env = false ->
  (backend <> "pytorch"%string ->
   dispatch env dataset backend = Dispatch.Raised Dispatch.AttributeError
   /\ DataLoader env cfg dataset backend B sh dl kw
      = Dispatch.Raised Dispatch.AttributeError)
  /\ (forall ds, dataset = Dispatch.CoreDataset T H O ds ->
      DataLoader env cfg dataset "pytorch" B sh dl kw
      = Dispatch.Raised Dispatch.ModuleNotFoundError)
  /\ exists e, DataLoader env cfg dataset backend B sh dl kw
               = Dispatch.Raised e.
Proof.
  intros Htorch.
  unfold Dispatch.DataLoader__init__.
  assert (Hother : backend <> "pytorch"%string ->
            dispatch env dataset backend
            = Dispatch.Raised Dispatch.AttributeError).
  { intros Hb.
    unfold Dispatch._dispatch_dataset_and_backend, Dispatch.isinstance_torch.
    now rewrite not_pytorch, Htorch. }
  split; [|split].
  - intros Hb. now rewrite Hother.
  - intros ds ->. cbn. unfold Dispatch._check_pytorch_installed.
    now rewrite Htorch.
  - destruct (String.eqb_spec backend "pytorch") as [->|Hb].
    + unfold Dispatch._dispatch_dataset_and_backend, Dispatch._dispatch_dataset,
        Dispatch._is_hf_dataset, Dispatch.construct,
        Dispatch._check_pytorch_installed.
      cbn [String.eqb Ascii.eqb Bool.eqb negb andb]. rewrite Htorch.
      destruct dataset, (Dispatch.hf_datasets env); cbn; rewrite ?Htorch; eauto.
    + rewrite (Hother Hb). eauto.
Qed.

(** X17.  With torch installed, the main [DataLoader] over a dataset of
    this module passes the dataset on unchanged: with ["jax"] it
    constructs exactly what [DataLoaderJax] constructs from the same
    arguments (the same loader, or the same exception); with ["pytorch"]
    it hands the same dataset, policy and keyword arguments to the torch
    loader and ends as that construction ends, with its loader or with
    its exception; any other backend name raises the unsupported-backend
    [ValueError]. *)
Theorem DataLoader_over_core_dataset (env : Dispatch.imports) (cfg : Config.t)
    (ds : @ArrayDataset.t A) (backend : string) (B : Z) (sh dl : bool)
    (kw : list (string * Z)) :
  Dispatch.torch_data env = true ->
  DataLoader env cfg (Dispatch.CoreDataset T H O ds) "jax" B sh dl kw
  = match DataLoaderJax.__init__ cfg ds B sh dl kw with
    | Ok ld => Dispatch.Returned (Dispatch.Native F ld)
    | Raise e => Dispatch.Raised (Dispatch.Core e)
    end
  /\ DataLoader env cfg (Dispatch.CoreDataset T H O ds) "pytorch" B sh dl kw
     = match foreign_init Dispatch.DataLoaderPytorch_class
               (Dispatch.CoreDataset T H O ds) B sh dl kw with
       | Dispatch.Returned f => Dispatch.Returned (Dispatch.Foreign F f)
       | Dispatch.Raised e => Dispatch.Raised e
       end
  /\ (backend <> "jax"%string -> backend <> "pytorch"%string ->
      DataLoader env cfg (Dispatch.CoreDataset T H O ds) backend B sh dl kw
      = Dispatch.Raised (Dispatch.ValueError Dispatch.BackendNotSupported)).
Proof.
  intros Htorch.
  unfold Dispatch.DataLoader__init__, Dispatch._dispatch_dataset_and_backend,
    Dispatch.isinstance_torch, Dispatch._check_pytorch_installed.
  split; [|split].
  - cbn. rewrite Htorch. cbn. reflexivity.
  - cbn. unfold Dispatch._check_pytorch_installed. now rewrite Htorch.
  - intros Hj Hp. rewrite not_pytorch, Htorch by exact Hp.
    cbn [Dispatch._dispatch_dataset].
    now rewrite (dispatch_dataloader_other backend Hj Hp).
Qed.
End DispatchFacts.

(** The dispatch statements at concrete objects: the other libraries'
    objects carry no data, no tensor is found and formatting is the
    identity. *)

Lemma dispatch_torch_dataset_needs_pytorch_backend_witness :
  let env := {| Dispatch.torch_data := true; Dispatch.hf_datasets := false |} in
  let probe := fun _ : unit => Dispatch.Returned false in
  let fmt := fun (h : unit) (_ : string) => h in
  ("jax"%string <> "pytorch"%string ->
   @Dispatch._dispatch_dataset_and_backend Z unit unit unit probe fmt env
     (Dispatch.TorchObject unit unit unit tt) "jax"
   = Dispatch.Raised
       (Dispatch.ValueError Dispatch.PytorchDatasetNeedsPytorchBackend))
  /\ @Dispatch._dispatch_dataset_and_backend Z unit unit unit probe fmt env
       (Dispatch.TorchObject unit unit unit tt) "pytorch"
     = match probe tt with
       | Dispatch.Returned warned =>
           Dispatch.Returned (Dispatch.TorchObject unit unit unit tt, warned,
                              Some Dispatch.DataLoaderPytorch_class)
       | Dispatch.Raised e => Dispatch.Raised e
       end.
Proof.
  intros env probe fmt.
  apply (@dispatch_torch_dataset_needs_pytorch_backend Z unit unit unit
           probe fmt env tt "jax").
  reflexivity.
Defined.

Lemma DataLoader_needs_torch_witness :
  let env := {| Dispatch.torch_data := false; Dispatch.hf_datasets := false |} in
  let probe := fun _ : unit => Dispatch.Returned false in
  let fmt := fun (h : unit) (_ : string) => h in
  let torch :=
    fun (_ : Dispatch.loader_class) (_ : @Dispatch.pyobject Z unit unit unit)
        (B : Z) (_ _ : bool) (_ : list (string * Z)) =>
      if 0 <? B then Dispatch.Returned tt
      else Dispatch.Raised (Dispatch.External "ValueError") in
  let dataset := Dispatch.CoreDataset unit unit unit Toy.ds11 in
  ("jax"%string <> "pytorch"%string ->
   @Dispatch._dispatch_dataset_and_backend Z unit unit unit probe fmt env
     dataset "jax" = Dispatch.Raised Dispatch.AttributeError
   /\ @Dispatch.DataLoader__init__ Toy.jax Z unit unit unit probe fmt unit torch
        env
        Config.default dataset "jax" 10 true false []
      = Dispatch.Raised Dispatch.AttributeError)
  /\ (forall ds, dataset = Dispatch.CoreDataset unit unit unit ds ->
      @Dispatch.DataLoader__init__ Toy.jax Z unit unit unit probe fmt unit torch
        env
        Config.default dataset "pytorch" 10 true false []
      = Dispatch.Raised Dispatch.ModuleNotFoundError)
  /\ exists e,
       @Dispatch.DataLoader__init__ Toy.jax Z unit unit unit probe fmt unit torch
        env
         Config.default dataset "jax" 10 true false []
       = Dispatch.Raised e.
Proof.
  intros env probe fmt torch dataset.
  apply (@DataLoader_needs_torch Toy.jax Z unit unit unit unit probe fmt torch
           env
           Config.default dataset "jax" 10 true false []).
  reflexivity.
Defined.

Lemma DataLoader_over_core_dataset_witness :
  let env := {| Dispatch.torch_data := true; Dispatch.hf_datasets := false |} in
  let probe := fun _ : unit => Dispatch.Returned false in
  let fmt := fun (h : unit) (_ : string) => h in
  let torch :=
    fun (_ : Dispatch.loader_class) (_ : @Dispatch.pyobject Z unit unit unit)
        (B : Z) (_ _ : bool) (_ : list (string * Z)) =>
      if 0 <? B then Dispatch.Returned tt
      else Dispatch.Raised (Dispatch.External "ValueError") in
  let dataset := Dispatch.CoreDataset unit unit unit Toy.ds11 in
  @Dispatch.DataLoader__init__ Toy.jax Z unit unit unit probe fmt unit torch
    env Config.default dataset "jax" 0 true false []
  = match DataLoaderJax.__init__ Config.default Toy.ds11 0 true false [] with
    | Ok ld => Dispatch.Returned (Dispatch.Native unit ld)
    | Raise e => Dispatch.Raised (Dispatch.Core e)
    end
  /\ @Dispatch.DataLoader__init__ Toy.jax Z unit unit unit probe fmt unit torch
       env Config.default dataset "pytorch" 0 true false []
     = match torch Dispatch.DataLoaderPytorch_class dataset 0 true false [] with
       | Dispatch.Returned f => Dispatch.Returned (Dispatch.Foreign unit f)
       | Dispatch.Raised e => Dispatch.Raised e
       end
  /\ ("merlin"%string <> "jax"%string -> "merlin"%string <> "pytorch"%string ->
      @Dispatch.DataLoader__init__ Toy.jax Z unit unit unit probe fmt unit torch
        env Config.default dataset "merlin" 0 true false []
      = Dispatch.Raised (Dispatch.ValueError Dispatch.BackendNotSupported)).
Proof.
  intros env probe fmt torch dataset.
  apply (@DataLoader_over_core_dataset Toy.jax Z unit unit unit unit probe fmt
           torch env Config.default Toy.ds11 "merlin" 0 true false []).
  reflexivity.
Defined.

(** ** DataLoaderJax: an epoch reads every sample once *)

Lemma samples_at_perm {A : Type} (col : ndarray A) (l : list A) (idx : list Z) :
  samples_at col l idx ->
  Permutation (arange (shape0 col)) idx ->
  Permutation col l.
Proof.
  intros Hs Hperm. destruct col as [|d col'] eqn:Hcol.
  - apply Permutation_nil in Hperm. subst idx. inversion Hs. constructor.
  - rewrite <- Hcol in *. clear Hcol col'.
    set (f := fun i : Z => nth (Z.to_nat i) col d).
    assert (Hl : l = map f idx).
    { clear Hperm. induction Hs as [|a i l idx Ha _ IH]; [reflexivity|].
      cbn [map]. rewrite <- IH. f_equal. symmetry.
      now apply nth_error_nth. }
    assert (Hc : map f (arange (shape0 col)) = col).
    { apply samples_at_arange. unfold samples_at.
      assert (Hgen : forall xs, Forall (fun i => 0 <= i < shape0 col) xs ->
                Forall2 (fun a i => nth_error col (Z.to_nat i) = Some a)
                        (map f xs) xs).
      { induction 1 as [|i rest Hi _ IH]; cbn [map]; constructor; [|exact IH].
        apply nth_error_nth'. unfold shape0 in Hi. lia. }
      apply Hgen, Forall_forall. intros i. apply arange_In. }
    rewrite Hl, <- Hc at 1. now apply Permutation_map.
Qed.

Lemma sum_perm (l1 l2 : list Z) :
  Permutation l1 l2 -> fold_right Z.add 0 l1 = fold_right Z.add 0 l2.
Proof. induction 1; cbn [fold_right]; lia. Qed.

(** X4.  An epoch without [drop_last] reads every sample exactly once:
    per buffer, the concatenation of the batches is a rearrangement of
    the buffer, shuffled or not.  So any quantity summed over the samples
    of an epoch equals its sum over the buffer, as the notebook's test
    checks with [jnp.sum]. *)
Theorem DataLoaderJax_epoch_is_rearrangement {J : JaxRandom}
    (Jok : JaxRandomOk J) (A : Type) (cfg : Config.t)
    (arrs : list (ndarray A)) (ds : ArrayDataset.t) (n B : Z) (sh : bool)
    (kw : list (string * Z)) (ld0 ld : DataLoaderJax.t) (fuel : nat) :
  ArrayDataset.__init__ arrs = Ok ds ->
  ArrayDataset.__len__ ds = Ok n ->
  0 < B ->
  DataLoaderJax.__init__ cfg ds B sh false kw = Ok ld0 ->
  DataLoaderJax.reachable cfg ld0 ld ->
  DataLoaderJax.pose ld = 0 ->
  (Z.to_nat (n / B) + 2 <= fuel)%nat ->
  exists batches ld',
    DataLoaderJax.for_loop cfg fuel ld = (ld', DataLoaderJax.Done batches)
    /\ forall j col,
         nth_error arrs j = Some col ->
         Permutation col (DataLoaderJax.column j batches)
         /\ forall value : A -> Z,
              fold_right Z.add 0 (map value (DataLoaderJax.column j batches))
              = fold_right Z.add 0 (map value col).
Proof.
  intros Hds Hlen HB Hinit Hreach Hpose Hfuel.
  destruct (reachable_ready cfg arrs ds B sh false kw ld0 ld Hds Hinit Hreach)
    as (n' & Hlen' & Hn & Hready & Hd & HBld & Hsh & Hdl).
  rewrite Hlen in Hlen'. injection Hlen' as <-.
  destruct (init_same_shape arrs ds n Hds Hlen) as [Harrs Hshape].
  destruct (iterate_from cfg n fuel ld Hready)
    as (batches & ld' & Hrun & _ & _ & _ & Hcols & _).
  { lia. }
  { lia. }
  { rewrite Hpose, HBld. now apply fuel_enough. }
  rewrite Hdl, Hpose, Hd, Harrs in Hcols. cbn [Z.to_nat skipn] in Hcols.
  exists batches, ld'. split; [exact Hrun|].
  intros j col Hcol.
  assert (Hp : Permutation col (DataLoaderJax.column j batches)).
  { apply (samples_at_perm col _ (DataLoaderJax.indices ld)).
    - now apply Hcols.
    - rewrite Forall_forall in Hshape.
      rewrite (Hshape col (nth_error_In _ _ Hcol)). apply Hready. }
  split; [exact Hp|].
  intros value. symmetry. now apply sum_perm, Permutation_map.
Qed.

Lemma DataLoaderJax_epoch_is_rearrangement_witness :
  exists batches ld',
    DataLoaderJax.for_loop Config.default 5 (Toy.loader 3 false)
      = (ld', DataLoaderJax.Done batches)
    /\ forall j col,
         nth_error [Toy.feats; Toy.labels] j = Some col ->
         Permutation col (DataLoaderJax.column j batches)
         /\ forall value : Z -> Z,
              fold_right Z.add 0 (map value (DataLoaderJax.column j batches))
              = fold_right Z.add 0 (map value col).
Proof.
  apply (DataLoaderJax_epoch_is_rearrangement Toy_jax_ok Z Config.default
           [Toy.feats; Toy.labels] Toy.ds11 11 3 true []
           (Toy.loader 3 false) (Toy.loader 3 false) 5);
    try reflexivity; try lia; constructor.
Defined.
